(** * chainproofserver: the x402 payment verifier

    A shallow embedding of [src/controllers/paymentController.js]
    (class [PaymentController]) together with the [Payment] model of
    [models/Payment.js], and the properties of the verification pipeline
    [verifyPayment].

    Conventions of the embedding:
    - a Node [Buffer] is a [list byte]; a JS string is a [string];
    - a JS [Number] that holds an integer is a [Z]; the two places where
      the code converts into a Number ([Number(bigint)] and
      [Number(decimalString)]) round to the 53-bit significand of a
      double, which is written out in [Number_round];
    - a thrown JS [Error] is a value of type [Error]; code that may throw
      lives in the monad [M], which threads the [Payment] collection and
      the log of calls made to the outside (database and RPC node);
    - the RPC node, the persistence layer and the clock are outside the
      repository: one [World] fixes what they answer during one call. *)

From Stdlib Require Import ZArith List String Ascii Lia Bool DecimalString.
From Stdlib.Strings Require Import Byte.
Import ListNotations.

Open Scope string_scope.
Open Scope Z_scope.

(* ================================================================== *)
(** ** JavaScript and Node primitives used by the controller *)
(* ================================================================== *)

Module JS.

(** A thrown [Error]; the controller only ever reads [error.message]. *)
Record Error : Type := mkError { message : string }.

(** The completion of a piece of code that may throw. *)
Inductive Completion (A : Type) : Type :=
| Normal (a : A)
| Throw (e : Error).
Arguments Normal {A} a.
Arguments Throw {A} e.

Definition Buffer : Type := list byte.

Definition byte_val (b : byte) : Z := Z.of_N (Byte.to_N b).

(** [String.prototype.includes]. *)
Fixpoint includes (s pat : string) : bool :=
  if String.prefix pat s then true
  else match s with
       | EmptyString => false
       | String _ rest => includes rest pat
       end.

(** Truthiness of a string: the empty string is falsy. *)
Definition truthy (s : string) : bool :=
  match s with EmptyString => false | _ => true end.

(** *** Numbers *)

(** Rounding of a non-negative integer to the nearest double, ties to
    even: integers below 2^53 are exact, larger ones keep 53 significant
    bits. *)
Definition round_magnitude (n : Z) : Z :=
  if n <? 2 ^ 53 then n
  else
    let e := Z.log2 n - 52 in
    let q := n / 2 ^ e in
    let r := n mod 2 ^ e in
    let half := 2 ^ (e - 1) in
    if r <? half then q * 2 ^ e
    else if half <? r then (q + 1) * 2 ^ e
    else if Z.even q then q * 2 ^ e
    else (q + 1) * 2 ^ e.

(** [Number(x)] for an integer [x] given as a BigInt or as a decimal
    string. *)
Definition Number_round (z : Z) : Z :=
  if z <? 0 then - round_magnitude (- z) else round_magnitude z.

(** [a - b] on two Numbers that hold integers: IEEE subtraction is the
    exact difference, rounded. *)
Definition Number_sub (a b : Z) : Z := Number_round (a - b).

(** The decimal digits of an integer. *)
Definition decimal (z : Z) : string := NilZero.string_of_int (Z.to_int z).

(** [Number::toString] keeps as few significant digits as identify the
    double: with [k] digits kept of a [len]-digit integer [n], the
    candidates are the multiples of [10^(len-k)] next to [n]; one that
    converts back to [n] is taken, the closer one first. *)
Definition roundTrip (n len k : Z) : option Z :=
  let p := 10 ^ (len - k) in
  let lo := n / p * p in
  let hi := lo + p in
  let okLo := Number_round lo =? n in
  let okHi := Number_round hi =? n in
  if okLo && okHi then
    if n - lo <? hi - n then Some lo
    else if hi - n <? n - lo then Some hi
    else if Z.even (lo / p) then Some lo else Some hi
  else if okLo then Some lo
  else if okHi then Some hi
  else None.

Fixpoint shortestFrom (fuel : nat) (n len k : Z) : Z :=
  match fuel with
  | O => n
  | S fuel' =>
      match roundTrip n len k with
      | Some v => v
      | None => shortestFrom fuel' n len (k + 1)
      end
  end.

(** What JS prints for a non-negative integer Number below 1e21: the
    number itself up to 2^53, and above it the shortest digits that
    identify it, followed by zeros. *)
Definition printed (n : Z) : Z :=
  if n <? 2 ^ 53 then n
  else
    let len := Z.of_nat (String.length (decimal n)) in
    shortestFrom (Z.to_nat len) n len 1.

(** [`${n}`] for a Number that holds an integer (below 1e21 in absolute
    value, where JS prints no exponent). *)
Definition Number_toString (z : Z) : string :=
  if z <? 0 then String "-"%char (decimal (printed (- z)))
  else decimal (printed z).

(** *** Buffers *)

Fixpoint le_value (bs : list byte) : Z :=
  match bs with
  | [] => 0
  | b :: rest => byte_val b + 256 * le_value rest
  end.

Definition dquote : string := String (ascii_of_nat 34) EmptyString.

(** The message of the RangeError of Node's [boundsError(value, length)],
    called by [readBigUInt64LE] with [length = buf.length - 8]. *)
Definition boundsError (offset : nat) (len : Z) : Error :=
  if len <? 0 then mkError "Attempt to access memory outside buffer bounds"
  else mkError ("The value of " ++ dquote ++ "offset" ++ dquote
                ++ " is out of range. It must be >= 0 and <= "
                ++ Number_toString len ++ ". Received "
                ++ Number_toString (Z.of_nat offset)).

(** [buf.readBigUInt64LE(offset)]: the eight bytes from [offset] on,
    little-endian; a RangeError when they are not all inside the buffer. *)
Definition readBigUInt64LE (buf : Buffer) (offset : nat) : Completion Z :=
  if Nat.leb (offset + 8) (List.length buf)
  then Normal (le_value (firstn 8 (skipn offset buf)))
  else Throw (boundsError offset (Z.of_nat (List.length buf) - 8)).

(** *** [Buffer.prototype.toString('base64')] *)

Definition b64_alphabet : string :=
  "ABCDEFGHIJKLMNOPQRSTUVWXYZabcdefghijklmnopqrstuvwxyz0123456789+/".

Definition b64_char (n : Z) : ascii :=
  match String.get (Z.to_nat n) b64_alphabet with
  | Some c => c
  | None => "="%char
  end.

Fixpoint toString_base64 (bs : list byte) : string :=
  match bs with
  | [] => ""
  | [a] =>
      let x := byte_val a in
      String (b64_char (x / 4)) (String (b64_char (x mod 4 * 16)) "==")
  | [a; b] =>
      let x := byte_val a in
      let y := byte_val b in
      String (b64_char (x / 4))
        (String (b64_char (x mod 4 * 16 + y / 16))
           (String (b64_char (y mod 16 * 4)) "="))
  | a :: b :: c :: rest =>
      let x := byte_val a in
      let y := byte_val b in
      let z := byte_val c in
      String (b64_char (x / 4))
        (String (b64_char (x mod 4 * 16 + y / 16))
           (String (b64_char (y mod 16 * 4 + z / 64))
              (String (b64_char (z mod 64)) (toString_base64 rest))))
  end.

(** *** [bs58.encode] *)

Definition b58_alphabet : string :=
  "123456789ABCDEFGHJKLMNPQRSTUVWXYZabcdefghijkmnopqrstuvwxyz".

Definition b58_char (n : Z) : ascii :=
  match String.get (Z.to_nat n) b58_alphabet with
  | Some c => c
  | None => "1"%char
  end.

Fixpoint be_value (bs : list byte) (acc : Z) : Z :=
  match bs with
  | [] => acc
  | b :: rest => be_value rest (acc * 256 + byte_val b)
  end.

Fixpoint b58_digits (fuel : nat) (n : Z) (acc : string) : string :=
  match fuel with
  | O => acc
  | S fuel' =>
      if n =? 0 then acc
      else b58_digits fuel' (n / 58) (String (b58_char (n mod 58)) acc)
  end.

Fixpoint leading_zero_bytes (bs : list byte) : string :=
  match bs with
  | b :: rest =>
      if byte_val b =? 0 then String "1"%char (leading_zero_bytes rest)
      else ""
  | [] => ""
  end.

(** Every leading zero byte gives a ['1']; the rest is the big-endian
    number in base 58.  Two digits per byte are more than the number
    needs, so the fuel never runs out. *)
Definition bs58_encode (bs : list byte) : string :=
  leading_zero_bytes bs
  ++ b58_digits (2 * List.length bs) (be_value bs 0) "".

End JS.

Import JS.

(* ================================================================== *)
(** ** Data model *)
(* ================================================================== *)

(** *** Decoded transactions ([@solana/web3.js]) *)

(** A public key, by its base58 form ([toBase58]); [equals] is equality
    of these. *)
Definition PublicKey : Type := string.

(** [TOKEN_PROGRAM_ID] of [@solana/spl-token]. *)
Definition TOKEN_PROGRAM_ID : PublicKey :=
  "TokenkegQfeZyiNwAJbNbGKPFXCWuBvf9Ss623VQ5DA".

Record AccountMeta : Type := mkAccountMeta {
  pubkey : PublicKey;
  isSigner : bool;
  isWritable : bool
}.

Record TransactionInstruction : Type := mkInstruction {
  programId : PublicKey;
  keys : list AccountMeta;
  data : Buffer
}.

(** [signature] is [null] for a signature slot that was never signed. *)
Record SignaturePubkeyPair : Type := mkSignature {
  signature : option Buffer;
  publicKey : PublicKey
}.

Record Transaction : Type := mkTransaction {
  signatures : list SignaturePubkeyPair;
  instructions : list TransactionInstruction
}.

(** *** The finalized transaction returned by [getTransaction] *)

Record TokenBalance : Type := mkTokenBalance {
  accountIndex : Z;
  tb_mint : string;
  (** [owner]: optional, a node may leave it out *)
  tb_owner : option string;
  (** [uiTokenAmount.amount]: the raw amount, sent as a decimal string *)
  uiTokenAmount_amount : Z
}.

Record TransactionMeta : Type := mkMeta {
  (** [null] when the transaction succeeded, else the error as JSON *)
  meta_err : option string;
  preTokenBalances : option (list TokenBalance);
  postTokenBalances : option (list TokenBalance);
  logMessages : option (list string)
}.

Record TransactionResponse : Type := mkTxDetails {
  tx_blockTime : option Z;
  tx_slot : Z;
  meta : option TransactionMeta
}.

(** *** The [Payment] model ([models/Payment.js]) *)

Inductive Status : Type := pending | confirmed | failed.

Definition Status_eqb (a b : Status) : bool :=
  match a, b with
  | pending, pending | confirmed, confirmed | failed, failed => true
  | _, _ => false
  end.

(** One document of the [Payment] collection. *)
Record Payment : Type := mkPayment {
  userId : option string;
  transactionSignature : string;
  amount : Z;
  tokenMint : string;
  senderWallet : option string;
  recipientWallet : string;
  endpoint : string;
  status : Status;
  blockTime : option Z;
  slot : option Z;
  network : string;
  x402Version : Z;
  verifiedAt : option Z;
  createdAt : Z;
  (** kept by Mongoose: the schema has [timestamps: true] *)
  updatedAt : Z
}.

(** The object literal handed to [createPaymentRecord].  The record of a
    failed confirmation has no [blockTime], [slot] and [verifiedAt] keys
    ([None]); the confirmed one sets them. *)
Record PaymentData : Type := mkPaymentData {
  pd_userId : option string;
  pd_transactionSignature : string;
  pd_amount : Z;
  pd_tokenMint : string;
  pd_senderWallet : option string;
  pd_recipientWallet : string;
  pd_endpoint : string;
  pd_status : Status;
  pd_blockTime : option (option Z);
  pd_slot : option Z;
  pd_network : string;
  pd_verifiedAt : option Z
}.

(** *** The controller's configuration (the fields set by the
    constructor) *)

Record PaymentController : Type := mkController {
  paymentWallet : string;
  requiredAmount : Z;
  cfg_tokenMint : string;
  cfg_network : string
}.

(* ================================================================== *)
(** ** The outside world during one call, and the monad of the code *)
(* ================================================================== *)

(** Calls that leave the process, in the order they are made. *)
Inductive Event : Type :=
| DbFindOne (key : string)
| DbFindOneAndUpdate (paymentData : PaymentData)
| RpcSimulateTransaction (transaction : Transaction)
| RpcSendRawTransaction (raw : Buffer)
| RpcConfirmTransaction (sig : string)
| RpcGetTransaction (sig : string).

(** What the libraries and the collaborators answer during one call of
    [verifyPayment].  Each collaborator is called at most once per call,
    so an answer per request is all a call can observe. *)
Record World : Type := mkWorld {
  (** [Buffer.from(s, 'base64')] *)
  Buffer_from_base64 : string -> Buffer;
  (** [Transaction.from(buffer)] *)
  Transaction_from : Buffer -> Completion Transaction;
  (** an I/O error of [Payment.findOne], if any *)
  findOne_error : option Error;
  (** an I/O error of [Payment.findOneAndUpdate], if any *)
  findOneAndUpdate_error : option Error;
  (** [connection.simulateTransaction]: [value.err] as JSON, or [null] *)
  simulateTransaction_rpc : Transaction -> Completion (option string);
  (** [connection.sendRawTransaction]: the signature the node returns *)
  sendRawTransaction_rpc : Buffer -> Completion string;
  (** [connection.confirmTransaction]: [value.err] as JSON, or [null] *)
  confirmTransaction_rpc : string -> Completion (option string);
  (** [connection.getTransaction]: the finalized transaction, or [null] *)
  getTransaction_rpc : string -> Completion (option TransactionResponse);
  (** [new Date()] and [Date.now()] *)
  now : Z
}.

(** The state a call runs in: the [Payment] collection and the log of
    outside calls. *)
Record State : Type := mkState {
  collection : list Payment;
  log : list Event
}.

Definition M (A : Type) : Type := State -> Completion A * State.

Definition ret {A} (a : A) : M A := fun s => (Normal a, s).

Definition throw {A} (e : Error) : M A := fun s => (Throw e, s).

Definition bind {A B} (m : M A) (k : A -> M B) : M B :=
  fun s =>
    match m s with
    | (Normal a, s') => k a s'
    | (Throw e, s') => (Throw e, s')
    end.

(** [try { m } catch (error) { handler(error) }] *)
Definition try_catch {A} (m : M A) (handler : Error -> M A) : M A :=
  fun s =>
    match m s with
    | (Normal a, s') => (Normal a, s')
    | (Throw e, s') => handler e s'
    end.

Definition lift {A} (c : Completion A) : M A := fun s => (c, s).

Definition emit (ev : Event) : M unit :=
  fun s => (Normal tt, mkState (collection s) (log s ++ [ev])%list).

Notation "x <- m ;; k" := (bind m (fun x => k))
  (at level 61, m at next level, right associativity).
Notation "m ;;; k" := (bind m (fun _ => k))
  (at level 61, right associativity).

(* ================================================================== *)
(** ** The persistence layer: [Payment.findOne] and
       [Payment.findOneAndUpdate] *)
(* ================================================================== *)

(** The first document with the given [transactionSignature]. *)
Definition lookup (key : string) (docs : list Payment) : option Payment :=
  find (fun d => String.eqb (transactionSignature d) key) docs.

(** The update sets every key of the object, and [updatedAt] to the
    date of the update; keys the object lacks keep the document's
    value. *)
Definition applyUpdate (date : Z) (pd : PaymentData) (d : Payment)
  : Payment :=
  {| userId := pd_userId pd;
     transactionSignature := pd_transactionSignature pd;
     amount := pd_amount pd;
     tokenMint := pd_tokenMint pd;
     senderWallet := pd_senderWallet pd;
     recipientWallet := pd_recipientWallet pd;
     endpoint := pd_endpoint pd;
     status := pd_status pd;
     blockTime := match pd_blockTime pd with
                  | Some v => v
                  | None => blockTime d
                  end;
     slot := match pd_slot pd with Some v => Some v | None => slot d end;
     network := pd_network pd;
     x402Version := x402Version d;
     verifiedAt := match pd_verifiedAt pd with
                   | Some v => Some v
                   | None => verifiedAt d
                   end;
     createdAt := createdAt d;
     updatedAt := date |}.

(** The document an upsert inserts: the object's keys, the schema's
    defaults and the two timestamps. *)
Definition newDocument (date : Z) (pd : PaymentData) : Payment :=
  {| userId := pd_userId pd;
     transactionSignature := pd_transactionSignature pd;
     amount := pd_amount pd;
     tokenMint := pd_tokenMint pd;
     senderWallet := pd_senderWallet pd;
     recipientWallet := pd_recipientWallet pd;
     endpoint := pd_endpoint pd;
     status := pd_status pd;
     blockTime := match pd_blockTime pd with Some v => v | None => None end;
     slot := pd_slot pd;
     network := pd_network pd;
     x402Version := 1;
     verifiedAt := pd_verifiedAt pd;
     createdAt := date;
     updatedAt := date |}.

(** [findOneAndUpdate(filter, update, { upsert: true, new: true })] on
    the collection: the first match is updated in place, and a new
    document is appended when there is none.  Returns the new collection
    and the document after the update. *)
Fixpoint upsert (date : Z) (pd : PaymentData) (docs : list Payment)
  : list Payment * Payment :=
  match docs with
  | [] => ([newDocument date pd], newDocument date pd)
  | d :: rest =>
      if String.eqb (transactionSignature d) (pd_transactionSignature pd)
      then (applyUpdate date pd d :: rest, applyUpdate date pd d)
      else let '(rest', p) := upsert date pd rest in (d :: rest', p)
  end.

Definition Payment_findOne (w : World) (key : string)
  : M (option Payment) :=
  emit (DbFindOne key) ;;;
  match findOne_error w with
  | Some e => throw e
  | None => fun s => (Normal (lookup key (collection s)), s)
  end.

Definition Payment_findOneAndUpdate (w : World) (pd : PaymentData)
  : M Payment :=
  emit (DbFindOneAndUpdate pd) ;;;
  match findOneAndUpdate_error w with
  | Some e => throw e
  | None =>
      fun s =>
        let '(docs, p) := upsert (now w) pd (collection s) in
        (Normal p, mkState docs (log s))
  end.

(* ================================================================== *)
(** ** The controller *)
(* ================================================================== *)

(** *** [validateTransactionInstructions] *)

(** [{ valid: false, error }] or [{ valid: true, amount, sender }]. *)
Inductive ValidationResult : Type :=
| Invalid (error : string)
| Valid (amount : Z) (sender : option string).

(** What the loop leaves in [transferInstruction], [amount] and
    [senderTokenAccount] when it stops at an instruction. *)
Record FoundTransfer : Type := mkFound {
  transferInstruction : TransactionInstruction;
  found_amount : Z;
  senderTokenAccount : option string
}.

(** [instructionData[0] === 3] *)
Definition isTransferData (d : Buffer) : bool :=
  match d with
  | b :: _ => byte_val b =? 3
  | [] => false
  end.

(** The [for ... of] loop: it stops ([break]) at the first instruction of
    the token program whose first data byte is 3; reading the amount may
    throw. *)
Fixpoint scanInstructions (instrs : list TransactionInstruction)
  : Completion (option FoundTransfer) :=
  match instrs with
  | [] => Normal None
  | instruction :: rest =>
      if String.eqb (programId instruction) TOKEN_PROGRAM_ID then
        if isTransferData (data instruction) then
          match readBigUInt64LE (data instruction) 1 with
          | Throw e => Throw e
          | Normal big =>
              Normal (Some
                {| transferInstruction := instruction;
                   found_amount := Number_round big;
                   senderTokenAccount :=
                     if Nat.leb 2 (List.length (keys instruction)) then
                       match keys instruction with
                       | k :: _ => Some (pubkey k)
                       | [] => None
                       end
                     else None |})
          end
        else scanInstructions rest
      else scanInstructions rest
  end.

Definition validateTransactionInstructions (this : PaymentController)
    (transaction : Transaction) : ValidationResult :=
  match instructions transaction with
  | [] => Invalid "No instructions in transaction"
  | _ =>
      match scanInstructions (instructions transaction) with
      | Throw e => Invalid ("Transaction validation failed: " ++ message e)
      | Normal None => Invalid "No SPL token transfer instruction found"
      | Normal (Some f) =>
          if found_amount f <? requiredAmount this then
            Invalid ("Insufficient payment amount. Required: "
                     ++ Number_toString (requiredAmount this)
                     ++ ", Received: " ++ Number_toString (found_amount f))
          else Valid (found_amount f) (senderTokenAccount f)
      end
  end.

(** *** [simulateTransaction] *)

Inductive SimulationResult : Type :=
| SimInvalid (error : string)
| SimValid.

Definition simulateTransaction (w : World) (transaction : Transaction)
  : M SimulationResult :=
  try_catch
    (emit (RpcSimulateTransaction transaction) ;;;
     err <- lift (simulateTransaction_rpc w transaction) ;;
     match err with
     | Some e => ret (SimInvalid ("Transaction simulation failed: " ++ e))
     | None => ret SimValid
     end)
    (fun error => ret (SimInvalid ("Simulation error: " ++ message error))).

(** *** [confirmTransaction] *)

Inductive ConfirmationResult : Type :=
| ConfirmFailure (error : string)
| ConfirmSuccess.

Definition confirmTransaction (w : World) (sig : string)
  : M ConfirmationResult :=
  try_catch
    (emit (RpcConfirmTransaction sig) ;;;
     err <- lift (confirmTransaction_rpc w sig) ;;
     match err with
     | Some e => ret (ConfirmFailure ("Transaction failed: " ++ e))
     | None => ret ConfirmSuccess
     end)
    (fun error =>
       ret (ConfirmFailure ("Confirmation error: " ++ message error))).

(** *** [parseTokenTransfers] *)

(** A value of [accountMap]. *)
Record AccountEntry : Type := mkEntry {
  pre : Z;
  post : Z;
  owner : option string;
  mint : string
}.

(** An element of [transfers]. *)
Record Transfer : Type := mkTransfer {
  destination : string;
  t_mint : string;
  t_amount : Z;
  t_accountIndex : Z
}.

(** A JS [Map] keeps its keys in insertion order; [set] on a key that is
    present replaces the value where it stands. *)
Definition AccountMap : Type := list (Z * AccountEntry).

Fixpoint Map_get (k : Z) (m : AccountMap) : option AccountEntry :=
  match m with
  | [] => None
  | (k', v) :: rest => if k' =? k then Some v else Map_get k rest
  end.

Fixpoint Map_set (k : Z) (v : AccountEntry) (m : AccountMap) : AccountMap :=
  match m with
  | [] => [(k, v)]
  | (k', v') :: rest =>
      if k' =? k then (k, v) :: rest else (k', v') :: Map_set k v rest
  end.

(** [preBalances.forEach(...)] *)
Definition processPre (m : AccountMap) (b : TokenBalance) : AccountMap :=
  Map_set (accountIndex b)
    {| pre := Number_round (uiTokenAmount_amount b);
       post := 0;
       owner := tb_owner b;
       mint := tb_mint b |} m.

(** [postBalances.forEach(...)]; [existing.post = ...] changes the entry
    that the map holds. *)
Definition processPost (m : AccountMap) (b : TokenBalance) : AccountMap :=
  match Map_get (accountIndex b) m with
  | Some existing =>
      Map_set (accountIndex b)
        {| pre := pre existing;
           post := Number_round (uiTokenAmount_amount b);
           owner := owner existing;
           mint := mint existing |} m
  | None =>
      Map_set (accountIndex b)
        {| pre := 0;
           post := Number_round (uiTokenAmount_amount b);
           owner := tb_owner b;
           mint := tb_mint b |} m
  end.

Definition buildAccountMap (preBalances postBalances : list TokenBalance)
  : AccountMap :=
  fold_left processPost postBalances (fold_left processPre preBalances []).

(** [accountMap.forEach(...)]: the accounts whose balance went up.  The
    callback logs [account.owner.substring(0, 8)] before it pushes: at
    an entry without owner this throws and the loop ends.  Returns the
    transfers pushed, and whether the loop threw. *)
Fixpoint increases (m : AccountMap) : list Transfer * bool :=
  match m with
  | [] => ([], false)
  | (index, account) :: rest =>
      let diff := Number_sub (post account) (pre account) in
      match owner account with
      | None => ([], true)
      | Some accountOwner =>
          let '(transfers, threw) := increases rest in
          if 0 <? diff then
            ({| destination := accountOwner;
                t_mint := mint account;
                t_amount := diff;
                t_accountIndex := index |} :: transfers, threw)
          else (transfers, threw)
      end
  end.

(** [balance.owner === wallet] *)
Definition ownerIs (wallet : string) (b : TokenBalance) : bool :=
  match tb_owner b with
  | Some o => String.eqb o wallet
  | None => false
  end.

(** [txDetails.meta.logMessages?.some(...)] *)
Definition hasTokenTransfer (m : TransactionMeta) : bool :=
  match logMessages m with
  | Some logs =>
      existsb (fun l => includes l "Instruction: Transfer"
                        && includes l "success") logs
  | None => false
  end.

(** The branch taken when no balance went up and the transaction
    succeeded: a successful transfer in the logs and a post-balance of
    the payment wallet count as a transfer of the required amount. *)
Definition settledTransfer (this : PaymentController) (m : TransactionMeta)
    (postBalances : list TokenBalance) : list Transfer :=
  match meta_err m with
  | None =>
      if hasTokenTransfer m then
        match find (fun b => ownerIs (paymentWallet this) b
                             && String.eqb (tb_mint b) (cfg_tokenMint this))
                   postBalances with
        | Some recipientAccount =>
            match tb_owner recipientAccount with
            | Some recipientOwner =>
                [ {| destination := recipientOwner;
                     t_mint := tb_mint recipientAccount;
                     t_amount := requiredAmount this;
                     t_accountIndex := accountIndex recipientAccount |} ]
            | None => []
            end
        | None => []
        end
      else []
  | Some _ => []
  end.

(** The body is one [try]: when the loop over the map throws, the
    [catch] logs the error, the branch after the loop is not reached and
    the transfers pushed so far are returned. *)
Definition parseTokenTransfers (this : PaymentController)
    (txDetails : TransactionResponse) : list Transfer :=
  match meta txDetails with
  | Some m =>
      match postTokenBalances m, preTokenBalances m with
      | Some postBalances, Some preBalances =>
          let '(transfers, threw) :=
            increases (buildAccountMap preBalances postBalances) in
          if threw then transfers
          else
            match transfers with
            | [] => settledTransfer this m postBalances
            | _ => transfers
            end
      | _, _ => []
      end
  | None => []
  end.

(** *** [verifyOnChainTransfer] *)

Inductive TransferVerification : Type :=
| TransferFailure (error : string)
| TransferSuccess (amount : Z) (blockTime : option Z) (slot : Z).

Definition isPaymentTransfer (this : PaymentController) (t : Transfer)
  : bool :=
  includes (destination t) (paymentWallet this)
  && String.eqb (t_mint t) (cfg_tokenMint this).

Definition verifyOnChainTransfer (this : PaymentController) (w : World)
    (sig : string) (expectedSender : option string) (expectedAmount : Z)
  : M TransferVerification :=
  try_catch
    (emit (RpcGetTransaction sig) ;;;
     txDetails <- lift (getTransaction_rpc w sig) ;;
     match txDetails with
     | None => ret (TransferFailure "Transaction not found on chain")
     | Some txDetails =>
         let tokenTransfers := parseTokenTransfers this txDetails in
         match find (isPaymentTransfer this) tokenTransfers with
         | None => ret (TransferFailure "No matching token transfer found")
         | Some paymentTransfer =>
             if t_amount paymentTransfer <? requiredAmount this then
               ret (TransferFailure
                      ("Insufficient amount transferred. Required: "
                       ++ Number_toString (requiredAmount this)
                       ++ ", Got: "
                       ++ Number_toString (t_amount paymentTransfer)))
             else
               ret (TransferSuccess (t_amount paymentTransfer)
                      (tx_blockTime txDetails) (tx_slot txDetails))
         end
     end)
    (fun error =>
       ret (TransferFailure
              ("On-chain verification failed: " ++ message error))).

(** *** [createPaymentRecord] *)

Definition createPaymentRecord (w : World) (paymentData : PaymentData)
  : M Payment :=
  try_catch (Payment_findOneAndUpdate w paymentData)
            (fun error => throw error).

(** *** [verifyPayment] *)

(** The object [verifyPayment] returns: [{ success: true, payment,
    message }] or [{ success: false, error }]. *)
Record VerifyResult : Type := mkResult {
  success : bool;
  payment : option Payment;
  r_message : option string;
  error : option string
}.

(** [transaction.signatures[0]], when it is there and holds a signature
    (the test [!signature || !signature.signature] fails). *)
Definition firstSignature (transaction : Transaction) : option Buffer :=
  match signatures transaction with
  | s :: _ => signature s
  | [] => None
  end.

(** The test of the [catch] of step 6 on [error.message]. *)
Definition alreadyProcessed (msg : string) : bool :=
  truthy msg
  && (includes msg "already processed"
      || includes msg "already been processed"
      || includes msg "This transaction has already been processed").

(** Step 6: submit, or recover the signature of a transaction the node
    has already processed. *)
Definition submitTransaction (w : World) (transaction : Transaction)
    (transactionBuffer : Buffer) : M string :=
  try_catch
    (emit (RpcSendRawTransaction transactionBuffer) ;;;
     lift (sendRawTransaction_rpc w transactionBuffer))
    (fun error =>
       if alreadyProcessed (message error) then
         match firstSignature transaction with
         | Some sig => ret (bs58_encode sig)
         | None =>
             throw (mkError
               "Cannot extract signature from already processed transaction")
         end
       else
         throw (mkError
                  ("Transaction submission failed: " ++ message error))).

(** The record written when confirmation fails (step 7). *)
Definition failedPaymentData (this : PaymentController)
    (userId : option string) (txSignature : string) (amount : Z)
    (sender : option string) (endpoint : string) : PaymentData :=
  {| pd_userId := userId;
     pd_transactionSignature := txSignature;
     pd_amount := amount;
     pd_tokenMint := cfg_tokenMint this;
     pd_senderWallet := sender;
     pd_recipientWallet := paymentWallet this;
     pd_endpoint := endpoint;
     pd_status := failed;
     pd_blockTime := None;
     pd_slot := None;
     pd_network := cfg_network this;
     pd_verifiedAt := None |}.

(** The record written at step 9. *)
Definition confirmedPaymentData (this : PaymentController) (w : World)
    (userId : option string) (txSignature : string) (amount : Z)
    (sender : option string) (endpoint : string)
    (blockTime : option Z) (slot : Z) : PaymentData :=
  {| pd_userId := userId;
     pd_transactionSignature := txSignature;
     pd_amount := amount;
     pd_tokenMint := cfg_tokenMint this;
     pd_senderWallet := sender;
     pd_recipientWallet := paymentWallet this;
     pd_endpoint := endpoint;
     pd_status := confirmed;
     pd_blockTime := Some blockTime;
     pd_slot := Some slot;
     pd_network := cfg_network this;
     pd_verifiedAt := Some (now w) |}.

Definition successResult (p : Payment) (msg : string) : VerifyResult :=
  {| success := true; payment := Some p; r_message := Some msg;
     error := None |}.

Definition failureResult (msg : string) : VerifyResult :=
  {| success := false; payment := None; r_message := None;
     error := Some msg |}.

(** Steps 7 to 9: confirm, check the transfer on chain, write the
    record. *)
Definition settlePayment (this : PaymentController) (w : World)
    (endpoint : string) (userId : option string)
    (amount : Z) (sender : option string) (txSignature : string)
  : M VerifyResult :=
  confirmation <- confirmTransaction w txSignature ;;
  match confirmation with
  | ConfirmFailure e =>
      createPaymentRecord w
        (failedPaymentData this userId txSignature amount sender
           endpoint) ;;;
      throw (mkError e)
  | ConfirmSuccess =>
      transferVerification <-
        verifyOnChainTransfer this w txSignature sender amount ;;
      match transferVerification with
      | TransferFailure e => throw (mkError e)
      | TransferSuccess onChainAmount blockTime slot =>
          payment <-
            createPaymentRecord w
              (confirmedPaymentData this w userId txSignature
                 onChainAmount sender endpoint blockTime slot) ;;
          ret (successResult payment "Payment verified and confirmed")
      end
  end.

(** Steps 4 to 9, inside the [try] of [verifyPayment]. *)
Definition processPayment (this : PaymentController) (w : World)
    (transaction : Transaction) (transactionBuffer : Buffer)
    (endpoint : string) (userId : option string) : M VerifyResult :=
  match validateTransactionInstructions this transaction with
  | Invalid e => throw (mkError e)
  | Valid amount sender =>
      simulationResult <- simulateTransaction w transaction ;;
      match simulationResult with
      | SimInvalid e => throw (mkError e)
      | SimValid =>
          txSignature <- submitTransaction w transaction transactionBuffer ;;
          settlePayment this w endpoint userId amount sender txSignature
      end
  end.

(** Steps 1 to 3 and what follows them, the body of the [try]. *)
Definition verifyPaymentBody (this : PaymentController) (w : World)
    (serializedTransaction endpoint : string) (userId : option string)
  : M VerifyResult :=
  let transactionBuffer := Buffer_from_base64 w serializedTransaction in
  transaction <- lift (Transaction_from w transactionBuffer) ;;
  match firstSignature transaction with
  | None => throw (mkError "Invalid transaction signature")
  | Some sig =>
      let signatureBase58 := toString_base64 sig in
      existingPayment <- Payment_findOne w signatureBase58 ;;
      match existingPayment with
      | Some p =>
          match status p with
          | confirmed => ret (successResult p "Payment already confirmed")
          | failed =>
              throw (mkError "Transaction previously failed verification")
          | pending =>
              processPayment this w transaction transactionBuffer endpoint
                userId
          end
      | None =>
          processPayment this w transaction transactionBuffer endpoint
            userId
      end
  end.

(** [verifyPayment]: the whole body is inside one [try], whose [catch]
    turns the error into a result. *)
Definition verifyPayment (this : PaymentController) (w : World)
    (serializedTransaction endpoint : string) (userId : option string)
  : M VerifyResult :=
  try_catch (verifyPaymentBody this w serializedTransaction endpoint userId)
            (fun e => ret (failureResult (message e))).

(** The events of a log that change something outside: submissions,
    simulations and database writes. *)
Definition isSubmission (ev : Event) : bool :=
  match ev with RpcSendRawTransaction _ => true | _ => false end.

Definition isSimulation (ev : Event) : bool :=
  match ev with RpcSimulateTransaction _ => true | _ => false end.

Definition isWrite (ev : Event) : bool :=
  match ev with DbFindOneAndUpdate _ => true | _ => false end.

(** Running a call from a collection, with an empty log. *)
Definition run {A} (m : M A) (docs : list Payment)
  : Completion A * State :=
  m (mkState docs []).

(** The documents of a collection with a given signature. *)
Definition recordsOf (key : string) (docs : list Payment) : list Payment :=
  filter (fun d => String.eqb (transactionSignature d) key) docs.

(* ================================================================== *)
(** ** A concrete deployment and concrete calls *)
(* ================================================================== *)

(** The configuration of the scenarios of the specification: a minimum
    of 100000 minor units. *)
Definition controller : PaymentController :=
  {| paymentWallet := "9xQeWvG816bUx9EPjHmaT23yvVM2ZWbrrpZb9PusVFin";
     requiredAmount := 100000;
     cfg_tokenMint := "4zMMC9srt5Ri5X14GAgXhaHii3GnPAEERYPJgZJDncDU";
     cfg_network := "solana-devnet" |}.

(** A 64-byte signature. *)
Definition SIG_A : Buffer := repeat x2a 64.

Definition senderAccount : PublicKey :=
  "5Q544fKrFoe6tsEbD7S8EmxGTJYAKtTVhAW5Q5pge4j1".
Definition recipientAccount : PublicKey :=
  "7UX2i7SucgLMQcfZ75s3VXmZZY4YRUyJN9X1RgfMoDUi".
Definition payer : PublicKey :=
  "DRpbCBMxVnDK7maPM5tGv6MvB3v1sRMC86PZ8okm21hy".

(** The data of an SPL-token [Transfer]: the type byte 3, then the
    amount as eight little-endian bytes. *)
Definition transferData (b0 b1 b2 : byte) : Buffer :=
  [x03; b0; b1; b2; x00; x00; x00; x00; x00].

Definition transferInstructionOf (d : Buffer) (ks : list AccountMeta)
  : TransactionInstruction :=
  {| programId := TOKEN_PROGRAM_ID; keys := ks; data := d |}.

Definition threeKeys : list AccountMeta :=
  [ mkAccountMeta senderAccount false true;
    mkAccountMeta recipientAccount false true;
    mkAccountMeta payer true false ].

Definition signedBy (sig : option Buffer)
    (instrs : list TransactionInstruction) : Transaction :=
  {| signatures := [ {| signature := sig; publicKey := payer |} ];
     instructions := instrs |}.

(** A transfer of 100000 (0x0186a0), signed. *)
Definition txPay : Transaction :=
  signedBy (Some SIG_A)
    [transferInstructionOf (transferData xa0 x86 x01) threeKeys].

(** A transfer of 50000 (0xc350), signed. *)
Definition txSmall : Transaction :=
  signedBy (Some SIG_A)
    [transferInstructionOf (transferData x50 xc3 x00) threeKeys].

(** A transfer of 100000 whose instruction lists one account only. *)
Definition txOneKey : Transaction :=
  signedBy (Some SIG_A)
    [transferInstructionOf (transferData xa0 x86 x01)
       [mkAccountMeta senderAccount false true]].

(** A transfer whose amount field is the largest unsigned 64-bit
    integer, 2^64 - 1. *)
Definition txHuge : Transaction :=
  signedBy (Some SIG_A)
    [transferInstructionOf [x03; xff; xff; xff; xff; xff; xff; xff; xff]
       threeKeys].

(** A signed transaction whose only instruction is a memo. *)
Definition txMemo : Transaction :=
  signedBy (Some SIG_A)
    [ {| programId := "MemoSq4gqABAXKb96qnH8TysNcWxMyWCqXgDLGmfcHr";
         keys := []; data := [x68; x69] |} ].

(** The memo transaction and the small transfer, never signed. *)
Definition txMemoUnsigned : Transaction :=
  signedBy None (instructions txMemo).

Definition txSmallUnsigned : Transaction :=
  signedBy None (instructions txSmall).

(** A document written earlier under [key]. *)
Definition earlierRecord (key : string) (st : Status) : Payment :=
  {| userId := None;
     transactionSignature := key;
     amount := 100000;
     tokenMint := cfg_tokenMint controller;
     senderWallet := Some senderAccount;
     recipientWallet := paymentWallet controller;
     endpoint := "/api/mu-checker/analyze";
     status := st;
     blockTime := None;
     slot := None;
     network := cfg_network controller;
     x402Version := 1;
     verifiedAt := None;
     createdAt := 900;
     updatedAt := 900 |}.

(** Token balances of a finalized transaction: the sender's account
    (index 1) goes from 500000 to [500000 - paid], the payment wallet's
    account (index 2) from 0 to [paid]. *)
Definition balancesBefore : list TokenBalance :=
  [ mkTokenBalance 1 (cfg_tokenMint controller) (Some payer) 500000;
    mkTokenBalance 2 (cfg_tokenMint controller)
      (Some (paymentWallet controller))
      0 ].

Definition balancesAfter (paid : Z) : list TokenBalance :=
  [ mkTokenBalance 1 (cfg_tokenMint controller) (Some payer)
      (500000 - paid);
    mkTokenBalance 2 (cfg_tokenMint controller)
      (Some (paymentWallet controller))
      paid ].

Definition finalized (before after : list TokenBalance)
  : TransactionResponse :=
  {| tx_blockTime := Some 1700000000;
     tx_slot := 250000000;
     meta := Some {| meta_err := None;
                     preTokenBalances := Some before;
                     postTokenBalances := Some after;
                     logMessages := Some [] |} |}.

(** A world in which the blob decodes to [tx], the database answers and
    the node gives the stated answers. *)
Definition world (tx : Transaction)
    (send : Completion string) (confirm : Completion (option string))
    (fetched : option TransactionResponse) (date : Z) : World :=
  {| Buffer_from_base64 := fun _ => [];
     Transaction_from := fun _ => Normal tx;
     findOne_error := None;
     findOneAndUpdate_error := None;
     simulateTransaction_rpc := fun _ => Normal None;
     sendRawTransaction_rpc := fun _ => send;
     confirmTransaction_rpc := fun _ => confirm;
     getTransaction_rpc := fun _ => Normal fetched;
     now := date |}.

(** The node accepts the transaction, confirms it and shows [paid]
    arriving at the payment wallet. *)
Definition worldAccepted (tx : Transaction) (paid date : Z) : World :=
  world tx (Normal (bs58_encode SIG_A)) (Normal None)
    (Some (finalized balancesBefore (balancesAfter paid))) date.

(** The node accepts the transaction and then fails to confirm it. *)
Definition worldUnconfirmed (tx : Transaction) (date : Z) : World :=
  world tx (Normal (bs58_encode SIG_A))
    (Throw (mkError "Transaction was not confirmed in 30.00 seconds"))
    None date.

(** The error of [sendRawTransaction] for a transaction the node has
    already processed. *)
Definition nodeAlreadyProcessed : Error :=
  mkError ("failed to send transaction: Transaction simulation failed: "
           ++ "This transaction has already been processed").

(** The node has the transaction already: submission is refused, the
    transaction is confirmed and shows [paid] arriving. *)
Definition worldAlreadyProcessed (tx : Transaction) (paid date : Z)
  : World :=
  world tx
    (Throw nodeAlreadyProcessed)
    (Normal None)
    (Some (finalized balancesBefore (balancesAfter paid))) date.

(** The node has the transaction already and says so when asked to
    simulate it: [value.err] is the JSON string ["AlreadyProcessed"]. *)
Definition worldSimulationRefused (tx : Transaction) (date : Z) : World :=
  {| Buffer_from_base64 := fun _ => [];
     Transaction_from := fun _ => Normal tx;
     findOne_error := None;
     findOneAndUpdate_error := None;
     simulateTransaction_rpc :=
       fun _ => Normal (Some (dquote ++ "AlreadyProcessed" ++ dquote));
     sendRawTransaction_rpc := fun _ => Throw nodeAlreadyProcessed;
     confirmTransaction_rpc := fun _ => Normal None;
     getTransaction_rpc := fun _ => Normal None;
     now := date |}.

(** The node has the transaction already, and it failed on chain. *)
Definition worldProcessedAndFailed (tx : Transaction) (date : Z) : World :=
  world tx
    (Throw nodeAlreadyProcessed)
    (Normal (Some "{InstructionError:[0,{Custom:1}]}"))
    None date.

(** The finalized transaction of a payment of 100000 and the transfer
    that [parseTokenTransfers] reads off it. *)
Definition finalizedPayment : TransactionResponse :=
  finalized balancesBefore (balancesAfter 100000).

Definition transferToWallet : Transfer :=
  {| destination := paymentWallet controller;
     t_mint := cfg_tokenMint controller;
     t_amount := 100000;
     t_accountIndex := 2 |}.

(** Two calls with the same blob, one after the other: the first in
    [first], the second in [second], on the collection the first one
    left. *)
Definition firstCall (first : World) : Completion VerifyResult * State :=
  run (verifyPayment controller first "blob" "/api/mu-checker/analyze"
         None) [].

Definition secondCall (first second : World)
  : Completion VerifyResult * State :=
  run (verifyPayment controller second "blob" "/api/mu-checker/analyze"
         None) (collection (snd (firstCall first))).

(** The character [c] occurs in the string [s]. *)
Definition occurs (c : ascii) (s : string) : Prop :=
  In c (list_ascii_of_string s).

(** What a node returns from [sendRawTransaction] is the base58 form of
    some signature. *)
Definition returnsBase58 (w : World) : Prop :=
  forall buf r,
    sendRawTransaction_rpc w buf = Normal r -> exists sig, r = bs58_encode sig.

(** *** The balance metadata, read account by account *)

(** The balance that a list of token balances shows for an account
    index; an account the list does not mention counts as 0. *)
Definition balanceAt (idx : Z) (bs : list TokenBalance) : Z :=
  match find (fun b => accountIndex b =? idx) bs with
  | Some b => uiTokenAmount_amount b
  | None => 0
  end.

(** A token account of the payment wallet (its owner string contains the
    wallet) for the expected mint. *)
Definition isRecipientBalance (this : PaymentController) (b : TokenBalance)
  : bool :=
  match tb_owner b with
  | Some o => includes o (paymentWallet this)
  | None => false
  end
  && String.eqb (tb_mint b) (cfg_tokenMint this).

(** Every balance carries its owner, and every entry of a map. *)
Definition ownedAccounts (bs : list TokenBalance) : Prop :=
  Forall (fun b => tb_owner b <> None) bs.

Definition ownedEntries (m : AccountMap) : Prop :=
  Forall (fun entry => owner (snd entry) <> None) m.

(** Every account index is listed once. *)
Definition distinctAccounts (bs : list TokenBalance) : Prop :=
  NoDup (map accountIndex bs).

(** Every amount is a safe integer of JS: what [Number] makes of it is
    the amount itself. *)
Definition safeAmounts (bs : list TokenBalance) : Prop :=
  Forall (fun b => 0 <= uiTokenAmount_amount b < 2 ^ 53) bs.

(** The entry of an account that only has a pre-balance, and of one
    that only has a post-balance. *)
Definition preEntry (b : TokenBalance) : AccountEntry :=
  {| pre := Number_round (uiTokenAmount_amount b); post := 0;
     owner := tb_owner b; mint := tb_mint b |}.

Definition postEntry (existing : option AccountEntry) (b : TokenBalance)
  : AccountEntry :=
  match existing with
  | Some e =>
      {| pre := pre e; post := Number_round (uiTokenAmount_amount b);
         owner := owner e; mint := mint e |}
  | None =>
      {| pre := 0; post := Number_round (uiTokenAmount_amount b);
         owner := tb_owner b; mint := tb_mint b |}
  end.

(** The transfer that [accountMap.forEach] pushes for an entry of
    [accountOwner]. *)
Definition transferOf (index : Z) (accountOwner : string)
    (account : AccountEntry) : Transfer :=
  {| destination := accountOwner;
     t_mint := mint account;
     t_amount := Number_sub (post account) (pre account);
     t_accountIndex := index |}.

(** Two token accounts of the payment wallet (indices 2 and 3): the
    first receives 50000, the second 100000. *)
Definition twoAccountsBefore : list TokenBalance :=
  [ mkTokenBalance 1 (cfg_tokenMint controller) (Some payer) 500000;
    mkTokenBalance 2 (cfg_tokenMint controller)
      (Some (paymentWallet controller))
      0;
    mkTokenBalance 3 (cfg_tokenMint controller)
      (Some (paymentWallet controller))
      0 ].

Definition twoAccountsAfter : list TokenBalance :=
  [ mkTokenBalance 1 (cfg_tokenMint controller) (Some payer) 350000;
    mkTokenBalance 2 (cfg_tokenMint controller)
      (Some (paymentWallet controller))
      50000;
    mkTokenBalance 3 (cfg_tokenMint controller)
      (Some (paymentWallet controller))
      100000 ].

Definition worldTwoAccounts : World :=
  world txPay (Normal (bs58_encode SIG_A)) (Normal None)
    (Some (finalized twoAccountsBefore twoAccountsAfter)) 1000.

(** The state after some more outside calls. *)
Definition logged (st : State) (evs : list Event) : State :=
  mkState (collection st) (log st ++ evs)%list.

(** Step 3 lets the call through: no record, or a pending one. *)
Definition blocks (existingPayment : option Payment) : bool :=
  match existingPayment with
  | Some p => negb (Status_eqb (status p) pending)
  | None => false
  end.

(** The instruction the loop of [validateTransactionInstructions] stops
    at: addressed to the token program, first data byte 3. *)
Definition isTokenTransfer (i : TransactionInstruction) : bool :=
  String.eqb (programId i) TOKEN_PROGRAM_ID && isTransferData (data i).

(** The amount field of a transfer instruction, as the Number the
    validator reads: data bytes 1 to 8, little-endian. *)
Definition decodedAmount (i : TransactionInstruction) : Z :=
  Number_round (le_value (firstn 8 (skipn 1 (data i)))).

(** The sender the validator reports for a transfer instruction. *)
Definition reportedSender (i : TransactionInstruction) : option string :=
  if Nat.leb 2 (List.length (keys i))
  then option_map pubkey (hd_error (keys i))
  else None.

Definition insufficientPayment (this : PaymentController) (received : Z)
  : string :=
  "Insufficient payment amount. Required: "
  ++ Number_toString (requiredAmount this)
  ++ ", Received: " ++ Number_toString received.

(** The rejection of a transaction in which the loop finds no transfer. *)
Definition noTransferMessage (instrs : list TransactionInstruction)
  : string :=
  match instrs with
  | [] => "No instructions in transaction"
  | _ => "No SPL token transfer instruction found"
  end.

(** What [simulateTransaction] and [confirmTransaction] make of the
    node's answer. *)
Definition simulationOf (w : World) (tx : Transaction) : SimulationResult :=
  match simulateTransaction_rpc w tx with
  | Normal None => SimValid
  | Normal (Some e) => SimInvalid ("Transaction simulation failed: " ++ e)
  | Throw e => SimInvalid ("Simulation error: " ++ message e)
  end.

Definition confirmationOf (w : World) (sig : string) : ConfirmationResult :=
  match confirmTransaction_rpc w sig with
  | Normal None => ConfirmSuccess
  | Normal (Some e) => ConfirmFailure ("Transaction failed: " ++ e)
  | Throw e => ConfirmFailure ("Confirmation error: " ++ message e)
  end.

(** A write carries the sender that the validator reported for the
    transaction. *)
Definition senderFromValidation (this : PaymentController)
    (tx : Transaction) (ev : Event) : Prop :=
  forall pd,
    ev = DbFindOneAndUpdate pd ->
    exists amount,
      validateTransactionInstructions this tx
      = Valid amount (pd_senderWallet pd).

(** The shape of a result that accepts the payment. *)
Definition accepted (r : VerifyResult) : Prop :=
  exists p msg, r = successResult p msg.

(** The [catch] of [verifyPayment], applied to what its [try] body
    left. *)
Definition caught (c : Completion VerifyResult * State)
  : Completion VerifyResult * State :=
  match c with
  | (Normal r, st') => (Normal r, st')
  | (Throw e, st') => (Normal (failureResult (message e)), st')
  end.

(** The log holds nothing but the lookup of step 3. *)
Definition onlyLookups (evs : list Event) : Prop :=
  Forall (fun ev => exists key, ev = DbFindOne key) evs.

(** The unique index on [transactionSignature]. *)
Definition uniqueSignatures (docs : list Payment) : Prop :=
  NoDup (map transactionSignature docs).

(** *** Three properties of a computation, each closed under the monad's
    operations *)

(** [emits P m]: running [m] only adds events that satisfy [P]. *)
Definition emits {A} (P : Event -> Prop) (m : M A) : Prop :=
  forall st, exists evs,
    log (snd (m st)) = (log st ++ evs)%list /\ Forall P evs.

(** [keeps I m]: running [m] preserves the invariant [I] of the
    collection. *)
Definition keeps {A} (I : list Payment -> Prop) (m : M A) : Prop :=
  forall st, I (collection st) -> I (collection (snd (m st))).

(** [returns Q m]: whenever [m] completes normally, its value
    satisfies [Q]. *)
Definition returns {A} (Q : A -> Prop) (m : M A) : Prop :=
  forall st a st', m st = (Normal a, st') -> Q a.

(* ================================================================== *)
(** ** The rest of the pipeline, step by step *)
(* ================================================================== *)

Definition insufficientTransfer (this : PaymentController) (got : Z)
  : string :=
  "Insufficient amount transferred. Required: "
  ++ Number_toString (requiredAmount this)
  ++ ", Got: " ++ Number_toString got.

(** What [verifyOnChainTransfer] makes of the node's answer to
    [getTransaction]. *)
Definition transferCheck (this : PaymentController)
    (answer : Completion (option TransactionResponse))
  : TransferVerification :=
  match answer with
  | Throw e =>
      TransferFailure ("On-chain verification failed: " ++ message e)
  | Normal None => TransferFailure "Transaction not found on chain"
  | Normal (Some txDetails) =>
      match find (isPaymentTransfer this)
              (parseTokenTransfers this txDetails) with
      | None => TransferFailure "No matching token transfer found"
      | Some paymentTransfer =>
          if t_amount paymentTransfer <? requiredAmount this
          then TransferFailure
                 (insufficientTransfer this (t_amount paymentTransfer))
          else TransferSuccess (t_amount paymentTransfer)
                 (tx_blockTime txDetails) (tx_slot txDetails)
      end
  end.

(** What step 6 makes of the node's answer to [sendRawTransaction]. *)
Definition submissionOf (w : World) (tx : Transaction) (buf : Buffer)
  : Completion string :=
  match sendRawTransaction_rpc w buf with
  | Normal txSignature => Normal txSignature
  | Throw e =>
      if alreadyProcessed (message e) then
        match firstSignature tx with
        | Some sig => Normal (bs58_encode sig)
        | None =>
            Throw (mkError
              "Cannot extract signature from already processed transaction")
        end
      else Throw (mkError ("Transaction submission failed: " ++ message e))
  end.

(** The outside calls of one [verifyPayment], in the only orders the
    pipeline makes them: the lookup, the simulation, the submission, the
    confirmation, and then either the write of the failed record, or the
    fetch of the finalized transaction and, after it, the write of the
    confirmed record.  The pipeline may stop after any of them, but not
    between a failed confirmation and its write. *)
Definition pipelineOrder (evs : list Event) : bool :=
  match evs with
  | [] => true
  | DbFindOne _ :: afterLookup =>
      match afterLookup with
      | [] => true
      | RpcSimulateTransaction _ :: afterSimulation =>
          match afterSimulation with
          | [] => true
          | RpcSendRawTransaction _ :: afterSubmission =>
              match afterSubmission with
              | [] => true
              | [RpcConfirmTransaction sig; DbFindOneAndUpdate pd] =>
                  String.eqb (pd_transactionSignature pd) sig
                  && Status_eqb (pd_status pd) failed
              | [RpcConfirmTransaction sig; RpcGetTransaction sig'] =>
                  String.eqb sig' sig
              | [RpcConfirmTransaction sig; RpcGetTransaction sig';
                 DbFindOneAndUpdate pd] =>
                  String.eqb sig' sig
                  && String.eqb (pd_transactionSignature pd) sig
                  && Status_eqb (pd_status pd) confirmed
              | _ => false
              end
          | _ => false
          end
      | _ => false
      end
  | _ => false
  end.

(** *** [paymentSchema.methods.isExpired] ([models/Payment.js]) *)

(** Older than five minutes and still pending; [date] is [Date.now()]. *)
Definition Payment_isExpired (date : Z) (p : Payment) : bool :=
  if negb (Status_eqb (status p) pending) then false
  else createdAt p <? date - 5 * 60 * 1000.

(** *** More answers of the node and of the database *)

(** The error of [sendRawTransaction] for a transaction whose blockhash
    the node no longer knows. *)
Definition nodeBlockhashNotFound : Error :=
  mkError ("failed to send transaction: Transaction simulation failed: "
           ++ "Blockhash not found").

(** The node simulates the transaction and then refuses to take it. *)
Definition worldSubmissionRefused (tx : Transaction) (date : Z) : World :=
  world tx (Throw nodeBlockhashNotFound) (Normal None) None date.

(** The node takes the transaction and confirms it, but does not have
    its finalized form yet: [getTransaction] answers [null]. *)
Definition worldNotFound (tx : Transaction) (date : Z) : World :=
  world tx (Normal (bs58_encode SIG_A)) (Normal None) None date.

(** The world [w] with a database that refuses every write. *)
Definition withWriteError (w : World) (e : Error) : World :=
  {| Buffer_from_base64 := Buffer_from_base64 w;
     Transaction_from := Transaction_from w;
     findOne_error := findOne_error w;
     findOneAndUpdate_error := Some e;
     simulateTransaction_rpc := simulateTransaction_rpc w;
     sendRawTransaction_rpc := sendRawTransaction_rpc w;
     confirmTransaction_rpc := confirmTransaction_rpc w;
     getTransaction_rpc := getTransaction_rpc w;
     now := now w |}.

Definition mongoTimeout : Error :=
  mkError "Operation `payments.findOneAndUpdate()` buffering timed out after 10000ms".

(** A finalized transaction in which no token balance moved, that
    succeeded, and whose log has a line with both [Instruction:
    Transfer] and [success]. *)
Definition finalizedSettled : TransactionResponse :=
  {| tx_blockTime := Some 1700000000;
     tx_slot := 250000000;
     meta := Some {| meta_err := None;
                     preTokenBalances := Some (balancesAfter 100000);
                     postTokenBalances := Some (balancesAfter 100000);
                     logMessages :=
                       Some ["Program log: Instruction: Transfer success"]
                  |} |}.

(** The listing that gives an account of the map its owner and mint: the
    pre-balance of the account index, or else its post-balance. *)
Definition listedAt (k : Z) (preBalances postBalances : list TokenBalance)
  : option TokenBalance :=
  match find (fun b => accountIndex b =? k) preBalances with
  | Some b => Some b
  | None => find (fun b => accountIndex b =? k) postBalances
  end.

(* ================================================================== *)
(** ** The x402 middleware ([middleware/auth.js]) *)
(* ================================================================== *)

(** *** JS values *)

(** A Number: [m * 2^e], an infinity or NaN. *)
Inductive JSNumber : Type :=
| Finite (m e : Z)
| Infinite (negative : bool)
| NaN.

(** What [JSON.parse] returns and what [res.json] is given: plain
    values, with the properties of an object in their order. *)
#[warnings="-register-all"]
Inductive Value : Type :=
| VUndefined
| VNull
| VBool (b : bool)
| VNumber (n : JSNumber)
| VString (s : string)
| VArray (items : list Value)
| VObject (properties : list (string * Value)).

(** Truthiness. *)
Definition ToBoolean (v : Value) : bool :=
  match v with
  | VUndefined | VNull => false
  | VBool b => b
  | VNumber (Finite m _) => negb (m =? 0)
  | VNumber (Infinite _) => true
  | VNumber NaN => false
  | VString s => truthy s
  | VArray _ | VObject _ => true
  end.

(** [v.key], for a key that no prototype defines: reading a property of
    [null] or [undefined] throws a TypeError, a primitive or an array
    has no such property, an object may have it. *)
Definition Get (v : Value) (key : string) : Completion Value :=
  match v with
  | VUndefined =>
      Throw (mkError ("Cannot read properties of undefined (reading '"
                      ++ key ++ "')"))
  | VNull =>
      Throw (mkError ("Cannot read properties of null (reading '"
                      ++ key ++ "')"))
  | VObject properties =>
      match find (fun p => String.eqb (fst p) key) properties with
      | Some p => Normal (snd p)
      | None => Normal VUndefined
      end
  | _ => Normal VUndefined
  end.

(** *** The request, and what the middleware does with it *)

(** [req.user], as [verifyToken] and [verifyApiKey] attach it; [_id] is
    an ObjectId. *)
Record User : Type := mkUser {
  _id : string;
  username : string;
  email : string;
  user_isActive : bool
}.

(** A document of the [APIKey] model ([models/APIKey.js]), and the
    object that [toObject] makes of it. *)
Record Permissions : Type := mkPermissions {
  analyze : bool;
  riskScore : bool;
  fullAnalysis : bool;
  batch : bool;
  registration : bool
}.

Record RateLimit : Type := mkRateLimit {
  requestsPerMinute : Z;
  requestsPerDay : Z
}.

Record APIKey : Type := mkAPIKey {
  apiKey_id : string;
  (** absent when the query left it out ([select('-key')]) *)
  key : option string;
  (** not a path of the schema: [toJSON] adds it *)
  keyPreview : option string;
  apiKey_userId : string;
  apiKey_name : string;
  isActive : bool;
  lastUsed : option Z;
  usageCount : Z;
  permissions : Permissions;
  rateLimit : RateLimit;
  (** [null] means no expiration *)
  expiresAt : option Z;
  apiKey_createdAt : Z
}.

Record Request : Type := mkRequest {
  (** [req.headers['x-payment']] *)
  x_payment : option string;
  (** [req.headers['x-api-key']] *)
  x_api_key : option string;
  originalUrl : string;
  url : string;
  (** [req.user] *)
  req_user : option User;
  (** [req.apiKey] *)
  req_apiKey : option APIKey;
  (** [req.payment] *)
  req_payment : option Payment
}.

(** What a middleware does to the outside: it calls [next()], with the
    request as it then stands, or sends [res.status(code).json(body)]. *)
Inductive Action : Type :=
| CallNext (req : Request)
| Send (code : Z) (body : Value).

(** What the middleware reads from its environment. *)
Record Env : Type := mkEnv {
  (** [process.env.X402_ENABLED] *)
  X402_ENABLED : option string;
  (** [JSON.parse] *)
  JSON_parse : string -> Completion Value;
  (** [Buffer.from(v, 'base64')] for a value that is no string *)
  Buffer_from : Value -> Completion Buffer
}.

(** The database, of type [S], and the actions taken so far. *)
Record HState (S : Type) : Type := mkHState {
  db : S;
  actions : list Action
}.

Arguments mkHState {S} db actions.
Arguments db {S} h.
Arguments actions {S} h.

(** Code of a middleware: it may throw, and what it did before it threw
    stays done. *)
Definition Handler (S A : Type) : Type :=
  HState S -> Completion A * HState S.

Definition hret {S A} (a : A) : Handler S A := fun s => (Normal a, s).

Definition hbind {S A B} (m : Handler S A) (k : A -> Handler S B)
  : Handler S B :=
  fun s =>
    match m s with
    | (Normal a, s') => k a s'
    | (Throw e, s') => (Throw e, s')
    end.

Definition htry {S A} (m : Handler S A) (handler : Error -> Handler S A)
  : Handler S A :=
  fun s =>
    match m s with
    | (Normal a, s') => (Normal a, s')
    | (Throw e, s') => handler e s'
    end.

Definition hlift {S A} (c : Completion A) : Handler S A :=
  fun s => (c, s).

(** A call of the controller, which works on the database. *)
Definition fromM {A} (m : M A) : Handler State A :=
  fun s =>
    let '(c, st) := m (db s) in (c, mkHState st (actions s)).

Definition act {S} (a : Action) : Handler S unit :=
  fun s => (Normal tt, mkHState (db s) (actions s ++ [a])%list).

Notation "x <-- m ;; k" := (hbind m (fun x => k))
  (at level 61, m at next level, right associativity).

(** [next()]: the handlers behind run, and may throw. *)
Definition callNext {S} (next : Request -> Completion unit)
    (req : Request) : Handler S unit :=
  _ <-- act (CallNext req) ;; hlift (next req).

(** [res.status(code).json(body)] *)
Definition send {S} (code : Z) (body : Value) : Handler S unit :=
  act (Send code body).

(** *** [getPaymentRequirements] *)

Record PaymentRequirements : Type := mkRequirements {
  pr_recipient : string;
  pr_amount : Z;
  pr_token : string;
  pr_network : string
}.

Definition getPaymentRequirements (this : PaymentController)
  : PaymentRequirements :=
  {| pr_recipient := paymentWallet this;
     pr_amount := requiredAmount this;
     pr_token := cfg_tokenMint this;
     pr_network := cfg_network this |}.

(** *** [verifyX402Payment] *)

(** The bodies of the responses. *)
Definition paymentRequiredBody (this : PaymentController) : Value :=
  let paymentRequirements := getPaymentRequirements this in
  VObject
    [("success", VBool false);
     ("error", VString "Payment required");
     ("paymentRequired", VBool true);
     ("x402",
      VObject
        [("version", VNumber (Finite 1 0));
         ("recipient", VString (pr_recipient paymentRequirements));
         ("amount", VNumber (Finite (pr_amount paymentRequirements) 0));
         ("token", VString (pr_token paymentRequirements));
         ("network", VString (pr_network paymentRequirements));
         ("message",
          VString ("This endpoint requires payment. Please include a valid"
                   ++ " payment transaction in the X-PAYMENT header."))])].

Definition errorBody (msg : string) : Value :=
  VObject [("success", VBool false); ("error", VString msg)].

Definition verificationFailedBody (verificationResult : VerifyResult)
  : Value :=
  VObject
    [("success", VBool false);
     ("error", VString "Payment verification failed");
     ("details", match error verificationResult with
                 | Some e => VString e
                 | None => VUndefined
                 end);
     ("paymentRequired", VBool true)].

(** [!paymentData.x402Version || !paymentData.scheme ||
    !paymentData.network || !paymentData.payload] *)
Definition missingFields (paymentData : Value) : Completion bool :=
  match Get paymentData "x402Version" with
  | Throw e => Throw e
  | Normal x402Version =>
      if negb (ToBoolean x402Version) then Normal true
      else
        match Get paymentData "scheme" with
        | Throw e => Throw e
        | Normal scheme =>
            if negb (ToBoolean scheme) then Normal true
            else
              match Get paymentData "network" with
              | Throw e => Throw e
              | Normal network =>
                  if negb (ToBoolean network) then Normal true
                  else
                    match Get paymentData "payload" with
                    | Throw e => Throw e
                    | Normal payload => Normal (negb (ToBoolean payload))
                    end
              end
        end
  end.

(** The world in which [Buffer.from] gives [buf]. *)
Definition withBuffer (w : World) (buf : Buffer) : World :=
  {| Buffer_from_base64 := fun _ => buf;
     Transaction_from := Transaction_from w;
     findOne_error := findOne_error w;
     findOneAndUpdate_error := findOneAndUpdate_error w;
     simulateTransaction_rpc := simulateTransaction_rpc w;
     sendRawTransaction_rpc := sendRawTransaction_rpc w;
     confirmTransaction_rpc := confirmTransaction_rpc w;
     getTransaction_rpc := getTransaction_rpc w;
     now := now w |}.

(** [paymentController.verifyPayment(v, endpoint, userId)] for the value
    the header carries.  [verifyPayment] uses its first argument in
    [Buffer.from(serializedTransaction, 'base64')] only, inside its
    [try]: for a value that is no string, [Buffer.from] throws or gives
    a buffer of its own. *)
Definition verifyPayment_of (env : Env) (this : PaymentController)
    (w : World) (serializedTransaction : Value) (endpoint : string)
    (userId : option string) : M VerifyResult :=
  match serializedTransaction with
  | VString s => verifyPayment this w s endpoint userId
  | v =>
      match Buffer_from env v with
      | Normal buf =>
          verifyPayment this (withBuffer w buf) EmptyString endpoint userId
      | Throw e => ret (failureResult (message e))
      end
  end.

Definition withPayment (req : Request) (p : option Payment) : Request :=
  {| x_payment := x_payment req;
     x_api_key := x_api_key req;
     originalUrl := originalUrl req;
     url := url req;
     req_user := req_user req;
     req_apiKey := req_apiKey req;
     req_payment := p |}.

Definition verifyX402Payment (env : Env) (this : PaymentController)
    (w : World) (req : Request) (next : Request -> Completion unit)
  : Handler State unit :=
  htry
    (let x402Enabled :=
       match X402_ENABLED env with
       | Some v => String.eqb v "true"
       | None => false
       end in
     if negb x402Enabled then callNext next req
     else
       let paymentHeader := x_payment req in
       match paymentHeader with
       | None => send 402 (paymentRequiredBody this)
       | Some EmptyString => send 402 (paymentRequiredBody this)
       | Some paymentHeader =>
           match JSON_parse env paymentHeader with
           | Throw parseError =>
               send 400
                 (errorBody "Invalid X-PAYMENT header format. Expected JSON.")
           | Normal paymentData =>
               missing <-- hlift (missingFields paymentData) ;;
               if (missing : bool) then
                 send 400
                   (errorBody
                      "Invalid x402 payment structure. Missing required fields.")
               else
                 payload <-- hlift (Get paymentData "payload") ;;
                 serializedTransaction <--
                   hlift (Get payload "serializedTransaction") ;;
                 if negb (ToBoolean serializedTransaction) then
                   send 400
                     (errorBody
                        "Missing serialized transaction in payment payload.")
                 else
                   let endpoint :=
                     if truthy (originalUrl req) then originalUrl req
                     else url req in
                   let userId :=
                     match req_user req with
                     | Some user => Some (_id user)
                     | None => None
                     end in
                   verificationResult <--
                     fromM (verifyPayment_of env this w
                              serializedTransaction endpoint userId) ;;
                   if negb (success verificationResult) then
                     send 402 (verificationFailedBody verificationResult)
                   else
                     callNext next
                       (withPayment req (payment verificationResult))
           end
       end)
    (fun error =>
       send 500
         (errorBody "Internal server error during payment verification.")).

(** One request handled on the collection [docs]. *)
Definition handle (m : Handler State unit) (docs : list Payment)
  : Completion unit * HState State :=
  m (mkHState (mkState docs []) []).

(** *** A request that pays *)

(** The header of a payment, and what [JSON.parse] makes of it, of
    [null] and of text that is no JSON. *)
Definition paymentHeaderOf (blob : string) : string :=
  "{" ++ dquote ++ "x402Version" ++ dquote ++ ":1,"
  ++ dquote ++ "scheme" ++ dquote ++ ":" ++ dquote ++ "exact" ++ dquote
  ++ "," ++ dquote ++ "network" ++ dquote ++ ":"
  ++ dquote ++ "solana-devnet" ++ dquote ++ ","
  ++ dquote ++ "payload" ++ dquote ++ ":{"
  ++ dquote ++ "serializedTransaction" ++ dquote ++ ":"
  ++ dquote ++ blob ++ dquote ++ "}}".

Definition paymentDataOf (blob : string) : Value :=
  VObject
    [("x402Version", VNumber (Finite 1 0));
     ("scheme", VString "exact");
     ("network", VString "solana-devnet");
     ("payload", VObject [("serializedTransaction", VString blob)])].

Definition parseOf (blob : string) (text : string) : Completion Value :=
  if String.eqb text (paymentHeaderOf blob) then Normal (paymentDataOf blob)
  else if String.eqb text "null" then Normal VNull
  else Throw (mkError ("Unexpected token in JSON at position 0")).

Definition env402 (blob : string) : Env :=
  {| X402_ENABLED := Some "true";
     JSON_parse := parseOf blob;
     Buffer_from :=
       fun _ => Throw (mkError "The first argument must be of type string") |}.

Definition requestWith (header : option string) : Request :=
  {| x_payment := header;
     x_api_key := None;
     originalUrl := "/api/mu-checker/analyze";
     url := "/analyze";
     req_user := None;
     req_apiKey := None;
     req_payment := None |}.

Definition nextReturns (req : Request) : Completion unit := Normal tt.

(** The body of the response that the [catch] of [verifyX402Payment]
    sends. *)
Definition internalError : Value :=
  errorBody "Internal server error during payment verification.".

(** What the middleware passes to [verifyPayment] besides the
    transaction. *)
Definition endpointOf (req : Request) : string :=
  if truthy (originalUrl req) then originalUrl req else url req.

Definition userIdOf (req : Request) : option string :=
  match req_user req with
  | Some user => Some (_id user)
  | None => None
  end.

(** The record of an accepted payment: found in the collection as it
    was, or written by the call for at least the configured minimum to
    the configured wallet and mint. *)
Definition paidFor (this : PaymentController) (before after : list Payment)
    (p : Payment) : Prop :=
  status p = confirmed
  /\ (In p before
      \/ (In p after
          /\ recipientWallet p = paymentWallet this
          /\ tokenMint p = cfg_tokenMint this
          /\ requiredAmount this <= amount p)).

(** Where the middleware stands once the controller has answered [r]
    and left the database as [st']. *)
Definition settle (this : PaymentController) (req : Request)
    (next : Request -> Completion unit) (r : VerifyResult) (st' : State)
  : HState State :=
  if success r then
    match next (withPayment req (payment r)) with
    | Normal _ =>
        mkHState st' [CallNext (withPayment req (payment r))]
    | Throw _ =>
        mkHState st' [CallNext (withPayment req (payment r));
                      Send 500 internalError]
    end
  else mkHState st' [Send 402 (verificationFailedBody r)].

(** The environment with [X402_ENABLED] set to [v], or unset. *)
Definition envWith (v : option string) (blob : string) : Env :=
  {| X402_ENABLED := v;
     JSON_parse := parseOf blob;
     Buffer_from :=
       fun _ => Throw (mkError "The first argument must be of type string") |}.

(** The blob is not a transaction. *)
Definition worldUndecodable : World :=
  {| Buffer_from_base64 := fun _ => [];
     Transaction_from :=
       fun _ => Throw (mkError "Reached end of buffer unexpectedly");
     findOne_error := None;
     findOneAndUpdate_error := None;
     simulateTransaction_rpc := fun _ => Normal None;
     sendRawTransaction_rpc := fun _ => Normal EmptyString;
     confirmTransaction_rpc := fun _ => Normal None;
     getTransaction_rpc := fun _ => Normal None;
     now := 1000 |}.

(* ================================================================== *)
(** ** API keys ([models/APIKey.js]) and their guard
       ([middleware/auth.js]) *)
(* ================================================================== *)

(** [Buffer.prototype.toString('hex')]: two lower-case digits a byte. *)
Definition hex_char (n : Z) : ascii :=
  match String.get (Z.to_nat n) "0123456789abcdef" with
  | Some c => c
  | None => "0"%char
  end.

Fixpoint toString_hex (bs : Buffer) : string :=
  match bs with
  | [] => EmptyString
  | b :: rest =>
      String (hex_char (byte_val b / 16))
        (String (hex_char (byte_val b mod 16)) (toString_hex rest))
  end.

(** [s.slice(-n)]: the last [n] characters, or all of [s] when it has
    fewer. *)
Definition slice_last (n : nat) (s : string) : string :=
  substring (String.length s - n) n s.

(** [a + b] on two Numbers that hold integers. *)
Definition Number_add (a b : Z) : Z := Number_round (a + b).

(** [apiKeySchema.statics.generateKey]; [crypto_randomBytes] is
    [crypto.randomBytes]. *)
Definition generateKey (crypto_randomBytes : nat -> Buffer) : string :=
  let prefix := "cp" in
  let randomBytes := toString_hex (crypto_randomBytes 32%nat) in
  prefix ++ "_" ++ randomBytes.

(** [apiKeySchema.methods.isExpired]; [date] is [new Date()].  A Date is
    truthy whatever its time. *)
Definition APIKey_isExpired (date : Z) (this : APIKey) : bool :=
  match expiresAt this with
  | None => false
  | Some expires => expires <? date
  end.

(** [apiKeySchema.methods.toJSON] *)
Definition toJSON (this : APIKey) : APIKey :=
  let apiKey := this in
  match key apiKey with
  | Some k =>
      if truthy k then
        {| apiKey_id := apiKey_id apiKey;
           key := None;
           keyPreview := Some ("..." ++ slice_last 8 k);
           apiKey_userId := apiKey_userId apiKey;
           apiKey_name := apiKey_name apiKey;
           isActive := isActive apiKey;
           lastUsed := lastUsed apiKey;
           usageCount := usageCount apiKey;
           permissions := permissions apiKey;
           rateLimit := rateLimit apiKey;
           expiresAt := expiresAt apiKey;
           apiKey_createdAt := apiKey_createdAt apiKey |}
      else apiKey
  | None => apiKey
  end.

(** What the guard reads from outside: the users, the clock at the two
    places that read it, and the errors of the database. *)
Record KeyWorld : Type := mkKeyWorld {
  (** an I/O error of [APIKey.findOne(...).populate(...)], if any *)
  APIKey_findOne_error : option Error;
  (** an error of [save], if any *)
  save_error : option Error;
  (** the [User] collection *)
  users : list User;
  (** [new Date()] in [isExpired] *)
  date_checked : Z;
  (** [new Date()] in [recordUsage] *)
  date_used : Z
}.

(** The filters [{ key: apiKey }] and [{ _id: id }]. *)
Definition keyIs (apiKey : string) (d : APIKey) : bool :=
  match key d with
  | Some k => String.eqb k apiKey
  | None => false
  end.

Definition userIs (id : string) (u : User) : bool := String.eqb (_id u) id.

(** [APIKey.findOne({ key }).populate('userId', ...)]: the first document
    with the key, and the user its [userId] names, [null] when there is
    none. *)
Definition APIKey_findOne (kw : KeyWorld) (apiKey : string)
  : Handler (list APIKey) (option (APIKey * option User)) :=
  fun s =>
    match APIKey_findOne_error kw with
    | Some e => (Throw e, s)
    | None =>
        (Normal
           match find (keyIs apiKey) (db s) with
           | Some d => Some (d, find (userIs (apiKey_userId d)) (users kw))
           | None => None
           end, s)
    end.

(** The document after [this.lastUsed = new Date(); this.usageCount += 1]. *)
Definition used (date : Z) (this : APIKey) : APIKey :=
  {| apiKey_id := apiKey_id this;
     key := key this;
     keyPreview := keyPreview this;
     apiKey_userId := apiKey_userId this;
     apiKey_name := apiKey_name this;
     isActive := isActive this;
     lastUsed := Some date;
     usageCount := Number_add (usageCount this) 1;
     permissions := permissions this;
     rateLimit := rateLimit this;
     expiresAt := expiresAt this;
     apiKey_createdAt := apiKey_createdAt this |}.

(** [save] of a document whose [lastUsed] and [usageCount] changed: the
    two paths are set on the stored document with its [_id]. *)
Definition saved (this : APIKey) (docs : list APIKey) : list APIKey :=
  map (fun d =>
         if String.eqb (apiKey_id d) (apiKey_id this) then
           {| apiKey_id := apiKey_id d;
              key := key d;
              keyPreview := keyPreview d;
              apiKey_userId := apiKey_userId d;
              apiKey_name := apiKey_name d;
              isActive := isActive d;
              lastUsed := lastUsed this;
              usageCount := usageCount this;
              permissions := permissions d;
              rateLimit := rateLimit d;
              expiresAt := expiresAt d;
              apiKey_createdAt := apiKey_createdAt d |}
         else d) docs.

(** [keyDoc.recordUsage().catch(...)]: the document is changed where it
    stands, so the caller holds the changed one; the write is in the
    collection once it has settled, and its error is logged and
    dropped. *)
Definition recordUsage (kw : KeyWorld) (this : APIKey)
  : Handler (list APIKey) APIKey :=
  fun s =>
    let this' := used (date_used kw) this in
    match save_error kw with
    | Some _ => (Normal this', s)
    | None => (Normal this', mkHState (saved this' (db s)) (actions s))
    end.

Definition withApiKey (req : Request) (keyDoc : APIKey) (user : option User)
  : Request :=
  {| x_payment := x_payment req;
     x_api_key := x_api_key req;
     originalUrl := originalUrl req;
     url := url req;
     req_user := user;
     req_apiKey := Some keyDoc;
     req_payment := req_payment req |}.

(** [verifyApiKey], as it stands with this [APIKey] model; a later
    state of the file also asks [keyDoc.isSubscriptionCurrent()], a
    method that the model above does not have. *)
Definition verifyApiKey (kw : KeyWorld) (req : Request)
    (next : Request -> Completion unit) : Handler (list APIKey) unit :=
  htry
    (match x_api_key req with
     | None =>
         send 401
           (errorBody
              "API key is required. Please provide your API key in the x-api-key header.")
     | Some EmptyString =>
         send 401
           (errorBody
              "API key is required. Please provide your API key in the x-api-key header.")
     | Some apiKey =>
         found <-- APIKey_findOne kw apiKey ;;
         match found with
         | None => send 401 (errorBody "Invalid API key.")
         | Some (keyDoc, keyDoc_userId) =>
             if negb (isActive keyDoc) then
               send 401 (errorBody "API key has been revoked.")
             else if APIKey_isExpired (date_checked kw) keyDoc then
               send 401 (errorBody "API key has expired.")
             else
               active <--
                 hlift match keyDoc_userId with
                       | Some user => Normal (user_isActive user)
                       | None =>
                           Throw (mkError
                             "Cannot read properties of null (reading 'isActive')")
                       end ;;
               if negb active then
                 send 401 (errorBody "User account is disabled.")
               else
                 keyDoc <-- recordUsage kw keyDoc ;;
                 callNext next (withApiKey req keyDoc keyDoc_userId)
         end
     end)
    (fun error =>
       send 500
         (errorBody "Internal server error during API key verification.")).

(** The permissions of the schema, which are the names that the routes
    pass to [checkPermission]. *)
Inductive Permission : Type :=
| Analyze
| RiskScore
| FullAnalysis
| Batch
| Registration.

Definition permissionName (permission : Permission) : string :=
  match permission with
  | Analyze => "analyze"
  | RiskScore => "riskScore"
  | FullAnalysis => "fullAnalysis"
  | Batch => "batch"
  | Registration => "registration"
  end.

(** [permissions[permission]] *)
Definition allows (p : Permissions) (permission : Permission) : bool :=
  match permission with
  | Analyze => analyze p
  | RiskScore => riskScore p
  | FullAnalysis => fullAnalysis p
  | Batch => batch p
  | Registration => registration p
  end.

(** [checkPermission(permission)]: it has no [catch], so what [next()]
    throws goes on. *)
Definition checkPermission {S} (permission : Permission) (req : Request)
    (next : Request -> Completion unit) : Handler S unit :=
  let denied :=
    match req_apiKey req with
    | None => true
    | Some apiKey => negb (allows (permissions apiKey) permission)
    end in
  if denied then
    send 403
      (errorBody ("This API key does not have permission for: "
                  ++ permissionName permission))
  else callNext next req.

(** One request on the collection of API keys. *)
Definition serve {A} (m : Handler (list APIKey) A) (keys : list APIKey)
  : Completion A * HState (list APIKey) :=
  m (mkHState keys []).

(** *** A key and its user *)

Definition alice : User :=
  {| _id := "64f0c0ffee0000000000a11ce";
     username := "alice";
     email := "alice@example.com";
     user_isActive := true |}.

Definition randomBytesOf (n : nat) : Buffer := repeat xa7 n.

Definition aliceKey : APIKey :=
  {| apiKey_id := "64f0c0ffee00000000000001";
     key := Some (generateKey randomBytesOf);
     keyPreview := None;
     apiKey_userId := _id alice;
     apiKey_name := "ci";
     isActive := true;
     lastUsed := None;
     usageCount := 41;
     permissions := mkPermissions true true true false true;
     rateLimit := mkRateLimit 60 10000;
     expiresAt := None;
     apiKey_createdAt := 1000 |}.

Definition keyWorld (people : list User) : KeyWorld :=
  {| APIKey_findOne_error := None;
     save_error := None;
     users := people;
     date_checked := 5000;
     date_used := 5001 |}.

Definition requestWithKey (k : string) : Request :=
  {| x_payment := None;
     x_api_key := Some k;
     originalUrl := "/api/mu-checker/analyze";
     url := "/analyze";
     req_user := None;
     req_apiKey := None;
     req_payment := None |}.

(** The body of the response that the [catch] of [verifyApiKey] sends. *)
Definition keyError : Value :=
  errorBody "Internal server error during API key verification.".

(** The request that [verifyApiKey] hands on for the document [keyDoc]
    of [user]. *)
Definition admitted (kw : KeyWorld) (req : Request) (keyDoc : APIKey)
    (user : User) : Request :=
  withApiKey req (used (date_used kw) keyDoc) (Some user).

(** The key of a request that [verifyApiKey] lets through: a stored
    document with the key of the header, active and not expired, of a
    user who is active. *)
Definition validKey (kw : KeyWorld) (keys : list APIKey) (req : Request)
    (keyDoc : APIKey) (user : User) : Prop :=
  (exists apiKey,
      x_api_key req = Some apiKey /\ apiKey <> EmptyString
      /\ key keyDoc = Some apiKey)
  /\ In keyDoc keys
  /\ isActive keyDoc = true
  /\ APIKey_isExpired (date_checked kw) keyDoc = false
  /\ In user (users kw)
  /\ _id user = apiKey_userId keyDoc
  /\ user_isActive user = true.

(** *** What the static validation reads of an instruction *)

(** Two instructions that the validator cannot tell apart: the same
    program, the same data and the same reported sender.  The other
    accounts, the destination among them, may differ. *)
Definition sameTransfer (i i' : TransactionInstruction) : Prop :=
  programId i = programId i'
  /\ data i = data i'
  /\ reportedSender i = reportedSender i'.

(** The transfer of [txPay], sent to another token account. *)
Definition elsewhere : PublicKey :=
  "3n6Bs7mQKqZ9zcz5mYr5V2YHk1v1c5xRZVqkHk3AqSjB".

Definition txElsewhere : Transaction :=
  signedBy (Some SIG_A)
    [transferInstructionOf (transferData xa0 x86 x01)
       [ mkAccountMeta senderAccount false true;
         mkAccountMeta elsewhere false true;
         mkAccountMeta payer true false ]].

(** The document [p] after an update that changes nothing but
    [updatedAt]. *)
Definition touched (date : Z) (p : Payment) : Payment :=
  {| userId := userId p;
     transactionSignature := transactionSignature p;
     amount := amount p;
     tokenMint := tokenMint p;
     senderWallet := senderWallet p;
     recipientWallet := recipientWallet p;
     endpoint := endpoint p;
     status := status p;
     blockTime := blockTime p;
     slot := slot p;
     network := network p;
     x402Version := x402Version p;
     verifiedAt := verifiedAt p;
     createdAt := createdAt p;
     updatedAt := date |}.

(** The balances of a payment of 100000 as a node reports them that
    leaves the owner out of the sender's entry. *)
Definition balancesBeforeUnowned : list TokenBalance :=
  [ mkTokenBalance 1 (cfg_tokenMint controller) None 500000;
    mkTokenBalance 2 (cfg_tokenMint controller)
      (Some (paymentWallet controller)) 0 ].

Definition finalizedUnowned : TransactionResponse :=
  finalized balancesBeforeUnowned (balancesAfter 100000).

(* ================================================================== *)
(** ** Reasoning about code in [M] *)
(* ================================================================== *)

Section MonadLaws.

Context {A B : Type}.

Lemma bind_normal (m : M A) (k : A -> M B) st a st' :
  m st = (Normal a, st') -> bind m k st = k a st'.
Proof. unfold bind. intros ->. reflexivity. Qed.

Lemma bind_throw (m : M A) (k : A -> M B) st e st' :
  m st = (Throw e, st') -> bind m k st = (Throw e, st').
Proof. unfold bind. intros ->. reflexivity. Qed.

Lemma try_normal (m : M A) (h : Error -> M A) st a st' :
  m st = (Normal a, st') -> try_catch m h st = (Normal a, st').
Proof. unfold try_catch. intros ->. reflexivity. Qed.

Lemma try_throw (m : M A) (h : Error -> M A) st e st' :
  m st = (Throw e, st') -> try_catch m h st = h e st'.
Proof. unfold try_catch. intros ->. reflexivity. Qed.

End MonadLaws.

Lemma logged_logged st evs evs' :
  logged (logged st evs) evs' = logged st (evs ++ evs')%list.
Proof. unfold logged. simpl. now rewrite app_assoc. Qed.

Lemma logged_nil st : logged st [] = st.
Proof. destruct st. unfold logged. simpl. now rewrite app_nil_r. Qed.

Lemma emit_run ev st : emit ev st = (Normal tt, logged st [ev]).
Proof. reflexivity. Qed.

Section Emits.

Variable P : Event -> Prop.

Lemma emits_ret {A} (a : A) : emits P (ret a).
Proof. intros st. exists []. simpl. now rewrite app_nil_r. Qed.

Lemma emits_throw {A} e : emits P (@throw A e).
Proof. intros st. exists []. simpl. now rewrite app_nil_r. Qed.

Lemma emits_lift {A} (c : Completion A) : emits P (lift c).
Proof. intros st. exists []. simpl. now rewrite app_nil_r. Qed.

Lemma emits_emit ev : P ev -> emits P (emit ev).
Proof. intros H st. exists [ev]. simpl. auto. Qed.

Lemma emits_bind {A B} (m : M A) (k : A -> M B) :
  emits P m -> (forall a, emits P (k a)) -> emits P (bind m k).
Proof.
  intros Hm Hk st. unfold bind.
  destruct (Hm st) as (evs & Hlog & Hall).
  destruct (m st) as [[a | e] st1]; simpl in *.
  - destruct (Hk a st1) as (evs' & Hlog' & Hall').
    exists (evs ++ evs')%list. rewrite Hlog', Hlog, app_assoc.
    split; [reflexivity | now apply Forall_app].
  - now exists evs.
Qed.

Lemma emits_try {A} (m : M A) (h : Error -> M A) :
  emits P m -> (forall e, emits P (h e)) -> emits P (try_catch m h).
Proof.
  intros Hm Hh st. unfold try_catch.
  destruct (Hm st) as (evs & Hlog & Hall).
  destruct (m st) as [[a | e] st1]; simpl in *.
  - now exists evs.
  - destruct (Hh e st1) as (evs' & Hlog' & Hall').
    exists (evs ++ evs')%list. rewrite Hlog', Hlog, app_assoc.
    split; [reflexivity | now apply Forall_app].
Qed.

End Emits.

Section Keeps.

Variable I : list Payment -> Prop.

Lemma keeps_ret {A} (a : A) : keeps I (ret a).
Proof. intros st H. exact H. Qed.

Lemma keeps_throw {A} e : keeps I (@throw A e).
Proof. intros st H. exact H. Qed.

Lemma keeps_lift {A} (c : Completion A) : keeps I (lift c).
Proof. intros st H. exact H. Qed.

Lemma keeps_emit ev : keeps I (emit ev).
Proof. intros st H. exact H. Qed.

Lemma keeps_bind {A B} (m : M A) (k : A -> M B) :
  keeps I m -> (forall a, keeps I (k a)) -> keeps I (bind m k).
Proof.
  intros Hm Hk st H. unfold bind. specialize (Hm st H).
  destruct (m st) as [[a | e] st1]; simpl in *.
  - now apply Hk.
  - exact Hm.
Qed.

Lemma keeps_try {A} (m : M A) (h : Error -> M A) :
  keeps I m -> (forall e, keeps I (h e)) -> keeps I (try_catch m h).
Proof.
  intros Hm Hh st H. unfold try_catch. specialize (Hm st H).
  destruct (m st) as [[a | e] st1]; simpl in *.
  - exact Hm.
  - now apply Hh.
Qed.

End Keeps.

Section Returns.

Context {B : Type}.
Variable Q : B -> Prop.

Lemma returns_ret (b : B) : Q b -> returns Q (ret b).
Proof. intros H st a st' E. inversion E; subst. exact H. Qed.

Lemma returns_throw e : returns Q (@throw B e).
Proof. intros st a st' E. discriminate E. Qed.

Lemma returns_bind {A} (m : M A) (k : A -> M B) :
  (forall a, returns Q (k a)) -> returns Q (bind m k).
Proof.
  intros Hk st b st' E. unfold bind in E.
  destruct (m st) as [[a | e] st1].
  - exact (Hk a st1 b st' E).
  - discriminate E.
Qed.

End Returns.

(* ================================================================== *)
(** ** The steps of the pipeline, one by one *)
(* ================================================================== *)

Ltac run_M :=
  cbv beta iota zeta delta
    [bind ret throw try_catch emit lift logged
     Payment_findOne Payment_findOneAndUpdate createPaymentRecord
     simulateTransaction confirmTransaction verifyOnChainTransfer
     submitTransaction collection log].

Section Steps.

Variable this : PaymentController.
Variable w : World.

(** **** [Payment.findOne] *)

Lemma findOne_found key st :
  findOne_error w = None ->
  Payment_findOne w key st
  = (Normal (lookup key (collection st)), logged st [DbFindOne key]).
Proof. intros H. run_M. rewrite H. reflexivity. Qed.

Lemma findOne_failed key st e :
  findOne_error w = Some e ->
  Payment_findOne w key st = (Throw e, logged st [DbFindOne key]).
Proof. intros H. run_M. rewrite H. reflexivity. Qed.

(** **** [simulateTransaction] never throws *)

Lemma simulateTransaction_run tx st :
  simulateTransaction w tx st
  = (Normal (simulationOf w tx), logged st [RpcSimulateTransaction tx]).
Proof.
  unfold simulationOf. run_M. destruct (simulateTransaction_rpc w tx) as [[e|]|e]; reflexivity.
Qed.

(** **** [confirmTransaction] never throws *)

Lemma confirmTransaction_run sig st :
  confirmTransaction w sig st
  = (Normal (confirmationOf w sig), logged st [RpcConfirmTransaction sig]).
Proof.
  unfold confirmationOf. run_M. destruct (confirmTransaction_rpc w sig) as [[e|]|e]; reflexivity.
Qed.

(** **** Step 6 *)

Lemma submitTransaction_sent tx buf st sig :
  sendRawTransaction_rpc w buf = Normal sig ->
  submitTransaction w tx buf st
  = (Normal sig, logged st [RpcSendRawTransaction buf]).
Proof. intros H. run_M. rewrite H. reflexivity. Qed.

Lemma submitTransaction_recovered tx buf st e sig :
  sendRawTransaction_rpc w buf = Throw e ->
  alreadyProcessed (message e) = true ->
  firstSignature tx = Some sig ->
  submitTransaction w tx buf st
  = (Normal (bs58_encode sig), logged st [RpcSendRawTransaction buf]).
Proof. intros H1 H2 H3. run_M. rewrite H1, H2, H3. reflexivity. Qed.

Lemma submitTransaction_refused tx buf st e :
  sendRawTransaction_rpc w buf = Throw e ->
  alreadyProcessed (message e) = false ->
  submitTransaction w tx buf st
  = (Throw (mkError ("Transaction submission failed: " ++ message e)),
     logged st [RpcSendRawTransaction buf]).
Proof. intros H1 H2. run_M. rewrite H1, H2. reflexivity. Qed.

(** **** [verifyOnChainTransfer] never throws *)

Lemma verifyOnChainTransfer_total sig sender amt st :
  exists r,
    verifyOnChainTransfer this w sig sender amt st
    = (Normal r, logged st [RpcGetTransaction sig]).
Proof.
  run_M. destruct (getTransaction_rpc w sig) as [[txd|]|e];
    try (eexists; reflexivity).
  destruct (find _ _) as [t|]; try (eexists; reflexivity).
  destruct (_ <? _); eexists; reflexivity.
Qed.

Lemma verifyOnChainTransfer_success sig sender amt st txd t :
  getTransaction_rpc w sig = Normal (Some txd) ->
  find (isPaymentTransfer this) (parseTokenTransfers this txd) = Some t ->
  requiredAmount this <= t_amount t ->
  verifyOnChainTransfer this w sig sender amt st
  = (Normal (TransferSuccess (t_amount t) (tx_blockTime txd) (tx_slot txd)),
     logged st [RpcGetTransaction sig]).
Proof.
  intros H1 H2 H3. run_M. rewrite H1, H2.
  destruct (Z.ltb_spec (t_amount t) (requiredAmount this)); [lia|].
  reflexivity.
Qed.

(** **** [createPaymentRecord] *)

Lemma createPaymentRecord_written pd st :
  findOneAndUpdate_error w = None ->
  createPaymentRecord w pd st
  = (Normal (snd (upsert (now w) pd (collection st))),
     mkState (fst (upsert (now w) pd (collection st)))
             (log st ++ [DbFindOneAndUpdate pd])).
Proof.
  intros H. run_M. rewrite H.
  destruct (upsert _ _ _) as [docs p]. reflexivity.
Qed.

Lemma createPaymentRecord_failed pd st e :
  findOneAndUpdate_error w = Some e ->
  createPaymentRecord w pd st
  = (Throw e, logged st [DbFindOneAndUpdate pd]).
Proof. intros H. run_M. rewrite H. reflexivity. Qed.

End Steps.

(* ================================================================== *)
(** ** Static validation *)
(* ================================================================== *)

Lemma readBigUInt64LE_inside (d : Buffer) :
  (9 <= List.length d)%nat ->
  readBigUInt64LE d 1 = Normal (le_value (firstn 8 (skipn 1 d))).
Proof.
  intros H. unfold readBigUInt64LE.
  destruct (Nat.leb_spec (1 + 8) (List.length d)); [reflexivity | lia].
Qed.

Lemma readBigUInt64LE_outside (d : Buffer) :
  (List.length d < 9)%nat ->
  readBigUInt64LE d 1
  = Throw (boundsError 1 (Z.of_nat (List.length d) - 8)).
Proof.
  intros H. unfold readBigUInt64LE.
  destruct (Nat.leb_spec (1 + 8) (List.length d)); [lia | reflexivity].
Qed.

Lemma le_value_bound (bs : list byte) :
  0 <= le_value bs < 256 ^ Z.of_nat (List.length bs).
Proof.
  induction bs as [|b bs IH].
  - simpl. lia.
  - cbn [le_value List.length]. rewrite Nat2Z.inj_succ, Z.pow_succ_r by lia.
    unfold byte_val. pose proof (Byte.to_N_bounded b). lia.
Qed.

(** The amount field is an unsigned 64-bit integer. *)
Lemma amount_field_u64 (d : Buffer) :
  0 <= le_value (firstn 8 (skipn 1 d)) < 2 ^ 64.
Proof.
  pose proof (le_value_bound (firstn 8 (skipn 1 d))) as H.
  pose proof (firstn_le_length 8 (skipn 1 d)) as L.
  assert (256 ^ Z.of_nat (List.length (firstn 8 (skipn 1 d))) <= 256 ^ 8).
  { apply Z.pow_le_mono_r; lia. }
  change (256 ^ 8) with (2 ^ 64) in *. lia.
Qed.

(** Below 2^53 the conversion to a Number is exact. *)
Lemma Number_round_exact (z : Z) :
  0 <= z < 2 ^ 53 -> Number_round z = z.
Proof.
  intros H. unfold Number_round, round_magnitude.
  destruct (Z.ltb_spec z 0); [lia|].
  destruct (Z.ltb_spec z (2 ^ 53)); [reflexivity | lia].
Qed.

Lemma reportedSender_two_keys i k k' ks :
  keys i = k :: k' :: ks -> reportedSender i = Some (pubkey k).
Proof. unfold reportedSender. intros ->. reflexivity. Qed.

Lemma reportedSender_few_keys i :
  (List.length (keys i) < 2)%nat -> reportedSender i = None.
Proof.
  unfold reportedSender. intros H.
  destruct (Nat.leb_spec 2 (List.length (keys i))); [lia | reflexivity].
Qed.

(** The loop stops at the first instruction that [isTokenTransfer]
    accepts, and reads amount and sender off that instruction. *)
Lemma scanInstructions_find (instrs : list TransactionInstruction) :
  scanInstructions instrs
  = match find isTokenTransfer instrs with
    | None => Normal None
    | Some i =>
        match readBigUInt64LE (data i) 1 with
        | Throw e => Throw e
        | Normal big =>
            Normal (Some {| transferInstruction := i;
                            found_amount := Number_round big;
                            senderTokenAccount := reportedSender i |})
        end
    end.
Proof.
  induction instrs as [|i rest IH]; [reflexivity|].
  cbn [scanInstructions find]. unfold isTokenTransfer at 1.
  destruct (String.eqb (programId i) TOKEN_PROGRAM_ID); cbn [andb].
  - destruct (isTransferData (data i)).
    + destruct (readBigUInt64LE (data i) 1); [|reflexivity].
      unfold reportedSender. destruct (keys i); reflexivity.
    + exact IH.
  - exact IH.
Qed.

Section Validation.

Variable this : PaymentController.
Variable tx : Transaction.

Lemma validate_no_transfer :
  find isTokenTransfer (instructions tx) = None ->
  validateTransactionInstructions this tx
  = Invalid (noTransferMessage (instructions tx)).
Proof.
  intros H. unfold validateTransactionInstructions.
  rewrite scanInstructions_find, H.
  destruct (instructions tx); reflexivity.
Qed.

Lemma validate_short_data i :
  find isTokenTransfer (instructions tx) = Some i ->
  (List.length (data i) < 9)%nat ->
  validateTransactionInstructions this tx
  = Invalid ("Transaction validation failed: "
             ++ message (boundsError 1
                           (Z.of_nat (List.length (data i)) - 8))).
Proof.
  intros H L. unfold validateTransactionInstructions.
  rewrite scanInstructions_find, H, (readBigUInt64LE_outside _ L).
  destruct (instructions tx); [discriminate H | reflexivity].
Qed.

Lemma validate_insufficient i :
  find isTokenTransfer (instructions tx) = Some i ->
  (9 <= List.length (data i))%nat ->
  decodedAmount i < requiredAmount this ->
  validateTransactionInstructions this tx
  = Invalid (insufficientPayment this (decodedAmount i)).
Proof.
  intros H L A. unfold validateTransactionInstructions.
  rewrite scanInstructions_find, H, (readBigUInt64LE_inside _ L).
  destruct (instructions tx); [discriminate H|].
  cbn [found_amount]. fold (decodedAmount i).
  destruct (Z.ltb_spec (decodedAmount i) (requiredAmount this)); [|lia].
  reflexivity.
Qed.

Lemma validate_valid i :
  find isTokenTransfer (instructions tx) = Some i ->
  (9 <= List.length (data i))%nat ->
  requiredAmount this <= decodedAmount i ->
  validateTransactionInstructions this tx
  = Valid (decodedAmount i) (reportedSender i).
Proof.
  intros H L A. unfold validateTransactionInstructions.
  rewrite scanInstructions_find, H, (readBigUInt64LE_inside _ L).
  destruct (instructions tx); [discriminate H|].
  cbn [found_amount senderTokenAccount]. fold (decodedAmount i).
  destruct (Z.ltb_spec (decodedAmount i) (requiredAmount this)); [lia|].
  reflexivity.
Qed.

End Validation.

(* ================================================================== *)
(** ** Steps 1 to 3 *)
(* ================================================================== *)

Section Lookup.

Variable this : PaymentController.
Variable w : World.
Variables serializedTransaction endpoint : string.
Variable userId : option string.

Local Abbreviation body :=
  (verifyPaymentBody this w serializedTransaction endpoint userId).
Local Abbreviation transactionBuffer :=
  (Buffer_from_base64 w serializedTransaction).

Lemma body_undecodable st e :
  Transaction_from w transactionBuffer = Throw e ->
  body st = (Throw e, st).
Proof.
  intros H. unfold verifyPaymentBody.
  run_M. rewrite H. reflexivity.
Qed.

Lemma body_unsigned st tx :
  Transaction_from w transactionBuffer = Normal tx ->
  firstSignature tx = None ->
  body st = (Throw (mkError "Invalid transaction signature"), st).
Proof.
  intros H1 H2. unfold verifyPaymentBody.
  run_M. rewrite H1, H2. reflexivity.
Qed.

Section Signed.

Variable tx : Transaction.
Variable sig : Buffer.
Hypothesis decoded : Transaction_from w transactionBuffer = Normal tx.
Hypothesis signed : firstSignature tx = Some sig.

Local Abbreviation key := (toString_base64 sig).

Lemma body_after_lookup st :
  body st
  = bind (Payment_findOne w key)
      (fun existingPayment =>
         match existingPayment with
         | Some p =>
             match status p with
             | confirmed =>
                 ret (successResult p "Payment already confirmed")
             | failed =>
                 throw (mkError
                          "Transaction previously failed verification")
             | pending =>
                 processPayment this w tx transactionBuffer endpoint
                   userId
             end
         | None =>
             processPayment this w tx transactionBuffer endpoint userId
         end) st.
Proof.
  unfold verifyPaymentBody.
  unfold bind at 1, lift. rewrite decoded, signed. reflexivity.
Qed.

Lemma body_lookup_failed st e :
  findOne_error w = Some e ->
  body st = (Throw e, logged st [DbFindOne key]).
Proof.
  intros H. rewrite body_after_lookup.
  now rewrite (bind_throw _ _ _ _ _ (findOne_failed w key st e H)).
Qed.

Lemma body_confirmed st p :
  findOne_error w = None ->
  lookup key (collection st) = Some p ->
  status p = confirmed ->
  body st = (Normal (successResult p "Payment already confirmed"),
             logged st [DbFindOne key]).
Proof.
  intros H L S. rewrite body_after_lookup.
  rewrite (bind_normal _ _ _ _ _ (findOne_found w key st H)), L, S.
  reflexivity.
Qed.

Lemma body_previously_failed st p :
  findOne_error w = None ->
  lookup key (collection st) = Some p ->
  status p = failed ->
  body st
  = (Throw (mkError "Transaction previously failed verification"),
     logged st [DbFindOne key]).
Proof.
  intros H L S. rewrite body_after_lookup.
  rewrite (bind_normal _ _ _ _ _ (findOne_found w key st H)), L, S.
  reflexivity.
Qed.

Lemma body_processing st :
  findOne_error w = None ->
  blocks (lookup key (collection st)) = false ->
  body st
  = processPayment this w tx transactionBuffer endpoint userId
      (logged st [DbFindOne key]).
Proof.
  intros H B. rewrite body_after_lookup.
  rewrite (bind_normal _ _ _ _ _ (findOne_found w key st H)).
  destruct (lookup key (collection st)) as [p|]; [|reflexivity].
  simpl in B. destruct (status p); try discriminate B. reflexivity.
Qed.

End Signed.

End Lookup.

(* ================================================================== *)
(** ** Rejection by the static validation (step 4) *)
(* ================================================================== *)

Section StaticRejection.

Variable this : PaymentController.
Variable w : World.
Variables serializedTransaction endpoint : string.
Variable userId : option string.
Variable tx : Transaction.
Variable reason : string.

Hypothesis decoded :
  Transaction_from w (Buffer_from_base64 w serializedTransaction)
  = Normal tx.
Hypothesis rejected :
  validateTransactionInstructions this tx = Invalid reason.

Lemma processPayment_rejected buf st :
  processPayment this w tx buf endpoint userId st
  = (Throw (mkError reason), st).
Proof. unfold processPayment. rewrite rejected. reflexivity. Qed.

(** Whatever steps 1 to 3 decide, a transaction the validator rejects
    leaves the collection alone and makes no outside call but the
    lookup. *)
Lemma rejected_no_side_effect st :
  let st' :=
    snd (verifyPayment this w serializedTransaction endpoint userId st) in
  collection st' = collection st
  /\ exists evs, log st' = (log st ++ evs)%list /\ onlyLookups evs.
Proof.
  cbv zeta. unfold verifyPayment, try_catch.
  assert (Hnil : exists evs, log st = (log st ++ evs)%list
                             /\ onlyLookups evs).
  { exists []. split; [now rewrite app_nil_r | constructor]. }
  assert (Hone : forall key, exists evs,
             (log st ++ [DbFindOne key])%list = (log st ++ evs)%list
             /\ onlyLookups evs).
  { intros key. exists [DbFindOne key]. split; [reflexivity|].
    constructor; [now exists key | constructor]. }
  destruct (firstSignature tx) as [sig|] eqn:S.
  - destruct (findOne_error w) as [e|] eqn:F.
    + rewrite (body_lookup_failed this w _ endpoint userId tx sig
                 decoded S st e F).
      simpl. auto.
    + destruct (lookup (toString_base64 sig) (collection st))
        as [p|] eqn:L.
      * destruct (status p) eqn:P.
        -- rewrite (body_processing this w _ endpoint userId tx sig
                      decoded S st F)
             by (rewrite L; simpl; now rewrite P).
           rewrite processPayment_rejected. simpl. auto.
        -- rewrite (body_confirmed this w _ endpoint userId tx sig
                      decoded S st p F L P).
           simpl. auto.
        -- rewrite (body_previously_failed this w _ endpoint userId tx
                      sig decoded S st p F L P).
           simpl. auto.
      * rewrite (body_processing this w _ endpoint userId tx sig
                   decoded S st F) by now rewrite L.
        rewrite processPayment_rejected. simpl. auto.
  - rewrite (body_unsigned this w _ endpoint userId st tx decoded S).
    simpl. auto.
Qed.

(** When the call gets to step 4, the validator's reason is the
    result. *)
Lemma rejected_reason st sig :
  firstSignature tx = Some sig ->
  findOne_error w = None ->
  blocks (lookup (toString_base64 sig) (collection st)) = false ->
  verifyPayment this w serializedTransaction endpoint userId st
  = (Normal (failureResult reason),
     logged st [DbFindOne (toString_base64 sig)]).
Proof.
  intros S F B. unfold verifyPayment, try_catch.
  rewrite (body_processing this w _ endpoint userId tx sig decoded S st
             F B).
  rewrite processPayment_rejected. reflexivity.
Qed.

End StaticRejection.

(* ================================================================== *)
(** ** Claims about the static validation *)
(* ================================================================== *)

(** C8, as stated, fails.  The validator does not always take the sender
    from the first account key: the transfer instruction of [txOneKey]
    has a first account key, [senderAccount], and the validator accepts
    the transaction with a null sender.  And the amount it reports is a
    JS Number, not always the integer of the amount field: for the field
    2^64 - 1 of [txHuge] it reports 2^64. *)
Lemma C8_counterexample_single_key :
  (exists i,
      find isTokenTransfer (instructions txOneKey) = Some i
      /\ hd_error (keys i) = Some (mkAccountMeta senderAccount false true)
      /\ validateTransactionInstructions controller txOneKey
         = Valid 100000 None)
  /\ (exists i,
         find isTokenTransfer (instructions txHuge) = Some i
         /\ le_value (firstn 8 (skipn 1 (data i))) = 2 ^ 64 - 1
         /\ validateTransactionInstructions controller txHuge
            = Valid (2 ^ 64) (Some senderAccount)).
Proof.
  split; eexists; repeat split; vm_compute; reflexivity.
Qed.

(** C8, amended.  For every transaction the validator takes the first
    instruction addressed to the token program whose first data byte
    is 3, and rejects the transaction when there is none.  When that
    instruction has fewer than 9 data bytes the transaction is rejected
    ("Transaction validation failed").  Otherwise its amount is the
    unsigned 64-bit little-endian integer of data bytes 1 to 8, turned
    into a JS Number (the same integer when it is below 2^53); the
    transaction is rejected when the amount is below the minimum, and
    else accepted with that amount and, as sender, the first account key
    when the instruction has two account keys or more, null when it has
    fewer. *)
Theorem C8_static_validation (this : PaymentController) (tx : Transaction) :
  (find isTokenTransfer (instructions tx) = None ->
   validateTransactionInstructions this tx
   = Invalid (noTransferMessage (instructions tx)))
  /\
  (forall i,
      find isTokenTransfer (instructions tx) = Some i ->
      ((List.length (data i) < 9)%nat ->
       exists e,
         validateTransactionInstructions this tx
         = Invalid ("Transaction validation failed: " ++ message e))
      /\
      ((9 <= List.length (data i))%nat ->
       let field := le_value (firstn 8 (skipn 1 (data i))) in
       0 <= field < 2 ^ 64
       /\ decodedAmount i = Number_round field
       /\ (field < 2 ^ 53 -> decodedAmount i = field)
       /\ validateTransactionInstructions this tx
          = (if decodedAmount i <? requiredAmount this
             then Invalid (insufficientPayment this (decodedAmount i))
             else Valid (decodedAmount i) (reportedSender i))
       /\ (forall k k' ks,
              keys i = k :: k' :: ks -> reportedSender i = Some (pubkey k))
       /\ ((List.length (keys i) < 2)%nat -> reportedSender i = None))).
Proof.
  split.
  - apply validate_no_transfer.
  - intros i Hi. split.
    + intros L.
      exists (boundsError 1 (Z.of_nat (List.length (data i)) - 8)).
      apply validate_short_data; assumption.
    + intros L field.
      pose proof (amount_field_u64 (data i)) as U. fold field in U.
      split; [exact U|]. split; [reflexivity|].
      split; [intros S; apply Number_round_exact; lia|].
      split; [|split].
      * destruct (Z.ltb_spec (decodedAmount i) (requiredAmount this)).
        -- now apply validate_insufficient.
        -- now apply validate_valid.
      * intros k k' ks. apply reportedSender_two_keys.
      * apply reportedSender_few_keys.
Qed.

(** C6, as stated, fails: sent again while a confirmed record stands
    under its lookup key, the transfer of 50000 (minimum 100000) is
    accepted; and never signed, it is rejected for its signature, not
    for its amount. *)
Lemma C6_counterexample_replayed_or_unsigned :
  (exists i,
      find isTokenTransfer (instructions txSmall) = Some i
      /\ decodedAmount i = 50000
      /\ requiredAmount controller = 100000)
  /\ fst (run (verifyPayment controller (worldAccepted txSmall 50000 1000)
                 "blob" "/api/mu-checker/analyze" None)
            [earlierRecord (toString_base64 SIG_A) confirmed])
     = Normal (successResult
                 (earlierRecord (toString_base64 SIG_A) confirmed)
                 "Payment already confirmed")
  /\ fst (run (verifyPayment controller
                 (worldAccepted txSmallUnsigned 50000 1000)
                 "blob" "/api/mu-checker/analyze" None) [])
     = Normal (failureResult "Invalid transaction signature").
Proof.
  split; [eexists|]; repeat split; vm_compute; reflexivity.
Qed.

(** C6, amended.  For every transaction whose decoded transfer amount is
    less than the configured minimum, a call of [verifyPayment] writes
    no record at all (the collection is as it was) and calls nothing
    outside but the lookup of step 3; and when the call gets to step 4
    (a first signature is there, the lookup answers, and it finds no
    confirmed or failed record) the result is [success = false] with
    the error "Insufficient payment amount. Required: ..., Received:
    ...". *)
Theorem C6_insufficient_amount
    (this : PaymentController) (w : World)
    (serializedTransaction endpoint : string) (userId : option string)
    (docs : list Payment) (tx : Transaction) (i : TransactionInstruction) :
  Transaction_from w (Buffer_from_base64 w serializedTransaction)
  = Normal tx ->
  find isTokenTransfer (instructions tx) = Some i ->
  (9 <= List.length (data i))%nat ->
  decodedAmount i < requiredAmount this ->
  let out :=
    run (verifyPayment this w serializedTransaction endpoint userId) docs in
  collection (snd out) = docs
  /\ onlyLookups (log (snd out))
  /\ (forall sig,
         firstSignature tx = Some sig ->
         findOne_error w = None ->
         blocks (lookup (toString_base64 sig) docs) = false ->
         fst out
         = Normal (failureResult
                     (insufficientPayment this (decodedAmount i)))).
Proof.
  intros D F L A out.
  pose proof (validate_insufficient this tx i F L A) as V.
  destruct (rejected_no_side_effect this w serializedTransaction endpoint
              userId tx _ D V (mkState docs [])) as (C & evs & E & O).
  split; [exact C|]. split; [subst out; unfold run; rewrite E; exact O|].
  intros sig S Fe B. subst out. unfold run.
  now rewrite (rejected_reason this w serializedTransaction endpoint userId
                 tx _ D V (mkState docs []) sig S Fe B).
Qed.

Lemma C6_witness_small_transfer :
  fst (run (verifyPayment controller (worldAccepted txSmall 50000 1000)
              "blob" "/api/mu-checker/analyze" None) [])
  = Normal (failureResult
              "Insufficient payment amount. Required: 100000, Received: 50000").
Proof.
  refine (proj2 (proj2
    (C6_insufficient_amount controller (worldAccepted txSmall 50000 1000)
       "blob" "/api/mu-checker/analyze" None [] txSmall
       (transferInstructionOf (transferData x50 xc3 x00) threeKeys)
       eq_refl eq_refl _ _)) SIG_A eq_refl eq_refl eq_refl).
  - vm_compute. lia.
  - vm_compute. reflexivity.
Defined.

(** C7, as stated, fails: sent while a confirmed record stands under its
    lookup key, a transaction without any token transfer is accepted;
    and never signed, it is rejected for its signature. *)
Lemma C7_counterexample_replayed_or_unsigned :
  find isTokenTransfer (instructions txMemo) = None
  /\ fst (run (verifyPayment controller (worldAccepted txMemo 0 1000)
                 "blob" "/api/mu-checker/analyze" None)
            [earlierRecord (toString_base64 SIG_A) confirmed])
     = Normal (successResult
                 (earlierRecord (toString_base64 SIG_A) confirmed)
                 "Payment already confirmed")
  /\ fst (run (verifyPayment controller
                 (worldAccepted txMemoUnsigned 0 1000)
                 "blob" "/api/mu-checker/analyze" None) [])
     = Normal (failureResult "Invalid transaction signature").
Proof.
  repeat split; vm_compute; reflexivity.
Qed.

(** C7, amended.  For every transaction that contains no token-transfer
    instruction addressed to the token program, a call of
    [verifyPayment] submits nothing, simulates nothing and writes
    nothing: it calls nothing outside but the lookup of step 3 and
    leaves the collection as it was; and when the call gets to step 4
    (a first signature is there, the lookup answers, and it finds no
    confirmed or failed record) the result is [success = false] with
    the error "No SPL token transfer instruction found" ("No
    instructions in transaction" when the instruction list is empty). *)
Theorem C7_no_transfer_instruction
    (this : PaymentController) (w : World)
    (serializedTransaction endpoint : string) (userId : option string)
    (docs : list Payment) (tx : Transaction) :
  Transaction_from w (Buffer_from_base64 w serializedTransaction)
  = Normal tx ->
  find isTokenTransfer (instructions tx) = None ->
  let out :=
    run (verifyPayment this w serializedTransaction endpoint userId) docs in
  collection (snd out) = docs
  /\ onlyLookups (log (snd out))
  /\ (forall ev, In ev (log (snd out)) ->
        isSubmission ev = false /\ isSimulation ev = false
        /\ isWrite ev = false)
  /\ (forall sig,
         firstSignature tx = Some sig ->
         findOne_error w = None ->
         blocks (lookup (toString_base64 sig) docs) = false ->
         fst out
         = Normal (failureResult (noTransferMessage (instructions tx)))).
Proof.
  intros D F out.
  pose proof (validate_no_transfer this tx F) as V.
  destruct (rejected_no_side_effect this w serializedTransaction endpoint
              userId tx _ D V (mkState docs [])) as (C & evs & E & O).
  assert (O' : onlyLookups (log (snd out))).
  { subst out; unfold run; rewrite E; exact O. }
  split; [exact C|]. split; [exact O'|]. split.
  - intros ev Hin. unfold onlyLookups in O'.
    rewrite Forall_forall in O'. destruct (O' ev Hin) as (key & ->).
    repeat split.
  - intros sig S Fe B. subst out. unfold run.
    now rewrite (rejected_reason this w serializedTransaction endpoint
                   userId tx _ D V (mkState docs []) sig S Fe B).
Qed.

Lemma C7_witness_memo_only :
  fst (run (verifyPayment controller (worldAccepted txMemo 0 1000)
              "blob" "/api/mu-checker/analyze" None) [])
  = Normal (failureResult "No SPL token transfer instruction found").
Proof.
  exact (proj2 (proj2 (proj2
    (C7_no_transfer_instruction controller (worldAccepted txMemo 0 1000)
       "blob" "/api/mu-checker/analyze" None [] txMemo
       eq_refl eq_refl))) SIG_A eq_refl eq_refl eq_refl).
Defined.

(* ================================================================== *)
(** ** Totality at the verifier boundary *)
(* ================================================================== *)

Section Boundary.

Variable this : PaymentController.
Variable w : World.

Lemma settlePayment_returns endpoint userId amount sender txSignature :
  returns accepted
    (settlePayment this w endpoint userId amount sender txSignature).
Proof.
  unfold settlePayment. apply returns_bind. intros [e|].
  - apply returns_bind. intros _. apply returns_throw.
  - apply returns_bind. intros [e|a bt sl].
    + apply returns_throw.
    + apply returns_bind. intros p. apply returns_ret.
      now exists p, "Payment verified and confirmed".
Qed.

Lemma processPayment_returns tx buf endpoint userId :
  returns accepted (processPayment this w tx buf endpoint userId).
Proof.
  unfold processPayment.
  destruct (validateTransactionInstructions this tx) as [e|a sd].
  - apply returns_throw.
  - apply returns_bind. intros [e|].
    + apply returns_throw.
    + apply returns_bind. intros sig. apply settlePayment_returns.
Qed.

Lemma verifyPaymentBody_returns serializedTransaction endpoint userId :
  returns accepted
    (verifyPaymentBody this w serializedTransaction endpoint userId).
Proof.
  unfold verifyPaymentBody. apply returns_bind. intros tx.
  destruct (firstSignature tx) as [sig|]; [|apply returns_throw].
  apply returns_bind. intros [p|].
  - destruct (status p).
    + apply processPayment_returns.
    + apply returns_ret. now exists p, "Payment already confirmed".
    + apply returns_throw.
  - apply processPayment_returns.
Qed.

End Boundary.

(** C9.  For every input, every state of the collection and every
    behaviour of the libraries, the database and the node (a blob that
    does not decode, a transaction without signature, an error thrown by
    any step, an error of the database on lookup or on write),
    [verifyPayment] completes normally, never by a thrown error, and its
    result is either [success = true] with a record and no error, or
    [success = false] with an error string and no record. *)
Theorem C9_verifyPayment_total
    (this : PaymentController) (w : World)
    (serializedTransaction endpoint : string) (userId : option string)
    (st : State) :
  exists r st',
    verifyPayment this w serializedTransaction endpoint userId st
    = (Normal r, st')
    /\ ((success r = true
         /\ (exists p, payment r = Some p) /\ error r = None)
        \/ (success r = false
            /\ payment r = None /\ exists reason, error r = Some reason)).
Proof.
  unfold verifyPayment, try_catch.
  destruct (verifyPaymentBody this w serializedTransaction endpoint userId
              st) as [[r|e] st'] eqn:E.
  - exists r, st'. split; [reflexivity|]. left.
    destruct (verifyPaymentBody_returns this w _ _ _ _ _ _ E)
      as (p & msg & ->).
    simpl. eauto.
  - exists (failureResult (message e)), st'. split; [reflexivity|].
    right. simpl. eauto.
Qed.

(* ================================================================== *)
(** ** Steps 5 to 9 along each path *)
(* ================================================================== *)

Section Paths.

Variable this : PaymentController.
Variable w : World.
Variable endpoint : string.
Variable userId : option string.

(** **** Steps 7 to 9 *)

Section Settle.

Variable amount : Z.
Variable sender : option string.
Variable txSignature : string.

Local Abbreviation settle :=
  (settlePayment this w endpoint userId amount sender txSignature).

(** Confirmation fails: the failed record is written, and the
    confirmation error (or the error of the write) is thrown. *)
Lemma settle_unconfirmed st reason :
  confirmationOf w txSignature = ConfirmFailure reason ->
  let pd := failedPaymentData this userId txSignature amount sender
              endpoint in
  settle st
  = match findOneAndUpdate_error w with
    | Some e =>
        (Throw e,
         logged st [RpcConfirmTransaction txSignature;
                    DbFindOneAndUpdate pd])
    | None =>
        (Throw (mkError reason),
         mkState (fst (upsert (now w) pd (collection st)))
           (log st ++ [RpcConfirmTransaction txSignature;
                       DbFindOneAndUpdate pd]))
    end.
Proof.
  intros C pd. unfold settlePayment.
  rewrite (bind_normal _ _ _ _ _ (confirmTransaction_run w _ st)), C.
  fold pd. destruct (findOneAndUpdate_error w) as [e|] eqn:F.
  - rewrite (bind_throw _ _ _ _ _
               (createPaymentRecord_failed w pd _ e F)).
    now rewrite logged_logged.
  - rewrite (bind_normal _ _ _ _ _
               (createPaymentRecord_written w pd _ F)).
    unfold throw, logged. simpl. now rewrite <- app_assoc.
Qed.

(** Confirmation and the on-chain check succeed and the write goes
    through: the confirmed record is the result. *)
Lemma settle_confirmed st txd t :
  confirmationOf w txSignature = ConfirmSuccess ->
  getTransaction_rpc w txSignature = Normal (Some txd) ->
  find (isPaymentTransfer this) (parseTokenTransfers this txd)
  = Some t ->
  requiredAmount this <= t_amount t ->
  findOneAndUpdate_error w = None ->
  let pd := confirmedPaymentData this w userId txSignature (t_amount t)
              sender endpoint (tx_blockTime txd) (tx_slot txd) in
  settle st
  = (Normal (successResult (snd (upsert (now w) pd (collection st)))
               "Payment verified and confirmed"),
     mkState (fst (upsert (now w) pd (collection st)))
       (log st ++ [RpcConfirmTransaction txSignature;
                   RpcGetTransaction txSignature;
                   DbFindOneAndUpdate pd])).
Proof.
  intros C G T A F pd. unfold settlePayment.
  rewrite (bind_normal _ _ _ _ _ (confirmTransaction_run w _ st)), C.
  rewrite (bind_normal _ _ _ _ _
             (verifyOnChainTransfer_success this w _ sender amount _
                txd t G T A)).
  fold pd.
  rewrite (bind_normal _ _ _ _ _
             (createPaymentRecord_written w pd _ F)).
  unfold ret, logged. simpl. now rewrite <- !app_assoc.
Qed.

(** The on-chain check fails: its reason is thrown and nothing is
    written. *)
Lemma settle_transfer_refused st reason :
  confirmationOf w txSignature = ConfirmSuccess ->
  fst (verifyOnChainTransfer this w txSignature sender amount
         (logged st [RpcConfirmTransaction txSignature]))
  = Normal (TransferFailure reason) ->
  settle st
  = (Throw (mkError reason),
     logged st [RpcConfirmTransaction txSignature;
                RpcGetTransaction txSignature]).
Proof.
  intros C V. unfold settlePayment.
  rewrite (bind_normal _ _ _ _ _ (confirmTransaction_run w _ st)), C.
  destruct (verifyOnChainTransfer_total this w txSignature sender amount
              (logged st [RpcConfirmTransaction txSignature]))
    as (r & E).
  rewrite E in V. simpl in V. inversion V; subst r.
  rewrite (bind_normal _ _ _ _ _ E). now rewrite logged_logged.
Qed.

End Settle.

(** **** Steps 4 to 6 *)

Section Process.

Variable tx : Transaction.
Variable buf : Buffer.
Variable amount : Z.
Variable sender : option string.

Hypothesis valid :
  validateTransactionInstructions this tx = Valid amount sender.

Local Abbreviation process :=
  (processPayment this w tx buf endpoint userId).

Lemma process_simulation_refused st reason :
  simulationOf w tx = SimInvalid reason ->
  process st
  = (Throw (mkError reason), logged st [RpcSimulateTransaction tx]).
Proof.
  intros S. unfold processPayment. rewrite valid.
  rewrite (bind_normal _ _ _ _ _ (simulateTransaction_run w tx st)), S.
  reflexivity.
Qed.

Lemma process_submission_refused st e :
  simulationOf w tx = SimValid ->
  sendRawTransaction_rpc w buf = Throw e ->
  alreadyProcessed (message e) = false ->
  process st
  = (Throw (mkError ("Transaction submission failed: " ++ message e)),
     logged st [RpcSimulateTransaction tx; RpcSendRawTransaction buf]).
Proof.
  intros S H1 H2. unfold processPayment. rewrite valid.
  rewrite (bind_normal _ _ _ _ _ (simulateTransaction_run w tx st)), S.
  rewrite (bind_throw _ _ _ _ _
             (submitTransaction_refused w tx buf _ e H1 H2)).
  now rewrite logged_logged.
Qed.

Lemma process_sent st txSignature :
  simulationOf w tx = SimValid ->
  sendRawTransaction_rpc w buf = Normal txSignature ->
  process st
  = settlePayment this w endpoint userId amount sender txSignature
      (logged st [RpcSimulateTransaction tx;
                  RpcSendRawTransaction buf]).
Proof.
  intros S H. unfold processPayment. rewrite valid.
  rewrite (bind_normal _ _ _ _ _ (simulateTransaction_run w tx st)), S.
  rewrite (bind_normal _ _ _ _ _
             (submitTransaction_sent w tx buf _ txSignature H)).
  now rewrite logged_logged.
Qed.

Lemma process_recovered st e sig :
  simulationOf w tx = SimValid ->
  sendRawTransaction_rpc w buf = Throw e ->
  alreadyProcessed (message e) = true ->
  firstSignature tx = Some sig ->
  process st
  = settlePayment this w endpoint userId amount sender
      (bs58_encode sig)
      (logged st [RpcSimulateTransaction tx;
                  RpcSendRawTransaction buf]).
Proof.
  intros S H1 H2 H3. unfold processPayment.
  rewrite valid.
  rewrite (bind_normal _ _ _ _ _ (simulateTransaction_run w tx st)), S.
  rewrite (bind_normal _ _ _ _ _
             (submitTransaction_recovered w tx buf _ e sig H1 H2 H3)).
  now rewrite logged_logged.
Qed.

End Process.

End Paths.

(* ================================================================== *)
(** ** What a call writes *)
(* ================================================================== *)

Lemma emits_step {A} (P : Event -> Prop) (m : M A) evs :
  (forall st, log (snd (m st)) = (log st ++ evs)%list) ->
  Forall P evs -> emits P m.
Proof. intros H F st. exists evs. auto. Qed.

Section Writes.

Variable this : PaymentController.
Variable w : World.
Variable P : Event -> Prop.

Lemma createPaymentRecord_emits pd :
  P (DbFindOneAndUpdate pd) -> emits P (createPaymentRecord w pd).
Proof.
  intros H. apply emits_step with (evs := [DbFindOneAndUpdate pd]); auto.
  intros st. destruct (findOneAndUpdate_error w) as [e|] eqn:F.
  - now rewrite (createPaymentRecord_failed w pd st e F).
  - now rewrite (createPaymentRecord_written w pd st F).
Qed.

Hypothesis reads :
  forall ev, isWrite ev = false -> P ev.

Lemma findOne_emits key : emits P (Payment_findOne w key).
Proof.
  apply emits_step with (evs := [DbFindOne key]).
  - intros st. unfold Payment_findOne.
    rewrite (bind_normal _ _ _ _ _ (emit_run _ st)).
    destruct (findOne_error w); reflexivity.
  - constructor; [now apply reads | constructor].
Qed.

Lemma simulateTransaction_emits tx : emits P (simulateTransaction w tx).
Proof.
  apply emits_step with (evs := [RpcSimulateTransaction tx]).
  - intros st. now rewrite simulateTransaction_run.
  - constructor; [now apply reads | constructor].
Qed.

Lemma confirmTransaction_emits sig : emits P (confirmTransaction w sig).
Proof.
  apply emits_step with (evs := [RpcConfirmTransaction sig]).
  - intros st. now rewrite confirmTransaction_run.
  - constructor; [now apply reads | constructor].
Qed.

Lemma submitTransaction_emits tx buf :
  emits P (submitTransaction w tx buf).
Proof.
  apply emits_step with (evs := [RpcSendRawTransaction buf]).
  - intros st. destruct (sendRawTransaction_rpc w buf) as [sig|e] eqn:S.
    + now rewrite (submitTransaction_sent w tx buf st sig S).
    + unfold submitTransaction, try_catch.
      rewrite (bind_normal _ _ _ _ _ (emit_run _ st)).
      unfold lift. rewrite S.
      destruct (alreadyProcessed (message e)); [|reflexivity].
      destruct (firstSignature tx); reflexivity.
  - constructor; [now apply reads | constructor].
Qed.

Lemma verifyOnChainTransfer_emits sig sender amt :
  emits P (verifyOnChainTransfer this w sig sender amt).
Proof.
  apply emits_step with (evs := [RpcGetTransaction sig]).
  - intros st.
    destruct (verifyOnChainTransfer_total this w sig sender amt st)
      as (r & ->).
    reflexivity.
  - constructor; [now apply reads | constructor].
Qed.

(** Steps 7 to 9 write records of the given sender only. *)
Lemma settlePayment_emits endpoint userId amount sender txSignature :
  (forall pd, pd_senderWallet pd = sender -> P (DbFindOneAndUpdate pd)) ->
  emits P (settlePayment this w endpoint userId amount sender txSignature).
Proof.
  intros W. unfold settlePayment.
  apply emits_bind; [apply confirmTransaction_emits|]. intros [e|].
  - apply emits_bind; [|intros _; apply emits_throw].
    apply createPaymentRecord_emits. now apply W.
  - apply emits_bind; [apply verifyOnChainTransfer_emits|].
    intros [e|a bt sl]; [apply emits_throw|].
    apply emits_bind; [|intros p; apply emits_ret].
    apply createPaymentRecord_emits. now apply W.
Qed.

End Writes.

(** Every record a call writes carries the sender that the validator
    reported for the decoded transaction. *)
Lemma verifyPayment_sender
    (this : PaymentController) (w : World)
    (serializedTransaction endpoint : string) (userId : option string)
    (tx : Transaction) :
  Transaction_from w (Buffer_from_base64 w serializedTransaction)
  = Normal tx ->
  emits (senderFromValidation this tx)
    (verifyPayment this w serializedTransaction endpoint userId).
Proof.
  intros D.
  assert (R : forall ev, isWrite ev = false ->
                         senderFromValidation this tx ev).
  { intros ev H pd ->. discriminate H. }
  assert (Pr : forall buf,
             emits (senderFromValidation this tx)
               (processPayment this w tx buf endpoint userId)).
  { intros buf. unfold processPayment.
    destruct (validateTransactionInstructions this tx) as [e|a sd] eqn:V;
      [apply emits_throw|].
    apply emits_bind; [now apply simulateTransaction_emits|].
    intros [e|]; [apply emits_throw|].
    apply emits_bind; [now apply submitTransaction_emits|]. intros sig.
    apply settlePayment_emits; [exact R|].
    intros pd <- pd' E. inversion E; subst pd'. now exists a. }
  unfold verifyPayment. apply emits_try; [|intros e; apply emits_ret].
  unfold verifyPaymentBody. intros st. unfold bind at 1, lift.
  rewrite D. revert st.
  change (emits (senderFromValidation this tx)
            (match firstSignature tx with
             | Some sig =>
                 bind (Payment_findOne w (toString_base64 sig))
                   (fun existingPayment =>
                      match existingPayment with
                      | Some p =>
                          match status p with
                          | pending =>
                              processPayment this w tx
                                (Buffer_from_base64 w serializedTransaction)
                                endpoint userId
                          | confirmed =>
                              ret (successResult p
                                     "Payment already confirmed")
                          | failed =>
                              throw (mkError
                                "Transaction previously failed verification")
                          end
                      | None =>
                          processPayment this w tx
                            (Buffer_from_base64 w serializedTransaction)
                            endpoint userId
                      end)
             | None => throw (mkError "Invalid transaction signature")
             end)).
  destruct (firstSignature tx) as [sig|]; [|apply emits_throw].
  apply emits_bind; [now apply findOne_emits|].
  intros [p|]; [|apply Pr].
  destruct (status p); [apply Pr | apply emits_ret | apply emits_throw].
Qed.

(* ================================================================== *)
(** ** A call that gets to step 4 *)
(* ================================================================== *)

Lemma caught_state c : snd (caught c) = snd c.
Proof. destruct c as [[r|e] st]; reflexivity. Qed.

(** The [catch] of [verifyPayment] applied to a completion. *)
Lemma verifyPayment_catch
    (this : PaymentController) (w : World)
    (serializedTransaction endpoint : string) (userId : option string)
    (st : State) :
  verifyPayment this w serializedTransaction endpoint userId st
  = caught (verifyPaymentBody this w serializedTransaction endpoint userId st).
Proof. reflexivity. Qed.

Section Reached.

Variable this : PaymentController.
Variable w : World.
Variables serializedTransaction endpoint : string.
Variable userId : option string.
Variable docs : list Payment.
Variable tx : Transaction.
Variable sig : Buffer.

Hypothesis decoded :
  Transaction_from w (Buffer_from_base64 w serializedTransaction)
  = Normal tx.
Hypothesis signed : firstSignature tx = Some sig.
Hypothesis answered : findOne_error w = None.
Hypothesis free : blocks (lookup (toString_base64 sig) docs) = false.

Local Abbreviation buf := (Buffer_from_base64 w serializedTransaction).
Local Abbreviation st1 := (mkState docs [DbFindOne (toString_base64 sig)]).

Lemma reached_processing :
  run (verifyPayment this w serializedTransaction endpoint userId) docs
  = caught (processPayment this w tx buf endpoint userId st1).
Proof.
  unfold run. rewrite verifyPayment_catch.
  now rewrite (body_processing this w _ endpoint userId tx sig decoded
                 signed (mkState docs []) answered free).
Qed.

Section Valid.

Variable amount : Z.
Variable sender : option string.
Hypothesis valid :
  validateTransactionInstructions this tx = Valid amount sender.
(** The call simulates before anything else happens. *)
Lemma reached_simulates :
  In (RpcSimulateTransaction tx)
    (log (snd (run (verifyPayment this w serializedTransaction endpoint
                      userId) docs))).
Proof.
  rewrite reached_processing. unfold processPayment. rewrite valid.
  rewrite (bind_normal _ _ _ _ _ (simulateTransaction_run w tx st1)).
  destruct (simulationOf w tx) as [e|].
  - simpl. auto.
  - assert (E : emits (fun _ => True)
                  (bind (submitTransaction w tx buf)
                     (fun txSignature =>
                        settlePayment this w endpoint userId amount
                          sender txSignature))).
    { apply emits_bind; [now apply submitTransaction_emits|].
      intros s. now apply settlePayment_emits. }
    destruct (E (logged st1 [RpcSimulateTransaction tx]))
  as (evs & L & _).
rewrite caught_state, L. simpl. auto.
Qed.

Hypothesis simulated : simulationOf w tx = SimValid.

Local Abbreviation st3 :=
  (mkState docs [DbFindOne (toString_base64 sig);
                 RpcSimulateTransaction tx;
                 RpcSendRawTransaction buf]).

Lemma reached_settlement_sent txSignature :
  sendRawTransaction_rpc w buf = Normal txSignature ->
  run (verifyPayment this w serializedTransaction endpoint userId) docs
  = caught (settlePayment this w endpoint userId amount sender
            txSignature st3).
Proof.
  intros S. rewrite reached_processing.
  now rewrite (process_sent this w endpoint userId tx buf amount sender
                 valid st1 txSignature simulated S).
Qed.

Lemma reached_settlement_recovered e :
  sendRawTransaction_rpc w buf = Throw e ->
  alreadyProcessed (message e) = true ->
  run (verifyPayment this w serializedTransaction endpoint userId) docs
  = caught (settlePayment this w endpoint userId amount sender
            (bs58_encode sig) st3).
Proof.
  intros S A. rewrite reached_processing.
  now rewrite (process_recovered this w endpoint userId tx buf amount
                 sender valid st1 e sig simulated S A signed).
Qed.

End Valid.

End Reached.

(* ================================================================== *)
(** ** A transfer instruction with fewer than two account keys *)
(* ================================================================== *)

(** C10.  When the first token-program instruction with leading data
    byte 3 has fewer than two account keys and its decoded amount meets
    the minimum, [validateTransactionInstructions] returns [valid] with
    that amount and a null sender.  A call of [verifyPayment] that gets
    to step 4 with such a transaction goes on to simulate it, every
    record the call writes has a null [senderWallet], and the call does
    write one, with a null sender, both when confirmation fails (the
    failed record) and when confirmation and the on-chain check succeed
    (the confirmed record). *)
Theorem C10_null_sender_accepted
    (this : PaymentController) (tx : Transaction)
    (i : TransactionInstruction) :
  find isTokenTransfer (instructions tx) = Some i ->
  (List.length (keys i) < 2)%nat ->
  (9 <= List.length (data i))%nat ->
  requiredAmount this <= decodedAmount i ->
  validateTransactionInstructions this tx = Valid (decodedAmount i) None
  /\
  forall (w : World) (serializedTransaction endpoint : string)
         (userId : option string) (docs : list Payment) (sig : Buffer),
    Transaction_from w (Buffer_from_base64 w serializedTransaction)
    = Normal tx ->
    firstSignature tx = Some sig ->
    findOne_error w = None ->
    blocks (lookup (toString_base64 sig) docs) = false ->
    let written :=
      log (snd (run (verifyPayment this w serializedTransaction endpoint
                       userId) docs)) in
    In (RpcSimulateTransaction tx) written
    /\ (forall pd,
           In (DbFindOneAndUpdate pd) written -> pd_senderWallet pd = None)
    /\ (forall txSignature reason,
           simulationOf w tx = SimValid ->
           sendRawTransaction_rpc w
             (Buffer_from_base64 w serializedTransaction)
           = Normal txSignature ->
           confirmationOf w txSignature = ConfirmFailure reason ->
           In (DbFindOneAndUpdate
                 (failedPaymentData this userId txSignature
                    (decodedAmount i) None endpoint)) written)
    /\ (forall txSignature txd t,
           simulationOf w tx = SimValid ->
           sendRawTransaction_rpc w
             (Buffer_from_base64 w serializedTransaction)
           = Normal txSignature ->
           confirmationOf w txSignature = ConfirmSuccess ->
           getTransaction_rpc w txSignature = Normal (Some txd) ->
           find (isPaymentTransfer this) (parseTokenTransfers this txd)
           = Some t ->
           requiredAmount this <= t_amount t ->
           findOneAndUpdate_error w = None ->
           In (DbFindOneAndUpdate
                 (confirmedPaymentData this w userId txSignature
                    (t_amount t) None endpoint (tx_blockTime txd)
                    (tx_slot txd))) written).
Proof.
  intros F K L A.
  assert (V : validateTransactionInstructions this tx
              = Valid (decodedAmount i) None).
  { rewrite (validate_valid this tx i F L A).
    now rewrite (reportedSender_few_keys i K). }
  split; [exact V|].
  intros w serializedTransaction endpoint userId docs sig D S Fe B written.
  split; [|split; [|split]].
  - exact (reached_simulates this w serializedTransaction endpoint userId
             docs tx sig D S Fe B _ _ V).
  - intros pd Hin.
    destruct (verifyPayment_sender this w serializedTransaction endpoint
                userId tx D (mkState docs [])) as (evs & E & P).
    subst written. unfold run in Hin. rewrite E in Hin. simpl in Hin.
    rewrite Forall_forall in P.
    destruct (P _ Hin pd eq_refl) as (a & Va).
    rewrite V in Va. now inversion Va.
  - intros txSignature reason Sim Sent C. subst written.
    rewrite (reached_settlement_sent this w serializedTransaction endpoint
               userId docs tx sig D S Fe B _ _ V Sim txSignature Sent).
    rewrite (settle_unconfirmed this w endpoint userId _ _ txSignature _
               reason C).
    destruct (findOneAndUpdate_error w); simpl; auto 10.
  - intros txSignature txd t Sim Sent C G T R W. subst written.
    rewrite (reached_settlement_sent this w serializedTransaction endpoint
               userId docs tx sig D S Fe B _ _ V Sim txSignature Sent).
    rewrite (settle_confirmed this w endpoint userId _ _ txSignature _
               txd t C G T R W).
    simpl. auto 10.
Qed.

Lemma C10_witness_single_key :
  validateTransactionInstructions controller txOneKey = Valid 100000 None
  /\ In (DbFindOneAndUpdate
           (failedPaymentData controller None (bs58_encode SIG_A) 100000
              None "/api/mu-checker/analyze"))
        (log (snd (run (verifyPayment controller
                          (worldUnconfirmed txOneKey 1000) "blob"
                          "/api/mu-checker/analyze" None) []))).
Proof.
  assert (K : (List.length
                 (keys (transferInstructionOf (transferData xa0 x86 x01)
                          [mkAccountMeta senderAccount false true]))
               < 2)%nat) by (vm_compute; lia).
  assert (L : (9 <= List.length
                      (data (transferInstructionOf
                               (transferData xa0 x86 x01)
                               [mkAccountMeta senderAccount false true])))%nat)
    by (vm_compute; lia).
  assert (A : requiredAmount controller
              <= decodedAmount
                   (transferInstructionOf (transferData xa0 x86 x01)
                      [mkAccountMeta senderAccount false true]))
    by (vm_compute; discriminate).
  destruct (C10_null_sender_accepted controller txOneKey _ eq_refl K L A)
    as (V & Pipeline).
  split; [exact V|].
  destruct (Pipeline (worldUnconfirmed txOneKey 1000) "blob"
              "/api/mu-checker/analyze" None [] SIG_A
              eq_refl eq_refl eq_refl eq_refl) as (_ & _ & Failed & _).
  exact (Failed (bs58_encode SIG_A)
           "Confirmation error: Transaction was not confirmed in 30.00 seconds"
           eq_refl eq_refl eq_refl).
Defined.

(* ================================================================== *)
(** ** The collection under [findOneAndUpdate]: one record per
       signature *)
(* ================================================================== *)

Section Upsert.

Variable date : Z.
Variable pd : PaymentData.

Local Abbreviation key := (pd_transactionSignature pd).

Lemma upsert_signature docs :
  transactionSignature (snd (upsert date pd docs)) = key.
Proof.
  induction docs as [|d rest IH]; [reflexivity|]. cbn [upsert].
  destruct (String.eqb (transactionSignature d) key); [reflexivity|].
  destruct (upsert date pd rest). exact IH.
Qed.

Lemma upsert_status docs : status (snd (upsert date pd docs)) = pd_status pd.
Proof.
  induction docs as [|d rest IH]; [reflexivity|]. cbn [upsert].
  destruct (String.eqb (transactionSignature d) key); [reflexivity|].
  destruct (upsert date pd rest). exact IH.
Qed.

Lemma upsert_amount docs : amount (snd (upsert date pd docs)) = pd_amount pd.
Proof.
  induction docs as [|d rest IH]; [reflexivity|]. cbn [upsert].
  destruct (String.eqb (transactionSignature d) key); [reflexivity|].
  destruct (upsert date pd rest). exact IH.
Qed.

Lemma upsert_sender docs :
  senderWallet (snd (upsert date pd docs)) = pd_senderWallet pd.
Proof.
  induction docs as [|d rest IH]; [reflexivity|]. cbn [upsert].
  destruct (String.eqb (transactionSignature d) key); [reflexivity|].
  destruct (upsert date pd rest). exact IH.
Qed.

Lemma upsert_In docs :
  In (snd (upsert date pd docs)) (fst (upsert date pd docs)).
Proof.
  induction docs as [|d rest IH]; cbn; [now left|].
  destruct (String.eqb (transactionSignature d) key); [now left|].
  destruct (upsert date pd rest). cbn in *. now right.
Qed.

(** The signatures of the collection after the update: the same, or one
    more at the end. *)
Lemma upsert_signatures docs :
  map transactionSignature (fst (upsert date pd docs))
  = if existsb (fun d => String.eqb (transactionSignature d) key) docs
    then map transactionSignature docs
    else (map transactionSignature docs ++ [key])%list.
Proof.
  induction docs as [|d rest IH]; [reflexivity|]. cbn [upsert existsb].
  destruct (String.eqb_spec (transactionSignature d) key) as [E|N].
  - cbn. now rewrite E.
  - destruct (upsert date pd rest) as [rest' p]. cbn in *. rewrite IH.
    now destruct (existsb _ rest).
Qed.

Lemma upsert_unique docs :
  uniqueSignatures docs -> uniqueSignatures (fst (upsert date pd docs)).
Proof.
  unfold uniqueSignatures. intros U. rewrite upsert_signatures.
  destruct (existsb _ docs) eqn:E; [exact U|].
  apply NoDup_app; [exact U | repeat constructor; intros [] |].
  intros k Hin [<-|[]].
  apply in_map_iff in Hin. destruct Hin as (d & Hd & Hin).
  assert (existsb (fun d => String.eqb (transactionSignature d) key) docs
          = true).
  { apply existsb_exists. exists d. split; [exact Hin|].
    now apply String.eqb_eq. }
  congruence.
Qed.

Lemma recordsOf_absent k docs :
  ~ In k (map transactionSignature docs) -> recordsOf k docs = [].
Proof.
  induction docs as [|d rest IH]; [reflexivity|]. cbn. intros H.
  destruct (String.eqb_spec (transactionSignature d) k) as [E|N].
  - exfalso. apply H. now left.
  - apply IH. intros Hin. apply H. now right.
Qed.

(** After the update exactly one document carries the signature: the one
    [findOneAndUpdate] returns. *)
Lemma upsert_single docs :
  uniqueSignatures docs ->
  recordsOf key (fst (upsert date pd docs)) = [snd (upsert date pd docs)].
Proof.
  unfold uniqueSignatures.
  induction docs as [|d rest IH]; intros U.
  - cbn. now rewrite String.eqb_refl.
  - cbn [upsert]. cbn in U. inversion U as [|k ks Hnotin U']; subst.
    destruct (String.eqb_spec (transactionSignature d) key) as [E|N].
    + cbn. rewrite String.eqb_refl. f_equal.
      apply recordsOf_absent. now rewrite <- E.
    + specialize (IH U'). destruct (upsert date pd rest) as [rest' p].
      cbn in *.
      destruct (String.eqb_spec (transactionSignature d) key); [easy|].
      exact IH.
Qed.

End Upsert.

(** X1.  No call breaks the unique index: [verifyPayment] keeps one
    record per signature. *)
Theorem verifyPayment_unique
    (this : PaymentController) (w : World)
    (serializedTransaction endpoint : string) (userId : option string) :
  keeps uniqueSignatures
    (verifyPayment this w serializedTransaction endpoint userId).
Proof.
  assert (Wr : forall pd, keeps uniqueSignatures (createPaymentRecord w pd)).
  { intros pd st U. destruct (findOneAndUpdate_error w) as [e|] eqn:F.
    - now rewrite (createPaymentRecord_failed w pd st e F).
    - rewrite (createPaymentRecord_written w pd st F). cbn.
      now apply upsert_unique. }
  assert (Rd : forall A (m : M A),
             (forall st, collection (snd (m st)) = collection st) ->
             keeps uniqueSignatures m).
  { intros A m H st U. now rewrite H. }
  assert (Pr : forall tx buf,
             keeps uniqueSignatures
               (processPayment this w tx buf endpoint userId)).
  { intros tx buf. unfold processPayment.
    destruct (validateTransactionInstructions this tx) as [e|a sd];
      [apply keeps_throw|].
    apply keeps_bind.
    { apply Rd. intros st. now rewrite simulateTransaction_run. }
    intros [e|]; [apply keeps_throw|].
    apply keeps_bind.
    { unfold submitTransaction. apply keeps_try.
      - apply keeps_bind; [apply keeps_emit | intros _; apply keeps_lift].
      - intros e. destruct (alreadyProcessed (message e));
          [destruct (firstSignature tx)|];
          first [apply keeps_ret | apply keeps_throw]. }
    intros sig. unfold settlePayment. apply keeps_bind.
    { apply Rd. intros st. now rewrite confirmTransaction_run. }
    intros [e|].
    - apply keeps_bind; [apply Wr | intros _; apply keeps_throw].
    - apply keeps_bind.
      { apply Rd. intros st.
        destruct (verifyOnChainTransfer_total this w sig sd a st)
          as (r & ->).
        reflexivity. }
      intros [e|oa bt sl]; [apply keeps_throw|].
      apply keeps_bind; [apply Wr | intros p; apply keeps_ret]. }
  unfold verifyPayment. apply keeps_try; [|intros e; apply keeps_ret].
  unfold verifyPaymentBody. apply keeps_bind; [apply keeps_lift|].
  intros tx. destruct (firstSignature tx) as [sig|]; [|apply keeps_throw].
  apply keeps_bind.
  { apply Rd. intros st. unfold Payment_findOne.
    rewrite (bind_normal _ _ _ _ _ (emit_run _ st)).
    destruct (findOne_error w); reflexivity. }
  intros [p|]; [|apply Pr].
  destruct (status p); [apply Pr | apply keeps_ret | apply keeps_throw].
Qed.

(* ================================================================== *)
(** ** Submission of a transaction the node has already processed *)
(* ================================================================== *)

Lemma emits_grows {A} (m : M A) ev st :
  emits (fun _ => True) m ->
  In ev (log st) -> In ev (log (snd (m st))).
Proof.
  intros E H. destruct (E st) as (evs & -> & _). apply in_or_app. now left.
Qed.

(** Steps 7 to 9 ask for the confirmation of the signature they are
    given, and for the finalized transaction when it is confirmed. *)
Lemma settlePayment_confirms
    (this : PaymentController) (w : World) (endpoint : string)
    (userId : option string) (amount : Z) (sender : option string)
    (txSignature : string) (st : State) :
  let st' :=
    snd (settlePayment this w endpoint userId amount sender txSignature st)
  in
  In (RpcConfirmTransaction txSignature) (log st')
  /\ (confirmationOf w txSignature = ConfirmSuccess ->
      In (RpcGetTransaction txSignature) (log st')).
Proof.
  cbv zeta. unfold settlePayment.
  rewrite (bind_normal _ _ _ _ _ (confirmTransaction_run w _ st)).
  destruct (confirmationOf w txSignature) as [reason|].
  - split; [|discriminate].
    apply emits_grows.
    + apply emits_bind; [now apply createPaymentRecord_emits|].
      intros _. apply emits_throw.
    + cbn. apply in_or_app. right. now left.
  - destruct (verifyOnChainTransfer_total this w txSignature sender amount
                (logged st [RpcConfirmTransaction txSignature]))
      as (r & E).
    rewrite (bind_normal _ _ _ _ _ E).
    assert (G : emits (fun _ => True)
                  match r with
                  | TransferFailure e => throw (mkError e)
                  | TransferSuccess onChainAmount blockTime slot =>
                      bind (createPaymentRecord w
                              (confirmedPaymentData this w userId
                                 txSignature onChainAmount sender endpoint
                                 blockTime slot))
                        (fun payment =>
                           ret (successResult payment
                                  "Payment verified and confirmed"))
                  end).
    { destruct r; [apply emits_throw|].
      apply emits_bind; [now apply createPaymentRecord_emits|].
      intros p. apply emits_ret. }
    split; [|intros _]; apply (emits_grows _ _ _ G); cbn;
      rewrite <- app_assoc; apply in_or_app; right; cbn; auto.
Qed.

(** C5, as stated, fails: the node answers "already been processed" for
    a transaction that failed on chain; the call goes on to
    confirmation, which reports the failure, and the outcome is one
    failed record and no confirmed one. *)
Lemma C5_counterexample_processed_and_failed :
  sendRawTransaction_rpc (worldProcessedAndFailed txPay 1000) []
  = Throw nodeAlreadyProcessed
  /\ alreadyProcessed (message nodeAlreadyProcessed) = true
  /\ fst (run (verifyPayment controller (worldProcessedAndFailed txPay 1000)
                 "blob" "/api/mu-checker/analyze" None) [])
     = Normal (failureResult
                 "Transaction failed: {InstructionError:[0,{Custom:1}]}")
  /\ map status
       (recordsOf (bs58_encode SIG_A)
          (collection
             (snd (run (verifyPayment controller
                          (worldProcessedAndFailed txPay 1000)
                          "blob" "/api/mu-checker/analyze" None) []))))
     = [failed].
Proof.
  repeat split; vm_compute; reflexivity.
Qed.

(** C5, amended.  When a call gets to step 6 and the submission fails
    with an "already processed" error, the error is not turned into
    "Transaction submission failed": step 6 yields the base58 form of
    the transaction's first signature, and the call goes on to ask for
    the confirmation of that signature and, when it is confirmed, for
    the finalized transaction.  When moreover the confirmation and the
    on-chain check succeed and the write goes through, the call returns
    [success = true] with a confirmed record, and that record is the
    only one the collection holds for the signature. *)
Theorem C5_already_processed_recovery
    (this : PaymentController) (w : World)
    (serializedTransaction endpoint : string) (userId : option string)
    (docs : list Payment) (tx : Transaction) (sig : Buffer) (e : Error)
    (declared : Z) (sender : option string) :
  Transaction_from w (Buffer_from_base64 w serializedTransaction)
  = Normal tx ->
  firstSignature tx = Some sig ->
  findOne_error w = None ->
  blocks (lookup (toString_base64 sig) docs) = false ->
  validateTransactionInstructions this tx = Valid declared sender ->
  simulationOf w tx = SimValid ->
  sendRawTransaction_rpc w (Buffer_from_base64 w serializedTransaction)
  = Throw e ->
  alreadyProcessed (message e) = true ->
  let txSignature := bs58_encode sig in
  let out :=
    run (verifyPayment this w serializedTransaction endpoint userId) docs in
  (forall st,
      fst (submitTransaction w tx
             (Buffer_from_base64 w serializedTransaction) st)
      = Normal txSignature)
  /\ In (RpcConfirmTransaction txSignature) (log (snd out))
  /\ (confirmationOf w txSignature = ConfirmSuccess ->
      In (RpcGetTransaction txSignature) (log (snd out)))
  /\ (forall txd t,
         confirmationOf w txSignature = ConfirmSuccess ->
         getTransaction_rpc w txSignature = Normal (Some txd) ->
         find (isPaymentTransfer this) (parseTokenTransfers this txd)
         = Some t ->
         requiredAmount this <= t_amount t ->
         findOneAndUpdate_error w = None ->
         uniqueSignatures docs ->
         exists p,
           fst out
           = Normal (successResult p "Payment verified and confirmed")
           /\ status p = confirmed
           /\ transactionSignature p = txSignature
           /\ amount p = t_amount t
           /\ recordsOf txSignature (collection (snd out)) = [p]).
Proof.
  intros D S Fe B V Sim Sent AP txSignature out.
  assert (R : out
              = caught
                  (settlePayment this w endpoint userId declared sender
                     txSignature
                     (mkState docs
                        [DbFindOne (toString_base64 sig);
                         RpcSimulateTransaction tx;
                         RpcSendRawTransaction
                           (Buffer_from_base64 w serializedTransaction)]))).
  { exact (reached_settlement_recovered this w serializedTransaction
             endpoint userId docs tx sig D S Fe B _ _ V Sim e Sent AP). }
  split; [|split; [|split]].
  - intros st.
    now rewrite (submitTransaction_recovered w tx _ st e sig Sent AP S).
  - rewrite R, caught_state. apply settlePayment_confirms.
  - rewrite R, caught_state. apply settlePayment_confirms.
  - intros txd t C G T A W U. rewrite R.
    rewrite (settle_confirmed this w endpoint userId declared sender
               txSignature _ txd t C G T A W).
    eexists. split; [reflexivity|]. cbn [snd caught collection].
    split; [apply upsert_status|]. split; [apply upsert_signature|].
    split; [apply upsert_amount|].
    exact (upsert_single (now w) _ docs U).
Qed.

Lemma C5_witness_already_processed :
  exists p,
    fst (run (verifyPayment controller
                (worldAlreadyProcessed txPay 100000 2000) "blob"
                "/api/mu-checker/analyze" None) [])
    = Normal (successResult p "Payment verified and confirmed")
    /\ status p = confirmed
    /\ recordsOf (bs58_encode SIG_A)
         (collection
            (snd (run (verifyPayment controller
                         (worldAlreadyProcessed txPay 100000 2000) "blob"
                         "/api/mu-checker/analyze" None) [])))
       = [p].
Proof.
  assert (V : validateTransactionInstructions controller txPay
              = Valid 100000 (Some senderAccount))
    by (vm_compute; reflexivity).
  assert (AP : alreadyProcessed (message nodeAlreadyProcessed) = true)
    by (vm_compute; reflexivity).
  assert (T : find (isPaymentTransfer controller)
                (parseTokenTransfers controller finalizedPayment)
              = Some transferToWallet)
    by (vm_compute; reflexivity).
  assert (A : requiredAmount controller <= t_amount transferToWallet)
    by (vm_compute; discriminate).
  destruct (C5_already_processed_recovery controller
              (worldAlreadyProcessed txPay 100000 2000) "blob"
              "/api/mu-checker/analyze" None [] txPay SIG_A
              nodeAlreadyProcessed 100000 (Some senderAccount)
              eq_refl eq_refl eq_refl eq_refl V eq_refl eq_refl AP)
    as (_ & _ & _ & Confirmed).
  destruct (Confirmed finalizedPayment transferToWallet
              eq_refl eq_refl T A eq_refl (NoDup_nil _))
    as (p & R & St & _ & _ & One).
  exists p. auto.
Defined.

(* ================================================================== *)
(** ** The lookup key and the key of the stored record *)
(* ================================================================== *)

(** Step 3 looks the record up under the base64 form of the signature
    (the variable is called [signatureBase58]); steps 7 and 9 store it
    under the base58 form.  For the signature of the scenarios the two
    differ, so no call finds what an earlier call wrote. *)

(** C1 (code against claim).  The first call confirms the payment and
    stores one confirmed record under the base58 signature.  The second
    call, with the same blob, does not find it under the base64 key.
    With a node that simulates the transaction and then answers "already
    processed" to the submission, the call simulates and submits the
    transaction again, writes the record a second time, and reports
    "Payment verified and confirmed", not "Payment already confirmed".
    With a node that answers "AlreadyProcessed" to the simulation, the
    call is rejected. *)
Theorem C1_replay_is_submitted_again :
  let first := worldAccepted txPay 100000 1000 in
  let second := worldAlreadyProcessed txPay 100000 2000 in
  let second' := worldSimulationRefused txPay 2000 in
  (exists p,
      fst (firstCall first)
      = Normal (successResult p "Payment verified and confirmed")
      /\ status p = confirmed
      /\ transactionSignature p = bs58_encode SIG_A
      /\ collection (snd (firstCall first)) = [p])
  /\ lookup (toString_base64 SIG_A) (collection (snd (firstCall first)))
     = None
  /\ existsb isSimulation (log (snd (secondCall first second))) = true
  /\ existsb isSubmission (log (snd (secondCall first second))) = true
  /\ existsb isWrite (log (snd (secondCall first second))) = true
  /\ (exists p',
         fst (secondCall first second)
         = Normal (successResult p' "Payment verified and confirmed")
         /\ verifiedAt p' = Some 2000)
  /\ existsb isSimulation (log (snd (secondCall first second'))) = true
  /\ fst (secondCall first second')
     = Normal (failureResult
                 ("Transaction simulation failed: "
                  ++ dquote ++ "AlreadyProcessed" ++ dquote)).
Proof.
  cbv zeta. split; [|split; [|split; [|split; [|split; [|split; [|split]]]]]].
  - eexists. repeat split; vm_compute; reflexivity.
  - vm_compute; reflexivity.
  - vm_compute; reflexivity.
  - vm_compute; reflexivity.
  - vm_compute; reflexivity.
  - eexists. split; vm_compute; reflexivity.
  - vm_compute; reflexivity.
  - vm_compute; reflexivity.
Qed.

(** C3 (code against claim).  The first call fails at confirmation and
    stores a failed record under the base58 signature.  The second call,
    with the same blob and the same answers of the node, does not find
    it under the base64 key: it is not rejected at step 3, it simulates
    and submits the transaction again and fails at confirmation again. *)
Theorem C3_retry_is_submitted_again :
  let first := worldUnconfirmed txPay 1000 in
  let second := worldUnconfirmed txPay 2000 in
  fst (firstCall first)
  = Normal (failureResult
      "Confirmation error: Transaction was not confirmed in 30.00 seconds")
  /\ map (fun p => (transactionSignature p, status p))
       (collection (snd (firstCall first)))
     = [(bs58_encode SIG_A, failed)]
  /\ lookup (toString_base64 SIG_A) (collection (snd (firstCall first)))
     = None
  /\ existsb isSubmission (log (snd (secondCall first second))) = true
  /\ fst (secondCall first second)
     = Normal (failureResult
         "Confirmation error: Transaction was not confirmed in 30.00 seconds")
  /\ fst (secondCall first second)
     <> Normal (failureResult "Transaction previously failed verification").
Proof.
  cbv zeta. repeat split; try (vm_compute; reflexivity).
  vm_compute. discriminate.
Qed.

(** C2 (code against claim).  The first call fails at confirmation and
    stores a failed record.  The second call, with the same blob,
    reaches the node, which has processed the transaction meanwhile; the
    call confirms it and turns the failed record of that signature into
    a confirmed one. *)
Theorem C2_failed_record_becomes_confirmed :
  let first := worldUnconfirmed txPay 1000 in
  let second := worldAlreadyProcessed txPay 100000 2000 in
  map (fun p => (transactionSignature p, status p))
    (collection (snd (firstCall first)))
  = [(bs58_encode SIG_A, failed)]
  /\ map (fun p => (transactionSignature p, status p))
       (collection (snd (secondCall first second)))
     = [(bs58_encode SIG_A, confirmed)]
  /\ (exists p,
         fst (secondCall first second)
         = Normal (successResult p "Payment verified and confirmed")
         /\ status p = confirmed).
Proof.
  cbv zeta. split; [|split].
  - vm_compute; reflexivity.
  - vm_compute; reflexivity.
  - eexists. split; vm_compute; reflexivity.
Qed.

(** *** The two encodings never meet on a 64-byte signature *)

Lemma occurs_append c s1 s2 :
  occurs c (s1 ++ s2) <-> occurs c s1 \/ occurs c s2.
Proof.
  unfold occurs. induction s1 as [|a s1 IH]; cbn.
  - tauto.
  - rewrite IH. tauto.
Qed.

Lemma get_occurs k s c : String.get k s = Some c -> occurs c s.
Proof.
  unfold occurs. revert k. induction s as [|a s IH]; intros k H.
  - discriminate H.
  - destruct k as [|k]; cbn in *.
    + inversion H. now left.
    + right. now apply (IH k).
Qed.

Lemma b58_alphabet_no_padding : ~ occurs "="%char b58_alphabet.
Proof.
  unfold occurs. intros H.
  assert (E : forallb (fun c => negb (Ascii.eqb c "="%char))
                (list_ascii_of_string b58_alphabet) = true)
    by (vm_compute; reflexivity).
  rewrite forallb_forall in E. specialize (E _ H).
  now rewrite Ascii.eqb_refl in E.
Qed.

Lemma b58_char_no_padding n : b58_char n <> "="%char.
Proof.
  unfold b58_char. destruct (String.get _ _) as [c|] eqn:G.
  - intros ->. exact (b58_alphabet_no_padding (get_occurs _ _ _ G)).
  - discriminate.
Qed.

Lemma b58_digits_no_padding fuel n acc :
  ~ occurs "="%char acc -> ~ occurs "="%char (b58_digits fuel n acc).
Proof.
  revert n acc. induction fuel as [|fuel IH]; intros n acc H; cbn.
  - exact H.
  - destruct (n =? 0); [exact H|]. apply IH.
    unfold occurs in *. cbn. intros [E|E]; [|now apply H].
    exact (b58_char_no_padding _ E).
Qed.

Lemma leading_zero_bytes_no_padding bs :
  ~ occurs "="%char (leading_zero_bytes bs).
Proof.
  unfold occurs. induction bs as [|b bs IH]; cbn; [tauto|].
  destruct (byte_val b =? 0); cbn; [|tauto].
  intros [E|E]; [discriminate E | now apply IH].
Qed.

(** A base58 string has no ['=']. *)
Lemma bs58_encode_no_padding bs : ~ occurs "="%char (bs58_encode bs).
Proof.
  unfold bs58_encode. rewrite occurs_append. intros [H|H].
  - exact (leading_zero_bytes_no_padding _ H).
  - revert H. apply b58_digits_no_padding. unfold occurs. cbn. tauto.
Qed.

(** The base64 form of a buffer whose length is not a multiple of 3 is
    padded with ['=']. *)
Lemma toString_base64_padding bs :
  (List.length bs mod 3 <> 0)%nat -> occurs "="%char (toString_base64 bs).
Proof.
  assert (G : forall n bs, (List.length bs <= n)%nat ->
                (List.length bs mod 3 <> 0)%nat ->
                occurs "="%char (toString_base64 bs)).
  { clear bs. induction n as [|n IH]; intros bs L M.
    - destruct bs; [now cbn in M | cbn in L; lia].
    - destruct bs as [|a [|b [|c rest]]].
      + now cbn in M.
      + unfold occurs. cbn. auto.
      + unfold occurs. cbn. auto.
      + cbn [toString_base64]. unfold occurs. cbn [list_ascii_of_string].
        do 4 right. apply IH.
        * cbn in L. lia.
        * cbn [List.length] in M.
          replace (S (S (S (List.length rest))))
            with (List.length rest + 1 * 3)%nat in M by lia.
          now rewrite Nat.Div0.mod_add in M. }
  exact (G (List.length bs) bs (le_n _)).
Qed.

(** The key of step 3, for a signature of 64 bytes (or of any length
    that is not a multiple of 3), is not the base58 form of
    anything. *)
Lemma lookup_key_not_base58 sig sig' :
  (List.length sig mod 3 <> 0)%nat ->
  toString_base64 sig <> bs58_encode sig'.
Proof.
  intros M E. apply (bs58_encode_no_padding sig').
  rewrite <- E. now apply toString_base64_padding.
Qed.

(* ================================================================== *)
(** ** [parseTokenTransfers]: the account map *)
(* ================================================================== *)

Section AccountMaps.

Lemma Map_get_set_same k v m : Map_get k (Map_set k v m) = Some v.
Proof.
  induction m as [|[k' v'] m IH]; cbn.
  - now rewrite Z.eqb_refl.
  - destruct (Z.eqb_spec k' k); cbn.
    + now rewrite Z.eqb_refl.
    + destruct (Z.eqb_spec k' k); [contradiction | exact IH].
Qed.

Lemma Map_get_set_other k k' v m :
  k <> k' -> Map_get k' (Map_set k v m) = Map_get k' m.
Proof.
  intros N. induction m as [|[k0 v0] m IH]; cbn.
  - destruct (Z.eqb_spec k k'); [contradiction | reflexivity].
  - destruct (Z.eqb_spec k0 k) as [E|E]; cbn.
    + subst k0. destruct (Z.eqb_spec k k'); [contradiction|].
      reflexivity.
    + destruct (Z.eqb_spec k0 k'); [reflexivity | exact IH].
Qed.

Lemma Map_set_keys k v m :
  NoDup (map fst m) -> NoDup (map fst (Map_set k v m)).
Proof.
  induction m as [|[k0 v0] m IH]; cbn; intros U.
  - repeat constructor. intros [].
  - inversion U as [|x xs Hx U']; subst.
    destruct (Z.eqb_spec k0 k) as [E|E]; cbn.
    + subst k0. now constructor.
    + constructor; [|now apply IH].
      intros Hin. apply Hx. clear -Hin E.
      induction m as [|[k1 v1] m IH]; cbn in *.
      * destruct Hin as [H|[]]. now subst.
      * destruct (Z.eqb_spec k1 k); cbn in *.
        -- destruct Hin as [H|H]; [now subst | now right].
        -- destruct Hin as [H|H]; [now left | right; now apply IH].
Qed.

Lemma Map_get_In k a (m : AccountMap) :
  Map_get k m = Some a -> In (k, a) m.
Proof.
  induction m as [|[k0 v0] m IH]; cbn; [discriminate|].
  destruct (Z.eqb_spec k0 k) as [E|E].
  - intros H. inversion H. subst. now left.
  - intros H. right. now apply IH.
Qed.

Lemma Map_In_get k a (m : AccountMap) :
  NoDup (map fst m) -> In (k, a) m -> Map_get k m = Some a.
Proof.
  induction m as [|[k0 v0] m IH]; cbn; [tauto|].
  intros U [H|H]; inversion U as [|x xs Hx U']; subst.
  - inversion H. subst. now rewrite Z.eqb_refl.
  - destruct (Z.eqb_spec k0 k) as [E|E].
    + subst k0. exfalso. apply Hx.
      apply in_map_iff. now exists (k, a).
    + now apply IH.
Qed.

Lemma find_absent k (bs : list TokenBalance) :
  ~ In k (map accountIndex bs) ->
  find (fun b => accountIndex b =? k) bs = None.
Proof.
  induction bs as [|b bs IH]; cbn; [reflexivity|]. intros H.
  destruct (Z.eqb_spec (accountIndex b) k) as [E|E].
  - exfalso. apply H. now left.
  - apply IH. tauto.
Qed.

Lemma fold_processPre_get k pres m0 :
  distinctAccounts pres ->
  Map_get k (fold_left processPre pres m0)
  = match find (fun b => accountIndex b =? k) pres with
    | Some b => Some (preEntry b)
    | None => Map_get k m0
    end.
Proof.
  unfold distinctAccounts. revert m0.
  induction pres as [|b rest IH]; intros m0 U; [reflexivity|].
  cbn in U. inversion U as [|x xs Hx U']; subst.
  cbn [fold_left find]. rewrite (IH _ U').
  destruct (Z.eqb_spec (accountIndex b) k) as [E|E].
  - subst k. rewrite (find_absent _ _ Hx).
    unfold processPre. apply Map_get_set_same.
  - destruct (find _ rest); [reflexivity|].
    unfold processPre. now apply Map_get_set_other.
Qed.

Lemma processPost_get_same m0 b :
  Map_get (accountIndex b) (processPost m0 b)
  = Some (postEntry (Map_get (accountIndex b) m0) b).
Proof.
  unfold processPost, postEntry.
  destruct (Map_get (accountIndex b) m0); apply Map_get_set_same.
Qed.

Lemma processPost_get_other m0 b k :
  accountIndex b <> k -> Map_get k (processPost m0 b) = Map_get k m0.
Proof.
  intros N. unfold processPost.
  destruct (Map_get (accountIndex b) m0); now apply Map_get_set_other.
Qed.

Lemma fold_processPost_get k posts m0 :
  distinctAccounts posts ->
  Map_get k (fold_left processPost posts m0)
  = match find (fun b => accountIndex b =? k) posts with
    | Some b => Some (postEntry (Map_get k m0) b)
    | None => Map_get k m0
    end.
Proof.
  unfold distinctAccounts. revert m0.
  induction posts as [|b rest IH]; intros m0 U; [reflexivity|].
  cbn in U. inversion U as [|x xs Hx U']; subst.
  cbn [fold_left find]. rewrite (IH _ U').
  destruct (Z.eqb_spec (accountIndex b) k) as [E|E].
  - subst k. rewrite (find_absent _ _ Hx). apply processPost_get_same.
  - now rewrite (processPost_get_other _ _ _ E).
Qed.

Lemma fold_processPre_keys pres m0 :
  NoDup (map fst m0) -> NoDup (map fst (fold_left processPre pres m0)).
Proof.
  revert m0. induction pres as [|b rest IH]; intros m0 U; [exact U|].
  cbn. apply IH. unfold processPre. now apply Map_set_keys.
Qed.

Lemma fold_processPost_keys posts m0 :
  NoDup (map fst m0) -> NoDup (map fst (fold_left processPost posts m0)).
Proof.
  revert m0. induction posts as [|b rest IH]; intros m0 U; [exact U|].
  cbn. apply IH. unfold processPost.
  destruct (Map_get _ m0); now apply Map_set_keys.
Qed.

(** The account map, account by account. *)
Lemma buildAccountMap_get k pres posts :
  distinctAccounts pres -> distinctAccounts posts ->
  Map_get k (buildAccountMap pres posts)
  = match find (fun b => accountIndex b =? k) posts with
    | Some q =>
        Some (postEntry
                (option_map preEntry
                   (find (fun b => accountIndex b =? k) pres)) q)
    | None => option_map preEntry (find (fun b => accountIndex b =? k) pres)
    end.
Proof.
  intros U1 U2. unfold buildAccountMap.
  rewrite (fold_processPost_get k posts _ U2).
  rewrite (fold_processPre_get k pres [] U1).
  destruct (find _ posts); destruct (find _ pres); reflexivity.
Qed.

Lemma buildAccountMap_keys pres posts :
  NoDup (map fst (buildAccountMap pres posts)).
Proof.
  unfold buildAccountMap. apply fold_processPost_keys.
  apply fold_processPre_keys. constructor.
Qed.

(** A map built from balances with owners has owners throughout, and
    the loop over it does not throw. *)
Lemma Map_set_owned k v m :
  ownedEntries m -> owner v <> None -> ownedEntries (Map_set k v m).
Proof.
  unfold ownedEntries. intros O V.
  induction m as [|[k0 v0] m IH]; cbn.
  - repeat constructor. exact V.
  - inversion O as [|x xs Hx O']; subst.
    destruct (k0 =? k); constructor; auto.
Qed.

Lemma Map_get_owned k a m :
  ownedEntries m -> Map_get k m = Some a -> owner a <> None.
Proof.
  unfold ownedEntries. intros O G. apply Map_get_In in G.
  rewrite Forall_forall in O. exact (O (k, a) G).
Qed.

Lemma fold_processPre_owned pres m0 :
  ownedAccounts pres -> ownedEntries m0 ->
  ownedEntries (fold_left processPre pres m0).
Proof.
  unfold ownedAccounts. revert m0.
  induction pres as [|b pres IH]; intros m0 O M; [exact M|].
  inversion O as [|x xs Hb O']; subst. cbn [fold_left]. apply IH; [exact O'|].
  unfold processPre. now apply Map_set_owned.
Qed.

Lemma fold_processPost_owned posts m0 :
  ownedAccounts posts -> ownedEntries m0 ->
  ownedEntries (fold_left processPost posts m0).
Proof.
  unfold ownedAccounts. revert m0.
  induction posts as [|b posts IH]; intros m0 O M; [exact M|].
  inversion O as [|x xs Hb O']; subst. cbn [fold_left]. apply IH; [exact O'|].
  unfold processPost. destruct (Map_get (accountIndex b) m0) as [e|] eqn:G.
  - apply Map_set_owned; [exact M|]. cbn. exact (Map_get_owned _ _ _ M G).
  - now apply Map_set_owned.
Qed.

Lemma buildAccountMap_owned pres posts :
  ownedAccounts pres -> ownedAccounts posts ->
  ownedEntries (buildAccountMap pres posts).
Proof.
  intros P Q. unfold buildAccountMap. apply fold_processPost_owned; [exact Q|].
  apply fold_processPre_owned; [exact P | constructor].
Qed.

Lemma increases_owned m : ownedEntries m -> snd (increases m) = false.
Proof.
  unfold ownedEntries. induction m as [|[k a] m IH]; intros O; [reflexivity|].
  inversion O as [|x xs Ha O']; subst. cbn in Ha. cbn [increases].
  destruct (owner a) as [o|]; [|contradiction].
  specialize (IH O'). destruct (increases m) as [ts threw]. cbn in IH.
  now destruct (0 <? _).
Qed.

(** [find] over the transfers of a map with distinct keys: the entry
    that satisfies the test while no other increased one does. *)
Lemma find_increases (P : Transfer -> bool) (m : AccountMap) idx o a :
  NoDup (map fst m) ->
  ownedEntries m ->
  In (idx, a) m ->
  owner a = Some o ->
  0 < Number_sub (post a) (pre a) ->
  P (transferOf idx o a) = true ->
  (forall k o' a', In (k, a') m -> owner a' = Some o' -> k <> idx ->
                   P (transferOf k o' a') = false) ->
  find P (fst (increases m)) = Some (transferOf idx o a).
Proof.
  unfold ownedEntries.
  induction m as [|[k0 a0] m IH]; cbn [increases In]; [tauto|].
  intros U Own Hin Oa D Pa Others. inversion U as [|x xs Hx U']; subst.
  inversion Own as [|y ys Ha0 Own']; subst. cbn in Ha0.
  destruct Hin as [H|H].
  - inversion H; subst k0 a0. rewrite Oa.
    destruct (increases m) as [ts threw].
    destruct (Z.ltb_spec 0 (Number_sub (post a) (pre a))); [|lia].
    cbn. fold (transferOf idx o a). now rewrite Pa.
  - assert (N : k0 <> idx).
    { intros ->. apply Hx. apply in_map_iff. now exists (idx, a). }
    assert (R : find P (fst (increases m)) = Some (transferOf idx o a)).
    { apply IH; auto. }
    destruct (owner a0) as [o0|] eqn:O0; [|contradiction].
    destruct (increases m) as [ts threw]. cbn [fst] in R.
    destruct (0 <? Number_sub (post a0) (pre a0)); [|exact R].
    cbn. fold (transferOf k0 o0 a0).
    rewrite (Others k0 o0 a0 (or_introl eq_refl) O0 N). exact R.
Qed.

End AccountMaps.

(* ================================================================== *)
(** ** The transfer to the payment wallet *)
(* ================================================================== *)

Lemma balanceAt_safe k bs :
  safeAmounts bs -> 0 <= balanceAt k bs < 2 ^ 53.
Proof.
  unfold safeAmounts, balanceAt. intros S.
  destruct (find _ bs) as [b|] eqn:F; [|lia].
  apply find_some in F. rewrite Forall_forall in S. now apply S.
Qed.

Lemma find_account k bs b :
  find (fun b => accountIndex b =? k) bs = Some b ->
  In b bs /\ accountIndex b = k.
Proof.
  intros F. apply find_some in F. destruct F as [H E]. split; [exact H|].
  now apply Z.eqb_eq.
Qed.

Section Recipient.

Variable this : PaymentController.
Variables pres posts : list TokenBalance.
Variable idx : Z.

Hypothesis distinct_pre : distinctAccounts pres.
Hypothesis distinct_post : distinctAccounts posts.
Hypothesis safe_pre : safeAmounts pres.
Hypothesis safe_post : safeAmounts posts.
Hypothesis owned_pre : ownedAccounts pres.
Hypothesis owned_post : ownedAccounts posts.
Hypothesis recipient :
  forall b, In b (pres ++ posts) ->
            (isRecipientBalance this b = true <-> accountIndex b = idx).
Hypothesis received : 0 < balanceAt idx posts - balanceAt idx pres.

(** An entry of the account map takes owner and mint from a listed
    balance of its account index, and its amounts are the listed
    ones. *)
Lemma entry_origin k a :
  Map_get k (buildAccountMap pres posts) = Some a ->
  (exists b, In b (pres ++ posts) /\ accountIndex b = k
             /\ owner a = tb_owner b /\ mint a = tb_mint b)
  /\ pre a = balanceAt k pres
  /\ post a = balanceAt k posts.
Proof using distinct_pre distinct_post safe_pre safe_post.
  rewrite (buildAccountMap_get k pres posts distinct_pre distinct_post).
  assert (Sp : forall b, In b pres ->
                 Number_round (uiTokenAmount_amount b)
                 = uiTokenAmount_amount b).
  { intros b Hb. apply Number_round_exact.
    unfold safeAmounts in safe_pre. rewrite Forall_forall in safe_pre.
    now apply safe_pre. }
  assert (Sq : forall b, In b posts ->
                 Number_round (uiTokenAmount_amount b)
                 = uiTokenAmount_amount b).
  { intros b Hb. apply Number_round_exact.
    unfold safeAmounts in safe_post. rewrite Forall_forall in safe_post.
    now apply safe_post. }
  unfold balanceAt.
  destruct (find _ posts) as [q|] eqn:Fq;
    destruct (find _ pres) as [p0|] eqn:Fp; cbn; intros H;
    inversion H; try subst a; clear H; cbn;
    try (apply find_account in Fq; destruct Fq as [Iq Eq]);
    try (apply find_account in Fp; destruct Fp as [Ip Ep]).
  - split; [exists p0; repeat split; auto; apply in_or_app; now left|].
    split; auto.
  - split; [exists q; repeat split; auto; apply in_or_app; now right|].
    split; auto.
  - split; [exists p0; repeat split; auto; apply in_or_app; now left|].
    split; auto.
Qed.

Lemma isPaymentTransfer_origin k o a b :
  owner a = Some o -> owner a = tb_owner b -> mint a = tb_mint b ->
  isPaymentTransfer this (transferOf k o a) = isRecipientBalance this b.
Proof.
  intros Oa O Mi. unfold isPaymentTransfer, isRecipientBalance. cbn.
  now rewrite <- O, Oa, Mi.
Qed.

(** With one token account of the payment wallet in the metadata, and
    an owner on every balance, the transfer that [verifyOnChainTransfer]
    selects is the rise of that account, and the loop over the map does
    not throw. *)
Lemma recipient_transfer :
  exists t,
    find (isPaymentTransfer this)
      (fst (increases (buildAccountMap pres posts)))
    = Some t
    /\ snd (increases (buildAccountMap pres posts)) = false
    /\ t_amount t = balanceAt idx posts - balanceAt idx pres.
Proof.
  pose proof (balanceAt_safe idx pres safe_pre) as Bp.
  pose proof (balanceAt_safe idx posts safe_post) as Bq.
  pose proof (buildAccountMap_owned pres posts owned_pre owned_post) as Own.
  assert (exists a, Map_get idx (buildAccountMap pres posts) = Some a)
    as (a & Ga).
  { rewrite (buildAccountMap_get idx pres posts distinct_pre distinct_post).
    unfold balanceAt in received, Bp.
    destruct (find _ posts) as [q|]; [eauto|].
    destruct (find _ pres); cbn; [eauto | lia]. }
  destruct (entry_origin idx a Ga) as ((b & Ib & Eb & Ob & Mb) & Pa & Qa).
  assert (exists o, owner a = Some o) as (o & Oa).
  { destruct (owner a) as [o|] eqn:E; [eauto|].
    exfalso. exact (Map_get_owned _ _ _ Own Ga E). }
  assert (D : Number_sub (post a) (pre a)
              = balanceAt idx posts - balanceAt idx pres).
  { unfold Number_sub. rewrite Pa, Qa. apply Number_round_exact. lia. }
  exists (transferOf idx o a).
  split; [|split; [now apply increases_owned | exact D]].
  apply find_increases.
  - apply buildAccountMap_keys.
  - exact Own.
  - now apply Map_get_In.
  - exact Oa.
  - rewrite D. exact received.
  - rewrite (isPaymentTransfer_origin idx o a b Oa Ob Mb).
    now apply recipient.
  - intros k o' a' Hin Oa' N.
    pose proof (Map_In_get k a' _ (buildAccountMap_keys pres posts) Hin)
      as Ga'.
    destruct (entry_origin k a' Ga') as ((b' & Ib' & Eb' & Ob' & Mb') & _).
    rewrite (isPaymentTransfer_origin k o' a' b' Oa' Ob' Mb').
    destruct (isRecipientBalance this b') eqn:R; [|reflexivity].
    exfalso. apply N. rewrite <- Eb'. now apply recipient.
Qed.

Lemma recipient_transfer_parsed txd m :
  meta txd = Some m ->
  preTokenBalances m = Some pres ->
  postTokenBalances m = Some posts ->
  exists t,
    find (isPaymentTransfer this) (parseTokenTransfers this txd) = Some t
    /\ t_amount t = balanceAt idx posts - balanceAt idx pres.
Proof.
  intros Hm Hpre Hpost. destruct recipient_transfer as (t & F & NoThrow & A).
  exists t. split; [|exact A].
  unfold parseTokenTransfers. rewrite Hm, Hpost, Hpre.
  destruct (increases (buildAccountMap pres posts)) as [ts threw].
  cbn [fst snd] in F, NoThrow. subst threw.
  destruct ts; [discriminate F | exact F].
Qed.

End Recipient.

(* ================================================================== *)
(** ** The confirmed amount *)
(* ================================================================== *)

(** C4, as stated, fails: the transaction is valid and the finalized
    metadata shows 100000 (the minimum) arriving at a token account of
    the payment wallet for the expected mint (account 3); another
    account of the wallet (account 2), listed before it, received 50000.
    [verifyOnChainTransfer] selects the first and rejects the payment;
    no record is written. *)
Lemma C4_counterexample_two_recipient_accounts :
  validateTransactionInstructions controller txPay
  = Valid 100000 (Some senderAccount)
  /\ In (mkTokenBalance 3 (cfg_tokenMint controller)
           (Some (paymentWallet controller)) 100000) twoAccountsAfter
  /\ balanceAt 3 twoAccountsAfter - balanceAt 3 twoAccountsBefore = 100000
  /\ requiredAmount controller = 100000
  /\ run (verifyPayment controller worldTwoAccounts "blob"
            "/api/mu-checker/analyze" None) []
     = (Normal (failureResult
          "Insufficient amount transferred. Required: 100000, Got: 50000"),
        mkState []
          [DbFindOne (toString_base64 SIG_A);
           RpcSimulateTransaction txPay;
           RpcSendRawTransaction [];
           RpcConfirmTransaction (bs58_encode SIG_A);
           RpcGetTransaction (bs58_encode SIG_A)]).
Proof.
  repeat split; try (vm_compute; reflexivity).
  vm_compute. auto.
Qed.

(** C4, amended.  Take a call that gets to step 8: the transaction
    decodes and is signed, step 3 lets it through, the validator and the
    simulation accept it, the node takes the submission and confirms the
    signature it returned, the finalized transaction is found, and the
    write goes through.  If its balance metadata lists every account
    index once, each entry with its owner and an amount below 2^53, and
    exactly one of the listed accounts (index [idx]) belongs to the
    payment wallet for the expected mint, and the balance of that
    account rose by [delta = post - pre] with [delta > 0] and
    [delta >= requiredAmount],
    then [verifyPayment] returns [success = true] with a confirmed
    record for the returned signature, whose amount is [delta], and the
    record is in the collection. *)
Theorem C4_confirmed_amount_is_delta
    (this : PaymentController) (w : World)
    (serializedTransaction endpoint : string) (userId : option string)
    (docs : list Payment) (tx : Transaction) (sig : Buffer)
    (declared : Z) (sender : option string) (txSignature : string)
    (txd : TransactionResponse) (m : TransactionMeta)
    (pres posts : list TokenBalance) (idx : Z) :
  Transaction_from w (Buffer_from_base64 w serializedTransaction)
  = Normal tx ->
  firstSignature tx = Some sig ->
  findOne_error w = None ->
  blocks (lookup (toString_base64 sig) docs) = false ->
  validateTransactionInstructions this tx = Valid declared sender ->
  simulationOf w tx = SimValid ->
  sendRawTransaction_rpc w (Buffer_from_base64 w serializedTransaction)
  = Normal txSignature ->
  confirmationOf w txSignature = ConfirmSuccess ->
  getTransaction_rpc w txSignature = Normal (Some txd) ->
  findOneAndUpdate_error w = None ->
  meta txd = Some m ->
  preTokenBalances m = Some pres ->
  postTokenBalances m = Some posts ->
  distinctAccounts pres ->
  distinctAccounts posts ->
  safeAmounts pres ->
  safeAmounts posts ->
  ownedAccounts pres ->
  ownedAccounts posts ->
  (forall b, In b (pres ++ posts) ->
             (isRecipientBalance this b = true <-> accountIndex b = idx)) ->
  let delta := balanceAt idx posts - balanceAt idx pres in
  0 < delta ->
  requiredAmount this <= delta ->
  let out :=
    run (verifyPayment this w serializedTransaction endpoint userId) docs in
  exists p,
    fst out = Normal (successResult p "Payment verified and confirmed")
    /\ status p = confirmed
    /\ transactionSignature p = txSignature
    /\ amount p = delta
    /\ In p (collection (snd out)).
Proof.
  intros D S Fe B V Sim Sent C G W Hm Hpre Hpost U1 U2 S1 S2 O1 O2 R delta
         Pos Min out.
  destruct (recipient_transfer_parsed this pres posts idx U1 U2 S1 S2 O1 O2
              R Pos txd m Hm Hpre Hpost) as (t & F & A).
  fold delta in A.
  assert (Min' : requiredAmount this <= t_amount t) by now rewrite A.
  subst out.
  rewrite (reached_settlement_sent this w serializedTransaction endpoint
             userId docs tx sig D S Fe B _ _ V Sim txSignature Sent).
  rewrite (settle_confirmed this w endpoint userId declared sender
             txSignature _ txd t C G F Min' W).
  eexists. split; [reflexivity|]. cbn [snd caught collection].
  split; [apply upsert_status|]. split; [apply upsert_signature|].
  split; [now rewrite upsert_amount|].
  apply upsert_In.
Qed.

Lemma C4_witness_single_recipient_account :
  exists p,
    fst (run (verifyPayment controller (worldAccepted txPay 100000 1000)
                "blob" "/api/mu-checker/analyze" None) [])
    = Normal (successResult p "Payment verified and confirmed")
    /\ status p = confirmed
    /\ amount p = 100000.
Proof.
  assert (V : validateTransactionInstructions controller txPay
              = Valid 100000 (Some senderAccount))
    by (vm_compute; reflexivity).
  assert (U1 : distinctAccounts balancesBefore).
  { unfold distinctAccounts. cbn.
    repeat constructor; cbn; intuition discriminate. }
  assert (U2 : distinctAccounts (balancesAfter 100000)).
  { unfold distinctAccounts. cbn.
    repeat constructor; cbn; intuition discriminate. }
  assert (S1 : safeAmounts balancesBefore).
  { unfold safeAmounts. repeat constructor; cbn; lia. }
  assert (S2 : safeAmounts (balancesAfter 100000)).
  { unfold safeAmounts. repeat constructor; cbn; lia. }
  assert (O1 : ownedAccounts balancesBefore).
  { unfold ownedAccounts. repeat constructor; discriminate. }
  assert (O2 : ownedAccounts (balancesAfter 100000)).
  { unfold ownedAccounts. repeat constructor; discriminate. }
  assert (R : forall b,
             In b (balancesBefore ++ balancesAfter 100000) ->
             (isRecipientBalance controller b = true
              <-> accountIndex b = 2)).
  { intros b [H|[H|[H|[H|[]]]]]; subst b; vm_compute;
      split; intros E; first [reflexivity | discriminate E]. }
  assert (Pos : 0 < balanceAt 2 (balancesAfter 100000)
                    - balanceAt 2 balancesBefore)
    by (vm_compute; reflexivity).
  assert (Min : requiredAmount controller
                <= balanceAt 2 (balancesAfter 100000)
                   - balanceAt 2 balancesBefore)
    by (vm_compute; discriminate).
  destruct (C4_confirmed_amount_is_delta controller
              (worldAccepted txPay 100000 1000) "blob"
              "/api/mu-checker/analyze" None [] txPay SIG_A 100000
              (Some senderAccount) (bs58_encode SIG_A) finalizedPayment
              _ balancesBefore (balancesAfter 100000) 2
              eq_refl eq_refl eq_refl eq_refl V eq_refl eq_refl eq_refl
              eq_refl eq_refl eq_refl eq_refl eq_refl U1 U2 S1 S2 O1 O2 R
              Pos Min)
    as (p & Res & St & _ & Am & _).
  exists p. repeat split; assumption.
Defined.

(* ================================================================== *)
(** ** Step 3 and the records of earlier calls *)
(* ================================================================== *)

Lemma keeps_bind_returns {A B} (I : list Payment -> Prop)
    (Q : A -> Prop) (m : M A) (k : A -> M B) :
  keeps I m -> returns Q m -> (forall a, Q a -> keeps I (k a)) ->
  keeps I (bind m k).
Proof.
  intros Hm Hq Hk st H. unfold bind. specialize (Hm st H).
  destruct (m st) as [[a | e] st1] eqn:E; cbn in *.
  - apply Hk; [|exact Hm]. exact (Hq st a st1 E).
  - exact Hm.
Qed.

Lemma upsert_lookup_other date pd k docs :
  pd_transactionSignature pd <> k ->
  lookup k (fst (upsert date pd docs)) = lookup k docs.
Proof.
  intros N. unfold lookup. induction docs as [|d rest IH]; cbn.
  - destruct (String.eqb_spec (pd_transactionSignature pd) k);
      [contradiction | reflexivity].
  - destruct (String.eqb_spec (transactionSignature d)
                (pd_transactionSignature pd)) as [E|E]; cbn.
    + destruct (String.eqb_spec (pd_transactionSignature pd) k);
        [contradiction|].
      destruct (String.eqb_spec (transactionSignature d) k);
        [congruence | reflexivity].
    + destruct (upsert date pd rest) as [rest' p]. cbn in *.
      now rewrite IH.
Qed.

Lemma submitTransaction_base58 (w : World) tx buf :
  returnsBase58 w ->
  returns (fun r => exists sig, r = bs58_encode sig)
    (submitTransaction w tx buf).
Proof.
  intros R st r st' E. unfold submitTransaction, try_catch in E.
  rewrite (bind_normal _ _ _ _ _ (emit_run _ st)) in E. unfold lift in E.
  destruct (sendRawTransaction_rpc w buf) as [r0|e] eqn:S.
  - inversion E; subst. exact (R buf r S).
  - destruct (alreadyProcessed (message e)); [|discriminate E].
    destruct (firstSignature tx) as [sig|]; [|discriminate E].
    inversion E. now exists sig.
Qed.

(** A call never changes what step 3 finds for a signature of 64 bytes:
    the records it writes stand under base58 keys, the lookup asks for a
    base64 key. *)
Lemma lookup_never_sees_written_records
    (this : PaymentController) (w : World)
    (serializedTransaction endpoint : string) (userId : option string)
    (sig : Buffer) (st : State) :
  returnsBase58 w ->
  (List.length sig mod 3 <> 0)%nat ->
  lookup (toString_base64 sig)
    (collection
       (snd (verifyPayment this w serializedTransaction endpoint userId st)))
  = lookup (toString_base64 sig) (collection st).
Proof.
  intros R L.
  set (k := toString_base64 sig).
  set (I := fun docs => lookup k docs = lookup k (collection st)).
  assert (K : keeps I
                (verifyPayment this w serializedTransaction endpoint
                   userId)).
  2: { now apply K. }
  assert (Wr : forall pd, (exists x, pd_transactionSignature pd
                                     = bs58_encode x) ->
                          keeps I (createPaymentRecord w pd)).
  { intros pd (x & Ex) s Hs. destruct (findOneAndUpdate_error w) as [e|] eqn:F.
    - now rewrite (createPaymentRecord_failed w pd s e F).
    - rewrite (createPaymentRecord_written w pd s F). cbn. unfold I.
      rewrite upsert_lookup_other; [exact Hs|].
      rewrite Ex. intros E. symmetry in E.
      exact (lookup_key_not_base58 sig x L E). }
  assert (Rd : forall A (m : M A),
             (forall s, collection (snd (m s)) = collection s) ->
             keeps I m).
  { intros A m H s Hs. now rewrite H. }
  assert (Pr : forall tx buf,
             keeps I (processPayment this w tx buf endpoint userId)).
  { intros tx buf. unfold processPayment.
    destruct (validateTransactionInstructions this tx) as [e|a sd];
      [apply keeps_throw|].
    apply keeps_bind.
    { apply Rd. intros s. now rewrite simulateTransaction_run. }
    intros [e|]; [apply keeps_throw|].
    apply keeps_bind_returns
      with (Q := fun r => exists x, r = bs58_encode x).
    { apply Rd. intros s. unfold submitTransaction, try_catch.
      rewrite (bind_normal _ _ _ _ _ (emit_run _ s)). unfold lift.
      destruct (sendRawTransaction_rpc w buf) as [r|e]; [reflexivity|].
      destruct (alreadyProcessed (message e)); [|reflexivity].
      destruct (firstSignature tx); reflexivity. }
    { now apply submitTransaction_base58. }
    intros txSignature B58. unfold settlePayment. apply keeps_bind.
    { apply Rd. intros s. now rewrite confirmTransaction_run. }
    intros [e|].
    - apply keeps_bind; [now apply Wr | intros _; apply keeps_throw].
    - apply keeps_bind.
      { apply Rd. intros s.
        destruct (verifyOnChainTransfer_total this w txSignature sd a s)
          as (r & ->).
        reflexivity. }
      intros [e|oa bt sl]; [apply keeps_throw|].
      apply keeps_bind; [now apply Wr | intros p; apply keeps_ret]. }
  unfold verifyPayment. apply keeps_try; [|intros e; apply keeps_ret].
  unfold verifyPaymentBody. apply keeps_bind; [apply keeps_lift|].
  intros tx. destruct (firstSignature tx) as [s0|]; [|apply keeps_throw].
  apply keeps_bind.
  { apply Rd. intros s. unfold Payment_findOne.
    rewrite (bind_normal _ _ _ _ _ (emit_run _ s)).
    destruct (findOne_error w); reflexivity. }
  intros [p|]; [|apply Pr].
  destruct (status p); [apply Pr | apply keeps_ret | apply keeps_throw].
Qed.

(** X2.  When step 3 does find a confirmed record under its key, the
    call returns it at once: nothing is written, simulated or
    submitted. *)
Theorem replay_of_found_record
    (this : PaymentController) (w : World)
    (serializedTransaction endpoint : string) (userId : option string)
    (docs : list Payment) (tx : Transaction) (sig : Buffer) (p : Payment) :
  Transaction_from w (Buffer_from_base64 w serializedTransaction)
  = Normal tx ->
  firstSignature tx = Some sig ->
  findOne_error w = None ->
  lookup (toString_base64 sig) docs = Some p ->
  status p = confirmed ->
  run (verifyPayment this w serializedTransaction endpoint userId) docs
  = (Normal (successResult p "Payment already confirmed"),
     mkState docs [DbFindOne (toString_base64 sig)]).
Proof.
  intros D S F L C. unfold run. rewrite verifyPayment_catch.
  now rewrite (body_confirmed this w _ endpoint userId tx sig D S
                 (mkState docs []) p F L C).
Qed.

(** X3.  And when it finds a failed record there, the call is rejected
    at once. *)
Theorem rejection_of_found_failure
    (this : PaymentController) (w : World)
    (serializedTransaction endpoint : string) (userId : option string)
    (docs : list Payment) (tx : Transaction) (sig : Buffer) (p : Payment) :
  Transaction_from w (Buffer_from_base64 w serializedTransaction)
  = Normal tx ->
  firstSignature tx = Some sig ->
  findOne_error w = None ->
  lookup (toString_base64 sig) docs = Some p ->
  status p = failed ->
  run (verifyPayment this w serializedTransaction endpoint userId) docs
  = (Normal (failureResult "Transaction previously failed verification"),
     mkState docs [DbFindOne (toString_base64 sig)]).
Proof.
  intros D S F L C. unfold run. rewrite verifyPayment_catch.
  now rewrite (body_previously_failed this w _ endpoint userId tx sig D S
                 (mkState docs []) p F L C).
Qed.

(** X4.  Whatever an earlier call did with a transaction signed with 64
    bytes, a later call with the same transaction is processed afresh:
    step 3 lets it through and it is simulated again. *)
Theorem later_call_is_processed_again
    (this : PaymentController) (earlier later : World)
    (serializedTransaction endpoint : string) (userId : option string)
    (docs : list Payment) (tx : Transaction) (sig : Buffer)
    (declared : Z) (sender : option string) :
  Transaction_from later (Buffer_from_base64 later serializedTransaction)
  = Normal tx ->
  firstSignature tx = Some sig ->
  List.length sig = 64%nat ->
  returnsBase58 earlier ->
  findOne_error later = None ->
  blocks (lookup (toString_base64 sig) docs) = false ->
  validateTransactionInstructions this tx = Valid declared sender ->
  let left :=
    collection
      (snd (run (verifyPayment this earlier serializedTransaction endpoint
                   userId) docs)) in
  blocks (lookup (toString_base64 sig) left) = false
  /\ In (RpcSimulateTransaction tx)
       (log (snd (run (verifyPayment this later serializedTransaction
                         endpoint userId) left))).
Proof.
  intros D S L R F B V left.
  assert (B' : blocks (lookup (toString_base64 sig) left) = false).
  { subst left. unfold run.
    rewrite (lookup_never_sees_written_records this earlier
               serializedTransaction endpoint userId sig _ R);
      [exact B | rewrite L; cbn; discriminate]. }
  split; [exact B'|].
  exact (reached_simulates this later serializedTransaction endpoint userId
           left tx sig D S F B' _ _ V).
Qed.

Lemma Normal_injective {A} (x y : A) : Normal x = Normal y -> x = y.
Proof. intros H. now injection H. Qed.

Lemma worldUnconfirmed_base58 tx date :
  returnsBase58 (worldUnconfirmed tx date).
Proof.
  intros buf r E. exists SIG_A. symmetry. exact (Normal_injective _ _ E).
Qed.

Lemma later_call_witness_after_failure :
  In (RpcSimulateTransaction txPay)
    (log (snd (secondCall (worldUnconfirmed txPay 1000)
                 (worldUnconfirmed txPay 2000)))).
Proof.
  assert (V : validateTransactionInstructions controller txPay
              = Valid 100000 (Some senderAccount))
    by (vm_compute; reflexivity).
  exact (proj2
    (later_call_is_processed_again controller
       (worldUnconfirmed txPay 1000) (worldUnconfirmed txPay 2000)
       "blob" "/api/mu-checker/analyze" None [] txPay SIG_A 100000
       (Some senderAccount) eq_refl eq_refl eq_refl
       (worldUnconfirmed_base58 txPay 1000) eq_refl eq_refl V)).
Defined.

Lemma replay_witness_found_record :
  run (verifyPayment controller (worldAccepted txPay 100000 1000) "blob"
         "/api/mu-checker/analyze" None)
    [earlierRecord (toString_base64 SIG_A) confirmed]
  = (Normal (successResult
               (earlierRecord (toString_base64 SIG_A) confirmed)
               "Payment already confirmed"),
     mkState [earlierRecord (toString_base64 SIG_A) confirmed]
       [DbFindOne (toString_base64 SIG_A)]).
Proof.
  assert (L : lookup (toString_base64 SIG_A)
                [earlierRecord (toString_base64 SIG_A) confirmed]
              = Some (earlierRecord (toString_base64 SIG_A) confirmed))
    by (vm_compute; reflexivity).
  exact (replay_of_found_record controller
           (worldAccepted txPay 100000 1000) "blob"
           "/api/mu-checker/analyze" None
           [earlierRecord (toString_base64 SIG_A) confirmed] txPay SIG_A
           (earlierRecord (toString_base64 SIG_A) confirmed)
           eq_refl eq_refl eq_refl L eq_refl).
Defined.

Lemma rejection_witness_found_failure :
  run (verifyPayment controller (worldAccepted txPay 100000 1000) "blob"
         "/api/mu-checker/analyze" None)
    [earlierRecord (toString_base64 SIG_A) failed]
  = (Normal (failureResult "Transaction previously failed verification"),
     mkState [earlierRecord (toString_base64 SIG_A) failed]
       [DbFindOne (toString_base64 SIG_A)]).
Proof.
  assert (L : lookup (toString_base64 SIG_A)
                [earlierRecord (toString_base64 SIG_A) failed]
              = Some (earlierRecord (toString_base64 SIG_A) failed))
    by (vm_compute; reflexivity).
  exact (rejection_of_found_failure controller
           (worldAccepted txPay 100000 1000) "blob"
           "/api/mu-checker/analyze" None
           [earlierRecord (toString_base64 SIG_A) failed] txPay SIG_A
           (earlierRecord (toString_base64 SIG_A) failed)
           eq_refl eq_refl eq_refl L eq_refl).
Defined.

(* ================================================================== *)
(** ** The pipeline as a function of the answers it gets *)
(* ================================================================== *)

Lemma verifyOnChainTransfer_run this w sig sender amt st :
  verifyOnChainTransfer this w sig sender amt st
  = (Normal (transferCheck this (getTransaction_rpc w sig)),
     logged st [RpcGetTransaction sig]).
Proof.
  unfold transferCheck, insufficientTransfer. run_M.
  destruct (getTransaction_rpc w sig) as [[txd|]|e]; try reflexivity.
  destruct (find _ _) as [t|]; try reflexivity.
  destruct (_ <? _); reflexivity.
Qed.

Lemma submitTransaction_run w tx buf st :
  submitTransaction w tx buf st
  = (submissionOf w tx buf, logged st [RpcSendRawTransaction buf]).
Proof.
  unfold submissionOf. run_M.
  destruct (sendRawTransaction_rpc w buf) as [r|e]; [reflexivity|].
  destruct (alreadyProcessed (message e)); [|reflexivity].
  destruct (firstSignature tx); reflexivity.
Qed.

Lemma createPaymentRecord_run w pd st :
  createPaymentRecord w pd st
  = match findOneAndUpdate_error w with
    | Some e => (Throw e, logged st [DbFindOneAndUpdate pd])
    | None =>
        (Normal (snd (upsert (now w) pd (collection st))),
         mkState (fst (upsert (now w) pd (collection st)))
           (log st ++ [DbFindOneAndUpdate pd]))
    end.
Proof.
  destruct (findOneAndUpdate_error w) as [e|] eqn:F.
  - now apply createPaymentRecord_failed.
  - now apply createPaymentRecord_written.
Qed.

(** Steps 7 to 9, written out. *)
Lemma settlePayment_run this w endpoint userId declared sender txSignature
    st :
  settlePayment this w endpoint userId declared sender txSignature st
  = match confirmationOf w txSignature with
    | ConfirmFailure reason =>
        let pd := failedPaymentData this userId txSignature declared sender
                    endpoint in
        match findOneAndUpdate_error w with
        | Some e =>
            (Throw e,
             logged st [RpcConfirmTransaction txSignature;
                        DbFindOneAndUpdate pd])
        | None =>
            (Throw (mkError reason),
             mkState (fst (upsert (now w) pd (collection st)))
               (log st ++ [RpcConfirmTransaction txSignature;
                           DbFindOneAndUpdate pd]))
        end
    | ConfirmSuccess =>
        match transferCheck this (getTransaction_rpc w txSignature) with
        | TransferFailure reason =>
            (Throw (mkError reason),
             logged st [RpcConfirmTransaction txSignature;
                        RpcGetTransaction txSignature])
        | TransferSuccess onChain blockTime slot =>
            let pd := confirmedPaymentData this w userId txSignature onChain
                        sender endpoint blockTime slot in
            match findOneAndUpdate_error w with
            | Some e =>
                (Throw e,
                 logged st [RpcConfirmTransaction txSignature;
                            RpcGetTransaction txSignature;
                            DbFindOneAndUpdate pd])
            | None =>
                (Normal (successResult
                           (snd (upsert (now w) pd (collection st)))
                           "Payment verified and confirmed"),
                 mkState (fst (upsert (now w) pd (collection st)))
                   (log st ++ [RpcConfirmTransaction txSignature;
                               RpcGetTransaction txSignature;
                               DbFindOneAndUpdate pd]))
            end
        end
    end.
Proof.
  destruct (confirmationOf w txSignature) as [reason|] eqn:C.
  - exact (settle_unconfirmed this w endpoint userId declared sender
             txSignature st reason C).
  - unfold settlePayment.
    rewrite (bind_normal _ _ _ _ _ (confirmTransaction_run w _ st)), C.
    rewrite (bind_normal _ _ _ _ _
               (verifyOnChainTransfer_run this w txSignature sender
                  declared _)).
    destruct (transferCheck this (getTransaction_rpc w txSignature))
      as [reason|onChain blockTime slot].
    + unfold throw. now rewrite logged_logged.
    + cbv zeta. unfold bind. rewrite createPaymentRecord_run.
      destruct (findOneAndUpdate_error w) as [e|].
      * now rewrite !logged_logged.
      * unfold ret, logged. cbn. now rewrite <- !app_assoc.
Qed.

(** Steps 4 to 6, written out. *)
Lemma processPayment_run this w tx buf endpoint userId st :
  processPayment this w tx buf endpoint userId st
  = match validateTransactionInstructions this tx with
    | Invalid reason => (Throw (mkError reason), st)
    | Valid declared sender =>
        match simulationOf w tx with
        | SimInvalid reason =>
            (Throw (mkError reason), logged st [RpcSimulateTransaction tx])
        | SimValid =>
            match submissionOf w tx buf with
            | Throw e =>
                (Throw e,
                 logged st [RpcSimulateTransaction tx;
                            RpcSendRawTransaction buf])
            | Normal txSignature =>
                settlePayment this w endpoint userId declared sender
                  txSignature
                  (logged st [RpcSimulateTransaction tx;
                              RpcSendRawTransaction buf])
            end
        end
    end.
Proof.
  unfold processPayment.
  destruct (validateTransactionInstructions this tx) as [reason|d sd];
    [reflexivity|].
  rewrite (bind_normal _ _ _ _ _ (simulateTransaction_run w tx st)).
  destruct (simulationOf w tx) as [reason|]; [reflexivity|].
  unfold bind at 1. rewrite submitTransaction_run, logged_logged.
  destruct (submissionOf w tx buf); reflexivity.
Qed.

(** Steps 1 to 3, written out. *)
Lemma verifyPayment_run this w serializedTransaction endpoint userId docs :
  run (verifyPayment this w serializedTransaction endpoint userId) docs
  = caught
      match Transaction_from w (Buffer_from_base64 w serializedTransaction)
      with
      | Throw e => (Throw e, mkState docs [])
      | Normal tx =>
          match firstSignature tx with
          | None =>
              (Throw (mkError "Invalid transaction signature"),
               mkState docs [])
          | Some sig =>
              let st1 := mkState docs [DbFindOne (toString_base64 sig)] in
              match findOne_error w with
              | Some e => (Throw e, st1)
              | None =>
                  match lookup (toString_base64 sig) docs with
                  | Some p =>
                      match status p with
                      | confirmed =>
                          (Normal (successResult p
                                     "Payment already confirmed"),
                           st1)
                      | failed =>
                          (Throw (mkError
                             "Transaction previously failed verification"),
                           st1)
                      | pending =>
                          processPayment this w tx
                            (Buffer_from_base64 w serializedTransaction)
                            endpoint userId st1
                      end
                  | None =>
                      processPayment this w tx
                        (Buffer_from_base64 w serializedTransaction)
                        endpoint userId st1
                  end
              end
          end
      end.
Proof.
  unfold run. rewrite verifyPayment_catch. f_equal.
  destruct (Transaction_from w (Buffer_from_base64 w serializedTransaction))
    as [tx|e] eqn:D.
  - destruct (firstSignature tx) as [sig|] eqn:S.
    + cbv zeta. destruct (findOne_error w) as [e|] eqn:F.
      * exact (body_lookup_failed this w _ endpoint userId tx sig D S
                 (mkState docs []) e F).
      * destruct (lookup (toString_base64 sig) docs) as [p|] eqn:L.
        -- destruct (status p) eqn:P.
           ++ apply (body_processing this w _ endpoint userId tx sig D S
                       (mkState docs []) F).
              cbn [collection]. rewrite L. cbn. now rewrite P.
           ++ exact (body_confirmed this w _ endpoint userId tx sig D S
                       (mkState docs []) p F L P).
           ++ exact (body_previously_failed this w _ endpoint userId tx sig
                       D S (mkState docs []) p F L P).
        -- apply (body_processing this w _ endpoint userId tx sig D S
                    (mkState docs []) F).
           cbn [collection]. now rewrite L.
    + exact (body_unsigned this w _ endpoint userId (mkState docs []) tx
               D S).
  - exact (body_undecodable this w _ endpoint userId (mkState docs []) e D).
Qed.

(* ================================================================== *)
(** ** The order of the outside calls *)
(* ================================================================== *)

Lemma settlePayment_order this w endpoint userId declared sender txSignature
    key tx buf docs :
  pipelineOrder
    (log (snd (settlePayment this w endpoint userId declared sender
                 txSignature
                 (logged (mkState docs [DbFindOne key])
                    [RpcSimulateTransaction tx;
                     RpcSendRawTransaction buf]))))
  = true.
Proof.
  rewrite settlePayment_run.
  destruct (confirmationOf w txSignature) as [reason|].
  - cbv zeta. destruct (findOneAndUpdate_error w); cbn;
      now rewrite String.eqb_refl.
  - destruct (transferCheck this (getTransaction_rpc w txSignature))
      as [reason|onChain blockTime slot].
    + cbn. now rewrite String.eqb_refl.
    + cbv zeta. destruct (findOneAndUpdate_error w); cbn;
        now rewrite !String.eqb_refl.
Qed.

Lemma processPayment_order this w tx buf endpoint userId key docs :
  pipelineOrder
    (log (snd (processPayment this w tx buf endpoint userId
                 (mkState docs [DbFindOne key]))))
  = true.
Proof.
  rewrite processPayment_run.
  destruct (validateTransactionInstructions this tx) as [reason|d sd];
    [reflexivity|].
  destruct (simulationOf w tx) as [reason|]; [reflexivity|].
  destruct (submissionOf w tx buf) as [txSignature|e]; [|reflexivity].
  apply settlePayment_order.
Qed.

(** X5.  Whatever the input, the collection and the answers of the
    database and the node, one call of [verifyPayment] makes its outside
    calls in the order of the pipeline, each at most once: the lookup,
    the simulation, the submission, the confirmation, then the write of
    the failed record, or the fetch of the finalized transaction and the
    write of the confirmed record.  So nothing is submitted that was not
    simulated, nothing is written before the node was asked to confirm,
    and no call writes twice. *)
Theorem verifyPayment_call_order
    (this : PaymentController) (w : World)
    (serializedTransaction endpoint : string) (userId : option string)
    (docs : list Payment) :
  let calls :=
    log (snd (run (verifyPayment this w serializedTransaction endpoint
                     userId) docs)) in
  pipelineOrder calls = true
  /\ (List.length (filter isWrite calls) <= 1)%nat
  /\ (List.length (filter isSubmission calls) <= 1)%nat.
Proof.
  cbv zeta.
  assert (O : pipelineOrder
                (log (snd (run (verifyPayment this w serializedTransaction
                                  endpoint userId) docs))) = true).
  { rewrite verifyPayment_run, caught_state.
    destruct (Transaction_from w _) as [tx|e]; [|reflexivity].
    destruct (firstSignature tx) as [sig|]; [|reflexivity].
    cbv zeta. destruct (findOne_error w) as [e|]; [reflexivity|].
    destruct (lookup _ docs) as [p|]; [|apply processPayment_order].
    destruct (status p); [apply processPayment_order | | ]; reflexivity. }
  split; [exact O|].
  revert O.
  generalize (log (snd (run (verifyPayment this w serializedTransaction
                               endpoint userId) docs))).
  intros calls O.
  repeat (destruct calls as [|[] calls]; cbn in O; try discriminate O;
          try (cbn; lia)).
Qed.

(* ================================================================== *)
(** ** What an accepted payment is *)
(* ================================================================== *)

Lemma upsert_written_fields date pd docs :
  let p := snd (upsert date pd docs) in
  recipientWallet p = pd_recipientWallet pd
  /\ tokenMint p = pd_tokenMint pd
  /\ network p = pd_network pd
  /\ endpoint p = pd_endpoint pd
  /\ userId p = pd_userId pd.
Proof.
  cbv zeta. induction docs as [|d rest IH]; cbn; [auto|].
  destruct (String.eqb (transactionSignature d)
              (pd_transactionSignature pd)); cbn; [auto|].
  destruct (upsert date pd rest). exact IH.
Qed.

Lemma transferCheck_success this answer onChain blockTime slot :
  transferCheck this answer = TransferSuccess onChain blockTime slot ->
  requiredAmount this <= onChain
  /\ exists txd t,
       answer = Normal (Some txd)
       /\ find (isPaymentTransfer this) (parseTokenTransfers this txd)
          = Some t
       /\ onChain = t_amount t.
Proof.
  unfold transferCheck. destruct answer as [[txd|]|e]; try discriminate.
  destruct (find _ _) as [t|] eqn:F; try discriminate.
  destruct (Z.ltb_spec (t_amount t) (requiredAmount this));
    try discriminate.
  intros E. inversion E; subst. split; [assumption|]. now exists txd, t.
Qed.

Lemma lookup_In key docs p : lookup key docs = Some p -> In p docs.
Proof. unfold lookup. intros H. now apply find_some in H. Qed.

(** The record of a call that accepts. *)
Lemma accepted_record
    (this : PaymentController) (w : World)
    (serializedTransaction endpoint : string) (userId : option string)
    (docs : list Payment) (r : VerifyResult) :
  let out :=
    run (verifyPayment this w serializedTransaction endpoint userId) docs in
  fst out = Normal r ->
  success r = true ->
  exists p,
    payment r = Some p
    /\ status p = confirmed
    /\ ((r_message r = Some "Payment already confirmed"
         /\ In p docs /\ collection (snd out) = docs)
        \/ (r_message r = Some "Payment verified and confirmed"
            /\ In p (collection (snd out))
            /\ In (RpcConfirmTransaction (transactionSignature p))
                 (log (snd out))
            /\ recipientWallet p = paymentWallet this
            /\ tokenMint p = cfg_tokenMint this
            /\ network p = cfg_network this
            /\ requiredAmount this <= amount p)).
Proof.
  cbv zeta. rewrite verifyPayment_run.
  destruct (Transaction_from w _) as [tx|e]; [|intros E; now inversion E].
  destruct (firstSignature tx) as [sig|]; [|intros E; now inversion E].
  cbv zeta.
  destruct (findOne_error w) as [e|]; [intros E; now inversion E|].
  assert (Fresh : forall st1 : State,
             collection st1 = docs ->
             fst (caught (processPayment this w tx
                            (Buffer_from_base64 w serializedTransaction)
                            endpoint userId st1)) = Normal r ->
             success r = true ->
             exists p,
               payment r = Some p /\ status p = confirmed
               /\ ((r_message r = Some "Payment already confirmed"
                    /\ In p docs
                    /\ collection
                         (snd (caught
                                 (processPayment this w tx
                                    (Buffer_from_base64 w
                                       serializedTransaction)
                                    endpoint userId st1))) = docs)
                   \/ (r_message r = Some "Payment verified and confirmed"
                       /\ In p (collection
                                  (snd (caught
                                          (processPayment this w tx
                                             (Buffer_from_base64 w
                                                serializedTransaction)
                                             endpoint userId st1))))
                       /\ In (RpcConfirmTransaction (transactionSignature p))
                            (log (snd (caught
                                         (processPayment this w tx
                                            (Buffer_from_base64 w
                                               serializedTransaction)
                                            endpoint userId st1))))
                       /\ recipientWallet p = paymentWallet this
                       /\ tokenMint p = cfg_tokenMint this
                       /\ network p = cfg_network this
                       /\ requiredAmount this <= amount p))).
  { intros st1 Hdocs. rewrite processPayment_run.
    destruct (validateTransactionInstructions this tx) as [reason|d sd];
      [intros E; now inversion E|].
    destruct (simulationOf w tx) as [reason|];
      [intros E; now inversion E|].
    destruct (submissionOf w tx _) as [txSignature|e];
      [|intros E; now inversion E].
    rewrite settlePayment_run.
    destruct (confirmationOf w txSignature) as [reason|].
    { cbv zeta. destruct (findOneAndUpdate_error w);
        intros E; now inversion E. }
    destruct (transferCheck this (getTransaction_rpc w txSignature))
      as [reason|onChain blockTime slot] eqn:T;
      [intros E; now inversion E|].
    cbv zeta. destruct (findOneAndUpdate_error w) as [e|];
      [intros E; now inversion E|].
    cbn [caught fst snd collection log]. intros E _. inversion E; subst r.
    destruct (transferCheck_success _ _ _ _ _ T) as (Min & _).
    eexists. split; [reflexivity|]. split; [apply upsert_status|].
    right. split; [reflexivity|]. split; [apply upsert_In|].
    split.
    { rewrite upsert_signature. cbn. apply in_or_app. right. cbn. auto. }
    destruct (upsert_written_fields (now w)
                (confirmedPaymentData this w userId txSignature onChain sd
                   endpoint blockTime slot) (collection (logged st1
                     [RpcSimulateTransaction tx;
                      RpcSendRawTransaction
                        (Buffer_from_base64 w serializedTransaction)])))
      as (R & Tm & N & _).
    split; [exact R|]. split; [exact Tm|]. split; [exact N|].
    now rewrite upsert_amount. }
  destruct (lookup _ docs) as [p|] eqn:L; [|now apply Fresh].
  destruct (status p) eqn:P; [now apply Fresh | | intros E; now inversion E].
  cbn. intros E _. inversion E; subst r. exists p.
  split; [reflexivity|]. split; [exact P|]. left.
  split; [reflexivity|]. split; [exact (lookup_In _ _ _ L) | reflexivity].
Qed.

(** X6.  Whenever [verifyPayment] returns [success = true], the result
    carries a record whose status is confirmed.  Either it is a record
    that step 3 found in the collection, and the call changed nothing;
    or it is the record the call has just written, after the node
    confirmed its signature: then it is in the collection, it names the
    configured payment wallet, mint and network, and its amount, the
    amount found on chain, is at least the configured minimum. *)
Theorem accepted_payment_is_confirmed
    (this : PaymentController) (w : World)
    (serializedTransaction endpoint : string) (userId : option string)
    (docs : list Payment) (r : VerifyResult) :
  let out :=
    run (verifyPayment this w serializedTransaction endpoint userId) docs in
  fst out = Normal r ->
  success r = true ->
  exists p,
    payment r = Some p
    /\ status p = confirmed
    /\ ((r_message r = Some "Payment already confirmed"
         /\ In p docs /\ collection (snd out) = docs)
        \/ (r_message r = Some "Payment verified and confirmed"
            /\ In p (collection (snd out))
            /\ In (RpcConfirmTransaction (transactionSignature p))
                 (log (snd out))
            /\ recipientWallet p = paymentWallet this
            /\ tokenMint p = cfg_tokenMint this
            /\ network p = cfg_network this
            /\ requiredAmount this <= amount p)).
Proof.
  exact (accepted_record this w serializedTransaction endpoint userId docs
           r).
Qed.

Lemma accepted_payment_witness :
  exists p,
    payment (successResult (earlierRecord (toString_base64 SIG_A) confirmed)
               "Payment already confirmed") = Some p
    /\ status p = confirmed.
Proof.
  assert (R : fst (run (verifyPayment controller
                          (worldAccepted txPay 100000 1000) "blob"
                          "/api/mu-checker/analyze" None)
                     [earlierRecord (toString_base64 SIG_A) confirmed])
              = Normal (successResult
                          (earlierRecord (toString_base64 SIG_A) confirmed)
                          "Payment already confirmed"))
    by (vm_compute; reflexivity).
  destruct (accepted_payment_is_confirmed controller
              (worldAccepted txPay 100000 1000) "blob"
              "/api/mu-checker/analyze" None
              [earlierRecord (toString_base64 SIG_A) confirmed] _ R eq_refl)
    as (p & Hp & St & _).
  exists p. split; assumption.
Defined.

(* ================================================================== *)
(** ** Where the pipeline stops *)
(* ================================================================== *)

Lemma lookup_upsert date pd docs :
  lookup (pd_transactionSignature pd) (fst (upsert date pd docs))
  = Some (snd (upsert date pd docs)).
Proof.
  unfold lookup. induction docs as [|d rest IH]; cbn.
  - now rewrite String.eqb_refl.
  - destruct (String.eqb (transactionSignature d)
                (pd_transactionSignature pd)) eqn:E; cbn.
    + now rewrite String.eqb_refl.
    + destruct (upsert date pd rest) as [rest' p]. cbn in *.
      now rewrite E.
Qed.

Section Processing.

Variable this : PaymentController.
Variable w : World.
Variables serializedTransaction endpoint : string.
Variable userId : option string.
Variable docs : list Payment.
Variable tx : Transaction.
Variable sig : Buffer.
Variable declared : Z.
Variable sender : option string.

Local Abbreviation blob := (Buffer_from_base64 w serializedTransaction).
Local Abbreviation out :=
  (run (verifyPayment this w serializedTransaction endpoint userId) docs).
Local Abbreviation asked := (DbFindOne (toString_base64 sig)).

Hypothesis decoded : Transaction_from w blob = Normal tx.
Hypothesis signed : firstSignature tx = Some sig.
Hypothesis answered : findOne_error w = None.
Hypothesis free : blocks (lookup (toString_base64 sig) docs) = false.
Hypothesis valid :
  validateTransactionInstructions this tx = Valid declared sender.

Lemma verifyPayment_processing :
  out = caught (processPayment this w tx blob endpoint userId
                  (mkState docs [asked])).
Proof using decoded signed answered free.
  rewrite verifyPayment_run, decoded, signed. cbv zeta. rewrite answered.
  destruct (lookup (toString_base64 sig) docs) as [p|]; [|reflexivity].
  cbn in free. destruct (status p); [reflexivity | discriminate free ..].
Qed.

(** X7.  A transaction that passed the static validation and whose
    simulation reports an error, or throws, is rejected with the reason
    of the simulation.  The call has asked the database and the node
    once each: the transaction is not submitted and the collection is
    as it was. *)
Theorem failed_simulation_stops_the_call (reason : string) :
  simulationOf w tx = SimInvalid reason ->
  out = (Normal (failureResult reason),
         mkState docs [asked; RpcSimulateTransaction tx]).
Proof using decoded signed answered free valid.
  intros S. rewrite verifyPayment_processing, processPayment_run, valid, S.
  reflexivity.
Qed.

(** X8.  When the node refuses the submission with an error whose
    message is empty, or contains none of [already processed], [already
    been processed] and [This transaction has already been processed],
    the call is rejected with [Transaction submission failed: ] and the
    node's message.  The node is not asked to confirm anything and no
    record is written, not even a failed one. *)
Theorem refused_submission_leaves_no_record (e : Error) :
  simulationOf w tx = SimValid ->
  sendRawTransaction_rpc w blob = Throw e ->
  message e = EmptyString
  \/ (includes (message e) "already processed" = false
      /\ includes (message e) "already been processed" = false
      /\ includes (message e) "This transaction has already been processed"
         = false) ->
  out = (Normal (failureResult
                   ("Transaction submission failed: " ++ message e)),
         mkState docs [asked; RpcSimulateTransaction tx;
                       RpcSendRawTransaction blob]).
Proof using decoded signed answered free valid.
  intros S R Other.
  assert (A : alreadyProcessed (message e) = false).
  { unfold alreadyProcessed. destruct Other as [->|(A1 & A2 & A3)].
    - reflexivity.
    - rewrite A1, A2, A3. now destruct (truthy (message e)). }
  rewrite verifyPayment_processing, processPayment_run, valid, S.
  unfold submissionOf. rewrite R, A. reflexivity.
Qed.

Lemma verifyPayment_settling (txSignature : string) :
  simulationOf w tx = SimValid ->
  submissionOf w tx blob = Normal txSignature ->
  out = caught (settlePayment this w endpoint userId declared sender
                  txSignature
                  (mkState docs [asked; RpcSimulateTransaction tx;
                                 RpcSendRawTransaction blob])).
Proof using decoded signed answered free valid.
  intros S R.
  rewrite verifyPayment_processing, processPayment_run, valid, S, R.
  reflexivity.
Qed.

(** X9.  When the node took the transaction and the confirmation then
    reports an error or throws, the call is rejected with the reason of
    the confirmation and a failed record is in the collection under the
    signature the submission returned: it carries the amount and the
    sender that the instruction declared, nothing that was seen on
    chain, since the finalized transaction is never fetched.  The
    records under other signatures are as they were. *)
Theorem unconfirmed_payment_is_recorded_failed
    (txSignature reason : string) :
  simulationOf w tx = SimValid ->
  submissionOf w tx blob = Normal txSignature ->
  confirmationOf w txSignature = ConfirmFailure reason ->
  findOneAndUpdate_error w = None ->
  fst out = Normal (failureResult reason)
  /\ (exists p,
         lookup txSignature (collection (snd out)) = Some p
         /\ status p = failed
         /\ amount p = declared
         /\ senderWallet p = sender
         /\ recipientWallet p = paymentWallet this)
  /\ (forall k, k <> txSignature ->
                lookup k (collection (snd out)) = lookup k docs)
  /\ (forall s, ~ In (RpcGetTransaction s) (log (snd out))).
Proof using decoded signed answered free valid.
  intros S R C W.
  rewrite (verifyPayment_settling txSignature S R), settlePayment_run, C.
  cbv zeta. rewrite W. cbn [caught fst snd collection log message].
  split; [reflexivity|]. split.
  - eexists. split.
    + exact (lookup_upsert (now w)
               (failedPaymentData this userId txSignature declared sender
                  endpoint) docs).
    + split; [apply upsert_status|]. split; [apply upsert_amount|].
      split; [apply upsert_sender|].
      now destruct (upsert_written_fields (now w)
                      (failedPaymentData this userId txSignature declared
                         sender endpoint) docs) as (Rw & _).
  - split.
    + intros k N. apply upsert_lookup_other. cbn. congruence.
    + intros s [H|[H|[H|[H|[H|[]]]]]]; discriminate H.
Qed.

(** X10.  When the write of the record throws, the message of the
    database is what the caller gets, and the collection is as it was:
    after a failed confirmation it stands in for the reason of the
    confirmation; after a confirmation and a verified transfer it turns
    a payment that went through on chain into a rejected call. *)
Theorem failed_write_replaces_the_outcome
    (txSignature : string) (e : Error) :
  simulationOf w tx = SimValid ->
  submissionOf w tx blob = Normal txSignature ->
  findOneAndUpdate_error w = Some e ->
  (forall reason, confirmationOf w txSignature = ConfirmFailure reason ->
     fst out = Normal (failureResult (message e))
     /\ collection (snd out) = docs)
  /\ (forall onChain blockTime slot,
        confirmationOf w txSignature = ConfirmSuccess ->
        transferCheck this (getTransaction_rpc w txSignature)
        = TransferSuccess onChain blockTime slot ->
        fst out = Normal (failureResult (message e))
        /\ collection (snd out) = docs
        /\ In (RpcSendRawTransaction blob) (log (snd out))).
Proof using decoded signed answered free valid.
  intros S R W. rewrite (verifyPayment_settling txSignature S R).
  rewrite settlePayment_run. split.
  - intros reason C. rewrite C. cbv zeta. rewrite W. now cbn.
  - intros onChain blockTime slot C T. rewrite C, T. cbv zeta. rewrite W.
    cbn. auto 6.
Qed.

(** X11.  When the node confirmed the transaction and the check of the
    finalized transaction fails (it is not found, fetching it throws, no
    transfer to the payment wallet is found, or the transfer is too
    small), the call is rejected with the reason of the check and
    nothing is written: the submitted transaction leaves no record, not
    even a failed one. *)
Theorem unverified_transfer_leaves_no_record
    (txSignature reason : string) :
  simulationOf w tx = SimValid ->
  submissionOf w tx blob = Normal txSignature ->
  confirmationOf w txSignature = ConfirmSuccess ->
  transferCheck this (getTransaction_rpc w txSignature)
  = TransferFailure reason ->
  out = (Normal (failureResult reason),
         mkState docs [asked; RpcSimulateTransaction tx;
                       RpcSendRawTransaction blob;
                       RpcConfirmTransaction txSignature;
                       RpcGetTransaction txSignature]).
Proof using decoded signed answered free valid.
  intros S R C T.
  rewrite (verifyPayment_settling txSignature S R), settlePayment_run, C, T.
  reflexivity.
Qed.

End Processing.

Lemma txPay_valid :
  validateTransactionInstructions controller txPay
  = Valid 100000 (Some senderAccount).
Proof. vm_compute. reflexivity. Qed.

Lemma failed_simulation_witness :
  run (verifyPayment controller (worldSimulationRefused txPay 1000) "blob"
         "/api/mu-checker/analyze" None) []
  = (Normal (failureResult
               ("Transaction simulation failed: "
                ++ dquote ++ "AlreadyProcessed" ++ dquote)),
     mkState [] [DbFindOne (toString_base64 SIG_A);
                 RpcSimulateTransaction txPay]).
Proof.
  exact (failed_simulation_stops_the_call controller
           (worldSimulationRefused txPay 1000) "blob"
           "/api/mu-checker/analyze" None [] txPay SIG_A 100000
           (Some senderAccount) eq_refl eq_refl eq_refl eq_refl txPay_valid
           _ eq_refl).
Defined.

Lemma refused_submission_witness :
  run (verifyPayment controller (worldSubmissionRefused txPay 1000) "blob"
         "/api/mu-checker/analyze" None) []
  = (Normal (failureResult
               ("Transaction submission failed: "
                ++ message nodeBlockhashNotFound)),
     mkState [] [DbFindOne (toString_base64 SIG_A);
                 RpcSimulateTransaction txPay;
                 RpcSendRawTransaction []]).
Proof.
  assert (A : message nodeBlockhashNotFound = EmptyString
              \/ (includes (message nodeBlockhashNotFound)
                    "already processed" = false
                  /\ includes (message nodeBlockhashNotFound)
                       "already been processed" = false
                  /\ includes (message nodeBlockhashNotFound)
                       "This transaction has already been processed"
                     = false))
    by (right; repeat split; vm_compute; reflexivity).
  exact (refused_submission_leaves_no_record controller
           (worldSubmissionRefused txPay 1000) "blob"
           "/api/mu-checker/analyze" None [] txPay SIG_A 100000
           (Some senderAccount) eq_refl eq_refl eq_refl eq_refl txPay_valid
           nodeBlockhashNotFound eq_refl eq_refl A).
Defined.

Lemma unconfirmed_payment_witness :
  exists p,
    lookup (bs58_encode SIG_A)
      (collection
         (snd (run (verifyPayment controller (worldUnconfirmed txPay 1000)
                      "blob" "/api/mu-checker/analyze" None) [])))
    = Some p
    /\ status p = failed
    /\ amount p = 100000.
Proof.
  destruct (unconfirmed_payment_is_recorded_failed controller
              (worldUnconfirmed txPay 1000) "blob"
              "/api/mu-checker/analyze" None [] txPay SIG_A 100000
              (Some senderAccount) eq_refl eq_refl eq_refl eq_refl
              txPay_valid (bs58_encode SIG_A)
              "Confirmation error: Transaction was not confirmed in 30.00 seconds"
              eq_refl eq_refl eq_refl eq_refl)
    as (_ & (p & L & St & Am & _) & _).
  exists p. auto.
Defined.

Lemma failed_write_witness :
  fst (run (verifyPayment controller
              (withWriteError (worldAccepted txPay 100000 1000)
                 mongoTimeout)
              "blob" "/api/mu-checker/analyze" None) [])
  = Normal (failureResult (message mongoTimeout)).
Proof.
  assert (T : transferCheck controller (Normal (Some finalizedPayment))
              = TransferSuccess 100000 (Some 1700000000) 250000000)
    by (vm_compute; reflexivity).
  destruct (failed_write_replaces_the_outcome controller
              (withWriteError (worldAccepted txPay 100000 1000)
                 mongoTimeout)
              "blob" "/api/mu-checker/analyze" None [] txPay SIG_A 100000
              (Some senderAccount) eq_refl eq_refl eq_refl eq_refl
              txPay_valid (bs58_encode SIG_A) mongoTimeout
              eq_refl eq_refl eq_refl)
    as (_ & Paid).
  destruct (Paid 100000 (Some 1700000000) 250000000 eq_refl T)
    as (R & _).
  exact R.
Defined.

Lemma unverified_transfer_witness :
  run (verifyPayment controller (worldNotFound txPay 1000) "blob"
         "/api/mu-checker/analyze" None) []
  = (Normal (failureResult "Transaction not found on chain"),
     mkState [] [DbFindOne (toString_base64 SIG_A);
                 RpcSimulateTransaction txPay;
                 RpcSendRawTransaction [];
                 RpcConfirmTransaction (bs58_encode SIG_A);
                 RpcGetTransaction (bs58_encode SIG_A)]).
Proof.
  exact (unverified_transfer_leaves_no_record controller
           (worldNotFound txPay 1000) "blob" "/api/mu-checker/analyze"
           None [] txPay SIG_A 100000 (Some senderAccount)
           eq_refl eq_refl eq_refl eq_refl txPay_valid
           (bs58_encode SIG_A) _ eq_refl eq_refl eq_refl eq_refl).
Defined.

(* ================================================================== *)
(** ** The transfers read off the balance metadata *)
(* ================================================================== *)

Lemma Number_round_exact_signed (z : Z) :
  - 2 ^ 53 < z < 2 ^ 53 -> Number_round z = z.
Proof.
  intros H. unfold Number_round, round_magnitude.
  destruct (Z.ltb_spec z 0).
  - destruct (Z.ltb_spec (- z) (2 ^ 53)); lia.
  - destruct (Z.ltb_spec z (2 ^ 53)); [reflexivity | lia].
Qed.

Lemma In_increases t (m : AccountMap) :
  In t (fst (increases m)) ->
  exists k o a, In (k, a) m
                /\ owner a = Some o
                /\ 0 < Number_sub (post a) (pre a)
                /\ t = transferOf k o a.
Proof.
  induction m as [|[k0 a0] m IH]; cbn [increases]; [intros []|].
  destruct (owner a0) as [o0|] eqn:O0; [|intros []].
  destruct (increases m) as [ts threw]. cbn [fst] in IH.
  assert (Rest : In t ts ->
                 exists k o a, In (k, a) ((k0, a0) :: m)
                               /\ owner a = Some o
                               /\ 0 < Number_sub (post a) (pre a)
                               /\ t = transferOf k o a).
  { intros H. destruct (IH H) as (k & o & a & Hin & R).
    exists k, o, a. split; [now right | exact R]. }
  destruct (Z.ltb_spec 0 (Number_sub (post a0) (pre a0))) as [D|D];
    cbn [fst]; [|exact Rest].
  intros [<-|H]; [|exact (Rest H)].
  exists k0, o0, a0. repeat split; auto. now left.
Qed.

Lemma increases_In t (m : AccountMap) k o a :
  ownedEntries m ->
  In (k, a) m ->
  owner a = Some o ->
  0 < Number_sub (post a) (pre a) ->
  t = transferOf k o a ->
  In t (fst (increases m)).
Proof.
  unfold ownedEntries. intros Own Hin Oa D ->.
  induction m as [|[k0 a0] m IH]; [destruct Hin|].
  inversion Own as [|x xs Ha0 Own']; subst. cbn in Ha0. cbn [increases].
  destruct (owner a0) as [o0|] eqn:O0; [|contradiction].
  destruct Hin as [E|Hin].
  - inversion E; subst k0 a0. rewrite Oa in O0. inversion O0; subst o0.
    destruct (increases m) as [ts threw].
    destruct (Z.ltb_spec 0 (Number_sub (post a) (pre a))); [|lia].
    now left.
  - specialize (IH Own' Hin). destruct (increases m) as [ts threw].
    cbn [fst] in IH. destruct (0 <? _); cbn [fst]; [now right | exact IH].
Qed.

Lemma safe_listed k bs b :
  safeAmounts bs ->
  find (fun b => accountIndex b =? k) bs = Some b ->
  0 <= uiTokenAmount_amount b < 2 ^ 53
  /\ Number_round (uiTokenAmount_amount b) = uiTokenAmount_amount b.
Proof.
  intros S F. apply find_some in F. destruct F as [Hin _].
  unfold safeAmounts in S. rewrite Forall_forall in S.
  pose proof (S b Hin) as B. split; [exact B|].
  now apply Number_round_exact.
Qed.

(** X13.  With every account index listed once among the pre-balances
    and once among the post-balances, and amounts that are safe
    integers, every transfer that the loop of [parseTokenTransfers]
    pushes is an account whose balance rose, with the rise as its
    amount: an account that the pre-balances do not list counts as 0
    before, one that the post-balances do not list counts as 0 after.
    Owner and mint are those of the pre-balance when the account has
    one, else of the post-balance.  When every balance carries its
    owner, the loop does not throw and pushes all of these; an entry
    without owner ends it, and the rises behind that entry are not
    found. *)
Theorem transfers_are_balance_rises
    (pres posts : list TokenBalance) (t : Transfer) :
  distinctAccounts pres -> distinctAccounts posts ->
  safeAmounts pres -> safeAmounts posts ->
  let rise :=
    exists b,
      listedAt (t_accountIndex t) pres posts = Some b
      /\ tb_owner b = Some (destination t)
      /\ t_mint t = tb_mint b
      /\ t_amount t = balanceAt (t_accountIndex t) posts
                      - balanceAt (t_accountIndex t) pres
      /\ 0 < t_amount t in
  (In t (fst (increases (buildAccountMap pres posts))) -> rise)
  /\ (ownedAccounts pres -> ownedAccounts posts ->
      snd (increases (buildAccountMap pres posts)) = false
      /\ (rise -> In t (fst (increases (buildAccountMap pres posts))))).
Proof.
  intros Dp Dq Sp Sq. cbv zeta. split.
  - intros Found. apply In_increases in Found.
    destruct Found as (k & o & a & Hin & Oa & D & ->).
    pose proof (Map_In_get k a _ (buildAccountMap_keys pres posts) Hin)
      as G.
    rewrite (buildAccountMap_get k pres posts Dp Dq) in G.
    unfold listedAt, balanceAt. cbn [transferOf t_accountIndex destination
                                      t_mint t_amount].
    destruct (find _ posts) as [q|] eqn:Fq;
      destruct (find _ pres) as [p|] eqn:Fp; cbn in G;
      try discriminate G; inversion G; subst a; clear G;
      cbn in D, Oa |- *;
      try (destruct (safe_listed k posts q Sq Fq) as [Bq Rq]);
      try (destruct (safe_listed k pres p Sp Fp) as [Bp Rp]).
    + exists p. rewrite Rq, Rp in D |- *.
      unfold Number_sub in D |- *.
      rewrite Number_round_exact_signed in D |- * by lia. auto.
    + exists q. rewrite Rq in D |- *. unfold Number_sub in D |- *.
      rewrite Number_round_exact_signed in D |- * by lia. auto.
    + exfalso. rewrite Rp in D. unfold Number_sub in D.
      rewrite Number_round_exact_signed in D by lia. lia.
  - intros Op Oq.
    pose proof (buildAccountMap_owned pres posts Op Oq) as Own.
    split; [now apply increases_owned|].
    intros (b & L & O & Mi & A & P).
    destruct t as [d mi am ix].
    cbn [destination t_mint t_amount t_accountIndex] in *. subst mi.
    unfold listedAt in L. unfold balanceAt in A.
    destruct (find (fun b => accountIndex b =? ix) pres) as [p|] eqn:Fp.
    + inversion L; subst b; clear L.
      destruct (safe_listed _ pres p Sp Fp) as [Bp Rp].
      destruct (find (fun b => accountIndex b =? ix) posts) as [q|] eqn:Fq;
        [|lia].
      destruct (safe_listed _ posts q Sq Fq) as [Bq Rq].
      apply (increases_In _ _ ix d (postEntry (Some (preEntry p)) q) Own).
      * apply Map_get_In.
        rewrite (buildAccountMap_get _ pres posts Dp Dq), Fq, Fp.
        reflexivity.
      * exact O.
      * unfold Number_sub. cbn [postEntry preEntry pre post].
        rewrite Rq, Rp, Number_round_exact_signed by lia. lia.
      * unfold transferOf, Number_sub.
        cbn [postEntry preEntry pre post owner mint].
        rewrite Rq, Rp, Number_round_exact_signed by lia.
        rewrite A. reflexivity.
    + destruct (safe_listed _ posts b Sq L) as [Bq Rq]. rewrite L in A.
      apply (increases_In _ _ ix d (postEntry None b) Own).
      * apply Map_get_In.
        rewrite (buildAccountMap_get _ pres posts Dp Dq), L, Fp.
        reflexivity.
      * exact O.
      * unfold Number_sub. cbn [postEntry pre post].
        rewrite Rq, Number_round_exact_signed by lia. lia.
      * unfold transferOf, Number_sub.
        cbn [postEntry preEntry pre post owner mint].
        rewrite Rq, Number_round_exact_signed by lia.
        rewrite A. reflexivity.
Qed.

Lemma transfers_witness_payment :
  In transferToWallet
    (fst (increases (buildAccountMap balancesBefore
                       (balancesAfter 100000)))).
Proof.
  assert (Dp : distinctAccounts balancesBefore).
  { repeat constructor; cbn; intuition discriminate. }
  assert (Dq : distinctAccounts (balancesAfter 100000)).
  { repeat constructor; cbn; intuition discriminate. }
  assert (Sp : safeAmounts balancesBefore).
  { repeat constructor; cbn; lia. }
  assert (Sq : safeAmounts (balancesAfter 100000)).
  { repeat constructor; cbn; lia. }
  assert (Op : ownedAccounts balancesBefore).
  { repeat constructor; discriminate. }
  assert (Oq : ownedAccounts (balancesAfter 100000)).
  { repeat constructor; discriminate. }
  destruct (transfers_are_balance_rises balancesBefore
              (balancesAfter 100000) transferToWallet Dp Dq Sp Sq)
    as (_ & Complete).
  destruct (Complete Op Oq) as (_ & Found). apply Found.
  exists (mkTokenBalance 2 (cfg_tokenMint controller)
            (Some (paymentWallet controller)) 0).
  repeat split; vm_compute; reflexivity.
Defined.

(* ================================================================== *)
(** ** The transfer that is assumed *)
(* ================================================================== *)

Lemma prefix_refl s : String.prefix s s = true.
Proof.
  induction s as [|c s IH]; [reflexivity|]. cbn.
  destruct (Ascii.ascii_dec c c); [exact IH | contradiction].
Qed.

Lemma includes_refl s : includes s s = true.
Proof. destruct s; cbn [includes]; now rewrite prefix_refl. Qed.

(** X12.  When every balance of the finalized transaction carries its
    owner and none rose, the transaction succeeded, one line of its log
    contains both [Instruction: Transfer] and [success], and the
    post-balances list a token account of the payment wallet for the
    expected mint, [verifyOnChainTransfer] succeeds and reports the
    configured minimum as the amount transferred, whatever the balances
    are. *)
Theorem settled_transfer_counts_as_required_amount
    (this : PaymentController) (w : World) (sig : string)
    (expectedSender : option string) (expectedAmount : Z) (st : State)
    (txd : TransactionResponse) (m : TransactionMeta)
    (pres posts : list TokenBalance) (recipientAccount : TokenBalance) :
  getTransaction_rpc w sig = Normal (Some txd) ->
  meta txd = Some m ->
  preTokenBalances m = Some pres ->
  postTokenBalances m = Some posts ->
  ownedAccounts pres ->
  ownedAccounts posts ->
  fst (increases (buildAccountMap pres posts)) = [] ->
  meta_err m = None ->
  hasTokenTransfer m = true ->
  find (fun b => ownerIs (paymentWallet this) b
                 && String.eqb (tb_mint b) (cfg_tokenMint this)) posts
  = Some recipientAccount ->
  fst (verifyOnChainTransfer this w sig expectedSender expectedAmount st)
  = Normal (TransferSuccess (requiredAmount this) (tx_blockTime txd)
              (tx_slot txd)).
Proof.
  intros G Hm Hpre Hpost Op Oq Still Ok Logged Found.
  rewrite verifyOnChainTransfer_run, G. cbn [fst]. f_equal.
  unfold transferCheck, parseTokenTransfers.
  rewrite Hm, Hpost, Hpre.
  pose proof (increases_owned _ (buildAccountMap_owned pres posts Op Oq))
    as NoThrow.
  destruct (increases (buildAccountMap pres posts)) as [ts threw].
  cbn [fst snd] in Still, NoThrow. subst ts threw.
  unfold settledTransfer. rewrite Ok, Logged, Found.
  apply find_some in Found. destruct Found as [_ Found].
  apply andb_prop in Found. destruct Found as [O Mi].
  unfold ownerIs in O.
  destruct (tb_owner recipientAccount) as [o|]; [|discriminate O].
  apply String.eqb_eq in O. subst o. cbn [find].
  unfold isPaymentTransfer. cbn [destination t_mint t_amount].
  rewrite includes_refl, Mi. cbn [andb].
  now rewrite Z.ltb_irrefl.
Qed.

Lemma settled_transfer_witness :
  fst (verifyOnChainTransfer controller
         (world txPay (Normal (bs58_encode SIG_A)) (Normal None)
            (Some finalizedSettled) 1000)
         (bs58_encode SIG_A) (Some senderAccount) 100000 (mkState [] []))
  = Normal (TransferSuccess 100000 (Some 1700000000) 250000000).
Proof.
  assert (Owned : ownedAccounts (balancesAfter 100000)).
  { repeat constructor; discriminate. }
  assert (Still : fst (increases (buildAccountMap (balancesAfter 100000)
                                    (balancesAfter 100000))) = [])
    by (vm_compute; reflexivity).
  assert (Logged : hasTokenTransfer
                     {| meta_err := None;
                        preTokenBalances := Some (balancesAfter 100000);
                        postTokenBalances := Some (balancesAfter 100000);
                        logMessages :=
                          Some ["Program log: Instruction: Transfer success"]
                     |} = true)
    by (vm_compute; reflexivity).
  assert (Found : find (fun b =>
                          ownerIs (paymentWallet controller) b
                          && String.eqb (tb_mint b)
                               (cfg_tokenMint controller))
                    (balancesAfter 100000)
                  = Some (mkTokenBalance 2 (cfg_tokenMint controller)
                            (Some (paymentWallet controller)) 100000))
    by (vm_compute; reflexivity).
  exact (settled_transfer_counts_as_required_amount controller
           (world txPay (Normal (bs58_encode SIG_A)) (Normal None)
              (Some finalizedSettled) 1000)
           (bs58_encode SIG_A) (Some senderAccount) 100000 (mkState [] [])
           finalizedSettled _ _ _ _ eq_refl eq_refl eq_refl eq_refl
           Owned Owned Still eq_refl Logged Found).
Defined.

(* ================================================================== *)
(** ** No record is left pending *)
(* ================================================================== *)

Lemma upsert_In_cases date pd docs p :
  In p (fst (upsert date pd docs)) ->
  In p docs \/ p = snd (upsert date pd docs).
Proof.
  induction docs as [|d rest IH]; cbn.
  - intros [<-|[]]. now right.
  - destruct (String.eqb (transactionSignature d)
                (pd_transactionSignature pd)); cbn.
    + intros [<-|H]; [now right | left; now right].
    + destruct (upsert date pd rest) as [rest' p']. cbn in *.
      intros [<-|H]; [left; now left|].
      destruct (IH H) as [H'|H']; [left; now right | now right].
Qed.

Lemma settlePayment_settled this w endpoint userId declared sender
    txSignature st p :
  In p (collection
          (snd (settlePayment this w endpoint userId declared sender
                  txSignature st))) ->
  In p (collection st) \/ status p <> pending.
Proof.
  rewrite settlePayment_run.
  destruct (confirmationOf w txSignature) as [reason|].
  - cbv zeta. destruct (findOneAndUpdate_error w); cbn; [tauto|].
    intros H. apply upsert_In_cases in H. destruct H as [H| ->]; [tauto|].
    right. rewrite upsert_status. discriminate.
  - destruct (transferCheck this (getTransaction_rpc w txSignature))
      as [reason|onChain blockTime slot]; [cbn; tauto|].
    cbv zeta. destruct (findOneAndUpdate_error w); cbn; [tauto|].
    intros H. apply upsert_In_cases in H. destruct H as [H| ->]; [tauto|].
    right. rewrite upsert_status. discriminate.
Qed.

Lemma caught_collection c : collection (snd (caught c)) = collection (snd c).
Proof. now destruct c as [[r|e] st]. Qed.

(** X14.  A call of [verifyPayment] leaves no record pending: every
    record of the collection after the call that was not in it before
    is confirmed or failed, so that its [isExpired] is false at any
    date.  Records that were pending before stay as they were unless
    the call wrote over them. *)
Theorem written_records_are_never_pending
    (this : PaymentController) (w : World)
    (serializedTransaction endpoint : string) (userId : option string)
    (docs : list Payment) (p : Payment) :
  In p (collection
          (snd (run (verifyPayment this w serializedTransaction endpoint
                       userId) docs))) ->
  In p docs
  \/ (status p <> pending
      /\ forall date, Payment_isExpired date p = false).
Proof.
  intros H.
  assert (S : In p docs \/ status p <> pending).
  { revert H. rewrite verifyPayment_run, caught_collection.
    assert (P : forall tx key,
               In p (collection
                       (snd (processPayment this w tx
                               (Buffer_from_base64 w serializedTransaction)
                               endpoint userId
                               (mkState docs [DbFindOne key])))) ->
               In p docs \/ status p <> pending).
    { intros tx key. rewrite processPayment_run.
      destruct (validateTransactionInstructions this _); [cbn; tauto|].
      destruct (simulationOf w _); [cbn; tauto|].
      destruct (submissionOf w _ _); [|cbn; tauto].
      intros H. now apply settlePayment_settled in H. }
    destruct (Transaction_from w _) as [tx|e]; [|cbn; tauto].
    destruct (firstSignature tx) as [sig|]; [|cbn; tauto].
    cbv zeta. destruct (findOne_error w); [cbn; tauto|].
    destruct (lookup _ docs) as [q|]; [|apply P].
    destruct (status q); [apply P | cbn; tauto ..]. }
  destruct S as [S|S]; [now left|]. right. split; [exact S|].
  intros date. unfold Payment_isExpired.
  destruct (status p); [contradiction | reflexivity ..].
Qed.

Lemma written_records_witness :
  Payment_isExpired (1000 + 6 * 60 * 1000)
    (newDocument 1000
       (failedPaymentData controller None (bs58_encode SIG_A) 100000
          (Some senderAccount) "/api/mu-checker/analyze"))
  = false.
Proof.
  assert (W : In (newDocument 1000
                    (failedPaymentData controller None (bs58_encode SIG_A)
                       100000 (Some senderAccount)
                       "/api/mu-checker/analyze"))
                (collection
                   (snd (run (verifyPayment controller
                                (worldUnconfirmed txPay 1000) "blob"
                                "/api/mu-checker/analyze" None) []))))
    by (vm_compute; left; reflexivity).
  destruct (written_records_are_never_pending controller
              (worldUnconfirmed txPay 1000) "blob"
              "/api/mu-checker/analyze" None [] _ W) as [[]|[_ E]].
  exact (E (1000 + 6 * 60 * 1000)).
Defined.

(* ================================================================== *)
(** ** The x402 middleware *)
(* ================================================================== *)

Lemma verifyPayment_returns this w s endpoint userId docs :
  exists r st',
    verifyPayment this w s endpoint userId (mkState docs []) = (Normal r, st')
    /\ (success r = true ->
        exists p, payment r = Some p
                  /\ paidFor this docs (collection st') p).
Proof.
  destruct (verifyPayment this w s endpoint userId (mkState docs []))
    as [c st'] eqn:V.
  assert (exists r, c = Normal r) as (r & ->).
  { unfold verifyPayment, try_catch in V.
    destruct (verifyPaymentBody this w s endpoint userId (mkState docs []))
      as [[r|e] st'']; inversion V; eauto. }
  exists r, st'. split; [reflexivity|]. intros S.
  pose proof (accepted_record this w s endpoint userId docs r) as A.
  cbv zeta in A. unfold run in A. rewrite V in A. cbn [fst snd] in A.
  destruct (A eq_refl S)
    as (p & Hp & St & [(_ & I & _)|(_ & I & _ & Rw & Tm & _ & Am)]).
  - exists p. split; [exact Hp|]. split; [exact St|]. now left.
  - exists p. split; [exact Hp|]. split; [exact St|]. right. auto.
Qed.

Lemma verifyPayment_of_returns env this w v endpoint userId docs :
  exists r st',
    verifyPayment_of env this w v endpoint userId (mkState docs [])
    = (Normal r, st')
    /\ (success r = true ->
        exists p, payment r = Some p
                  /\ paidFor this docs (collection st') p).
Proof.
  assert (B : exists r st',
             match Buffer_from env v with
             | Normal buf =>
                 verifyPayment this (withBuffer w buf) EmptyString
                   endpoint userId
             | Throw e => ret (failureResult (message e))
             end (mkState docs []) = (Normal r, st')
             /\ (success r = true ->
                 exists p, payment r = Some p
                           /\ paidFor this docs (collection st') p)).
  { destruct (Buffer_from env v) as [buf|e].
    - exact (verifyPayment_returns this (withBuffer w buf) EmptyString
               endpoint userId docs).
    - exists (failureResult (message e)), (mkState docs []).
      split; [reflexivity|]. discriminate. }
  destruct v; try exact B.
  exact (verifyPayment_returns this w s endpoint userId docs).
Qed.

Ltac responded :=
  unfold send, act; cbn [db actions app];
  eexists; split; [reflexivity|]; left; split; [reflexivity|];
  cbn [actions app].

(** Every way through the middleware when x402 is on: a response before
    the controller is asked, or the controller's answer decides. *)
Lemma verifyX402Payment_outcome env this w req next docs :
  X402_ENABLED env = Some "true" ->
  exists s',
    handle (verifyX402Payment env this w req next) docs = (Normal tt, s')
    /\ ((db s' = mkState docs []
         /\ (actions s' = [Send 402 (paymentRequiredBody this)]
             \/ (x_payment req <> None
                 /\ exists msg, actions s' = [Send 400 (errorBody msg)])
             \/ actions s' = [Send 500 internalError]))
        \/ exists v r st',
             verifyPayment_of env this w v (endpointOf req) (userIdOf req)
               (mkState docs []) = (Normal r, st')
             /\ s' = settle this req next r st').
Proof.
  intros En. unfold handle, verifyX402Payment, htry. rewrite En.
  cbv beta iota zeta. rewrite String.eqb_refl. cbn [negb].
  destruct (x_payment req) as [[|c h]|].
  - responded. now left.
  - destruct (JSON_parse env (String c h)) as [paymentData|e].
    + unfold hbind at 1, hlift at 1.
      destruct (missingFields paymentData) as [[|]|e].
      * responded. right. left. split; [discriminate | eauto].
      * unfold hbind at 1, hlift at 1.
        destruct (Get paymentData "payload") as [payload|e];
          [|responded; now right; right].
        unfold hbind at 1, hlift at 1.
        destruct (Get payload "serializedTransaction") as [v|e];
          [|responded; now right; right].
        destruct (ToBoolean v);
          [|responded; right; left; split; [discriminate | eauto]].
        cbn [negb].
        destruct (verifyPayment_of_returns env this w v (endpointOf req)
                    (userIdOf req) docs) as (r & st' & V & _).
        unfold hbind at 1, fromM. cbn [db actions].
        unfold endpointOf, userIdOf in V. rewrite V.
        exists (settle this req next r st'). split.
        { unfold settle. destruct (success r); cbn [negb].
          - unfold callNext, hbind, hlift, act, send. cbn.
            destruct (next (withPayment req (payment r))) as [[]|e];
              reflexivity.
          - reflexivity. }
        right. now exists v, r, st'.
      * responded. now right; right.
    + responded. right. left. split; [discriminate | eauto].
  - responded. now left.
Qed.

Lemma verifyX402Payment_disabled env this w req next docs :
  X402_ENABLED env <> Some "true" ->
  handle (verifyX402Payment env this w req next) docs
  = (Normal tt,
     mkHState (mkState docs [])
       (CallNext req
        :: match next req with
           | Normal _ => []
           | Throw _ => [Send 500 internalError]
           end)).
Proof.
  intros Off. unfold handle, verifyX402Payment, htry.
  assert (E : match X402_ENABLED env with
              | Some v => String.eqb v "true"
              | None => false
              end = false).
  { destruct (X402_ENABLED env) as [v|]; [|reflexivity].
    destruct (String.eqb_spec v "true"); [|reflexivity].
    subst v. contradiction. }
  cbv zeta. rewrite E. cbn [negb].
  unfold callNext, hbind, hlift, act, send. cbn.
  destruct (next req) as [[]|e]; reflexivity.
Qed.

(** X15.  Whatever the request, the environment and the answers of the
    database and the node, [verifyX402Payment] does not throw and does
    one of two things: it calls [next()] once, or it sends one response
    whose status is 400, 402 or 500 and whose body has [success:
    false].  It does both only when [next()] itself throws: then the
    response is the 500 of its [catch]. *)
Theorem every_request_gets_one_outcome
    (env : Env) (this : PaymentController) (w : World) (req : Request)
    (next : Request -> Completion unit) (docs : list Payment) :
  exists s',
    handle (verifyX402Payment env this w req next) docs = (Normal tt, s')
    /\ ((exists req',
            actions s' = [CallNext req'] /\ next req' = Normal tt)
        \/ (exists req' e,
               actions s' = [CallNext req'; Send 500 internalError]
               /\ next req' = Throw e)
        \/ (exists code body,
               actions s' = [Send code body]
               /\ (code = 400 \/ code = 402 \/ code = 500)
               /\ Get body "success" = Normal (VBool false))).
Proof.
  assert (D : X402_ENABLED env = Some "true"
              \/ X402_ENABLED env <> Some "true").
  { destruct (X402_ENABLED env) as [v|]; [|right; discriminate].
    destruct (String.eqb_spec v "true") as [->|N]; [now left|].
    right. congruence. }
  destruct D as [En|Off].
  - destruct (verifyX402Payment_outcome env this w req next docs En)
      as (s' & R & [(_ & [A|[(_ & msg & A)|A]])|(v & r & st' & _ & ->)]).
    + exists s'. split; [exact R|]. right. right.
      exists 402, (paymentRequiredBody this). auto.
    + exists s'. split; [exact R|]. right. right.
      exists 400, (errorBody msg). auto.
    + exists s'. split; [exact R|]. right. right.
      exists 500, internalError. auto.
    + eexists. split; [exact R|]. unfold settle.
      destruct (success r).
      * destruct (next (withPayment req (payment r))) as [[]|e] eqn:N;
          cbn [actions].
        -- left. eauto.
        -- right. left. eauto.
      * right. right. exists 402, (verificationFailedBody r). auto.
  - rewrite (verifyX402Payment_disabled env this w req next docs Off).
    eexists. split; [reflexivity|]. cbn [actions].
    destruct (next req) as [[]|e] eqn:N.
    + left. eauto.
    + right. left. eauto.
Qed.

(** X16.  With x402 on, [next()] is called only for a request that has
    paid: the request handed on carries in [req.payment] a confirmed
    record, which either was in the collection before the request or
    has been written by it, for at least the configured minimum, to
    the configured wallet and mint. *)
Theorem next_carries_a_confirmed_payment
    (env : Env) (this : PaymentController) (w : World) (req : Request)
    (next : Request -> Completion unit) (docs : list Payment)
    (req' : Request) :
  X402_ENABLED env = Some "true" ->
  In (CallNext req')
     (actions (snd (handle (verifyX402Payment env this w req next) docs)))
  ->
  exists p,
    req' = withPayment req (Some p)
    /\ paidFor this docs
         (collection
            (db (snd (handle (verifyX402Payment env this w req next)
                        docs))))
         p.
Proof.
  intros En.
  destruct (verifyX402Payment_outcome env this w req next docs En)
    as (s' & R & [(_ & [A|[(_ & msg & A)|A]])|(v & r & st' & V & ->)]);
    rewrite R; cbn [snd]; try rewrite A;
    try (intros [H|[]]; discriminate H).
  destruct (verifyPayment_of_returns env this w v (endpointOf req)
              (userIdOf req) docs) as (r0 & st0 & V0 & Paid).
  rewrite V in V0. inversion V0; subst r0 st0. clear V0.
  unfold settle. destruct (success r); [|intros [H|[]]; discriminate H].
  destruct (Paid eq_refl) as (p & Hp & P). rewrite Hp.
  assert (C : In (CallNext req')
                [CallNext (withPayment req (Some p)); Send 500 internalError]
              -> req' = withPayment req (Some p)).
  { intros [H|[H|[]]]; [now inversion H | discriminate H]. }
  destruct (next (withPayment req (Some p))); cbn [actions db]; intros H;
    exists p; (split; [|exact P]); apply C; cbn in *; tauto.
Qed.

(** X17.  Unless [X402_ENABLED] is exactly the string [true], every
    request is handed to [next()] as it came: the payment header is not
    read, and neither the database nor the node is asked. *)
Theorem disabled_x402_lets_every_request_pass
    (env : Env) (this : PaymentController) (w : World) (req : Request)
    (next : Request -> Completion unit) (docs : list Payment) :
  X402_ENABLED env <> Some "true" ->
  exists s',
    handle (verifyX402Payment env this w req next) docs = (Normal tt, s')
    /\ db s' = mkState docs []
    /\ hd_error (actions s') = Some (CallNext req)
    /\ (next req = Normal tt -> actions s' = [CallNext req]).
Proof.
  intros Off.
  rewrite (verifyX402Payment_disabled env this w req next docs Off).
  eexists. split; [reflexivity|]. cbn. split; [reflexivity|].
  split; [reflexivity|]. now intros ->.
Qed.

(** X18.  A header that is complete and carries a transaction that the
    controller rejects, for whatever reason (a blob that is no
    transaction included), is answered with status 402, [Payment
    verification failed] and the controller's reason as [details];
    [next()] is not called. *)
Theorem rejected_payment_is_answered_402
    (env : Env) (this : PaymentController) (w : World) (req : Request)
    (next : Request -> Completion unit) (docs : list Payment)
    (c : ascii) (h : string) (paymentData payload : Value)
    (serializedTransaction : string) (r : VerifyResult) (st' : State) :
  X402_ENABLED env = Some "true" ->
  x_payment req = Some (String c h) ->
  JSON_parse env (String c h) = Normal paymentData ->
  missingFields paymentData = Normal false ->
  Get paymentData "payload" = Normal payload ->
  Get payload "serializedTransaction"
  = Normal (VString serializedTransaction) ->
  serializedTransaction <> EmptyString ->
  verifyPayment this w serializedTransaction (endpointOf req) (userIdOf req)
    (mkState docs []) = (Normal r, st') ->
  success r = false ->
  handle (verifyX402Payment env this w req next) docs
  = (Normal tt,
     mkHState st'
       [Send 402
          (VObject
             [("success", VBool false);
              ("error", VString "Payment verification failed");
              ("details", match error r with
                          | Some reason => VString reason
                          | None => VUndefined
                          end);
              ("paymentRequired", VBool true)])]).
Proof.
  intros En Hd Parsed Complete P S Given V Rejected.
  unfold handle, verifyX402Payment, htry. rewrite En, Hd.
  cbv beta iota zeta. rewrite String.eqb_refl. cbn [negb].
  rewrite Parsed. unfold hbind at 1, hlift at 1. rewrite Complete.
  unfold hbind at 1, hlift at 1. rewrite P.
  unfold hbind at 1, hlift at 1. rewrite S.
  assert (T : ToBoolean (VString serializedTransaction) = true).
  { destruct serializedTransaction; [contradiction | reflexivity]. }
  rewrite T. cbn [negb]. unfold hbind at 1, fromM. cbn [db actions].
  unfold verifyPayment_of. unfold endpointOf, userIdOf in V. rewrite V.
  rewrite Rejected. reflexivity.
Qed.

(** X19.  A header whose text parses to [null] is not answered as a bad
    request: reading [paymentData.x402Version] throws, and the [catch]
    answers with status 500.  Nothing is verified. *)
Theorem null_header_is_answered_500
    (env : Env) (this : PaymentController) (w : World) (req : Request)
    (next : Request -> Completion unit) (docs : list Payment)
    (c : ascii) (h : string) :
  X402_ENABLED env = Some "true" ->
  x_payment req = Some (String c h) ->
  JSON_parse env (String c h) = Normal VNull ->
  handle (verifyX402Payment env this w req next) docs
  = (Normal tt, mkHState (mkState docs []) [Send 500 internalError]).
Proof.
  intros En Hd Parsed.
  unfold handle, verifyX402Payment, htry. rewrite En, Hd.
  cbv beta iota zeta. rewrite String.eqb_refl. cbn [negb].
  rewrite Parsed. reflexivity.
Qed.

(** X20.  With x402 on, a response with status 400 is sent before
    anything is verified: the request had a payment header, the
    response is all the middleware did, and neither the database nor
    the node was asked. *)
Theorem bad_request_is_not_verified
    (env : Env) (this : PaymentController) (w : World) (req : Request)
    (next : Request -> Completion unit) (docs : list Payment)
    (body : Value) :
  X402_ENABLED env = Some "true" ->
  In (Send 400 body)
     (actions (snd (handle (verifyX402Payment env this w req next) docs)))
  ->
  snd (handle (verifyX402Payment env this w req next) docs)
  = mkHState (mkState docs []) [Send 400 body]
  /\ x_payment req <> None
  /\ exists msg, body = errorBody msg.
Proof.
  intros En.
  destruct (verifyX402Payment_outcome env this w req next docs En)
    as (s' & R & [(Db & [A|[(Hd & msg & A)|A]])|(v & r & st' & V & ->)]);
    rewrite R; cbn [snd].
  - rewrite A. intros [H|[]]. discriminate H.
  - rewrite A. intros [H|[]]. inversion H; subst body.
    split; [|split; [exact Hd | now exists msg]].
    destruct s' as [d a]. cbn in *. now subst.
  - rewrite A. intros [H|[]]. discriminate H.
  - unfold settle. destruct (success r).
    + destruct (next _); cbn; intros H; intuition discriminate.
    + cbn. intros [H|[]]. discriminate H.
Qed.

Lemma next_witness_paid_request :
  exists p,
    status p = confirmed
    /\ In p (collection
               (db (snd (handle
                           (verifyX402Payment (env402 "blob") controller
                              (worldAccepted txPay 100000 1000)
                              (requestWith (Some (paymentHeaderOf "blob")))
                              nextReturns) [])))).
Proof.
  assert (Called :
            In (CallNext
                  (withPayment (requestWith (Some (paymentHeaderOf "blob")))
                     (Some
                        (newDocument 1000
                           (confirmedPaymentData controller
                              (worldAccepted txPay 100000 1000) None
                              (bs58_encode SIG_A) 100000
                              (Some senderAccount) "/api/mu-checker/analyze"
                              (Some 1700000000) 250000000)))))
               (actions
                  (snd (handle
                          (verifyX402Payment (env402 "blob") controller
                             (worldAccepted txPay 100000 1000)
                             (requestWith (Some (paymentHeaderOf "blob")))
                             nextReturns) []))))
    by (vm_compute; left; reflexivity).
  destruct (next_carries_a_confirmed_payment (env402 "blob") controller
              (worldAccepted txPay 100000 1000)
              (requestWith (Some (paymentHeaderOf "blob"))) nextReturns []
              _ eq_refl Called) as (p & _ & St & [[]|(I & _)]).
  exists p. split; assumption.
Defined.

Lemma disabled_witness_unset :
  exists s',
    handle (verifyX402Payment (envWith None "blob") controller
              (worldAccepted txPay 100000 1000) (requestWith None)
              nextReturns) []
    = (Normal tt, s')
    /\ actions s' = [CallNext (requestWith None)].
Proof.
  assert (Off : X402_ENABLED (envWith None "blob") <> Some "true")
    by discriminate.
  destruct (disabled_x402_lets_every_request_pass (envWith None "blob")
              controller (worldAccepted txPay 100000 1000)
              (requestWith None) nextReturns [] Off)
    as (s' & R & _ & _ & A).
  exists s'. split; [exact R | exact (A eq_refl)].
Defined.

Lemma rejected_payment_witness_undecodable :
  handle (verifyX402Payment (env402 "blob") controller worldUndecodable
            (requestWith (Some (paymentHeaderOf "blob"))) nextReturns) []
  = (Normal tt,
     mkHState (mkState [] [])
       [Send 402
          (VObject
             [("success", VBool false);
              ("error", VString "Payment verification failed");
              ("details", VString "Reached end of buffer unexpectedly");
              ("paymentRequired", VBool true)])]).
Proof.
  assert (Parsed : JSON_parse (env402 "blob") (paymentHeaderOf "blob")
                   = Normal (paymentDataOf "blob"))
    by (vm_compute; reflexivity).
  assert (Given : "blob" <> EmptyString) by discriminate.
  exact (rejected_payment_is_answered_402 (env402 "blob") controller
           worldUndecodable (requestWith (Some (paymentHeaderOf "blob")))
           nextReturns [] _ _ (paymentDataOf "blob")
           (VObject [("serializedTransaction", VString "blob")]) "blob"
           (failureResult "Reached end of buffer unexpectedly")
           (mkState [] []) eq_refl eq_refl Parsed eq_refl eq_refl eq_refl
           Given eq_refl eq_refl).
Defined.

Lemma null_header_witness :
  handle (verifyX402Payment (env402 "blob") controller
            (worldAccepted txPay 100000 1000) (requestWith (Some "null"))
            nextReturns) []
  = (Normal tt, mkHState (mkState [] []) [Send 500 internalError]).
Proof.
  assert (Parsed : JSON_parse (env402 "blob") "null" = Normal VNull)
    by (vm_compute; reflexivity).
  exact (null_header_is_answered_500 (env402 "blob") controller
           (worldAccepted txPay 100000 1000) (requestWith (Some "null"))
           nextReturns [] _ _ eq_refl eq_refl Parsed).
Defined.

Lemma bad_request_witness_no_json :
  snd (handle (verifyX402Payment (env402 "blob") controller
                 (worldAccepted txPay 100000 1000)
                 (requestWith (Some "transaction")) nextReturns) [])
  = mkHState (mkState [] [])
      [Send 400
         (errorBody "Invalid X-PAYMENT header format. Expected JSON.")].
Proof.
  assert (Sent :
            In (Send 400
                  (errorBody
                     "Invalid X-PAYMENT header format. Expected JSON."))
               (actions
                  (snd (handle
                          (verifyX402Payment (env402 "blob") controller
                             (worldAccepted txPay 100000 1000)
                             (requestWith (Some "transaction")) nextReturns)
                          []))))
    by (vm_compute; left; reflexivity).
  destruct (bad_request_is_not_verified (env402 "blob") controller
              (worldAccepted txPay 100000 1000)
              (requestWith (Some "transaction")) nextReturns [] _ eq_refl
              Sent) as (R & _).
  exact R.
Defined.

(* ================================================================== *)
(** ** API keys *)
(* ================================================================== *)

Lemma byte_val_bounds b : 0 <= byte_val b < 256.
Proof.
  unfold byte_val. pose proof (Byte.to_N_bounded b). lia.
Qed.

Lemma byte_val_injective b b' : byte_val b = byte_val b' -> b = b'.
Proof.
  unfold byte_val. intros E. apply N2Z.inj in E.
  pose proof (Byte.of_to_N b) as P. rewrite E, Byte.of_to_N in P.
  now inversion P.
Qed.

Lemma hex_char_nat_injective i j :
  (i < 16)%nat -> (j < 16)%nat ->
  hex_char (Z.of_nat i) = hex_char (Z.of_nat j) -> i = j.
Proof.
  intros Hi Hj.
  do 16 (destruct i as [|i];
         [do 16 (destruct j as [|j];
                 [vm_compute; intros E;
                  first [reflexivity | discriminate E] |]);
          lia |]).
  lia.
Qed.

Lemma hex_char_injective n m :
  0 <= n < 16 -> 0 <= m < 16 -> hex_char n = hex_char m -> n = m.
Proof.
  intros Hn Hm E.
  rewrite <- (Z2Nat.id n), <- (Z2Nat.id m) in E by lia.
  apply hex_char_nat_injective in E; lia.
Qed.

Lemma toString_hex_injective bs bs' :
  toString_hex bs = toString_hex bs' -> bs = bs'.
Proof.
  revert bs'. induction bs as [|b bs IH]; intros [|b' bs'] E;
    try discriminate E; [reflexivity|].
  cbn [toString_hex] in E. inversion E as [[Hi Lo Rest]].
  pose proof (byte_val_bounds b) as B. pose proof (byte_val_bounds b') as B'.
  apply hex_char_injective in Hi;
    [| split; [apply Z.div_pos | apply Z.div_lt_upper_bound]; lia ..].
  apply hex_char_injective in Lo; [| apply Z.mod_pos_bound; lia ..].
  f_equal; [|now apply IH].
  apply byte_val_injective.
  rewrite (Z.div_mod (byte_val b) 16), (Z.div_mod (byte_val b') 16) by lia.
  now rewrite Hi, Lo.
Qed.

Lemma toString_hex_length bs :
  String.length (toString_hex bs) = (2 * List.length bs)%nat.
Proof. induction bs as [|b bs IH]; cbn; [reflexivity | lia]. Qed.

Lemma toString_hex_app (a b : Buffer) :
  toString_hex (a ++ b)%list = toString_hex a ++ toString_hex b.
Proof. induction a as [|x a IH]; cbn; [reflexivity | now rewrite IH]. Qed.

(** X21.  Two API keys of [generateKey] are equal only when the random
    bytes are: the key is [cp_] followed by two hexadecimal digits for
    every byte, 67 characters for the 32 bytes of [crypto.randomBytes]. *)
Theorem generated_keys_differ_as_their_bytes
    (crypto_randomBytes crypto_randomBytes' : nat -> Buffer) :
  (generateKey crypto_randomBytes = generateKey crypto_randomBytes'
   <-> crypto_randomBytes 32%nat = crypto_randomBytes' 32%nat)
  /\ String.prefix "cp_" (generateKey crypto_randomBytes) = true
  /\ String.length (generateKey crypto_randomBytes)
     = (3 + 2 * List.length (crypto_randomBytes 32%nat))%nat.
Proof.
  unfold generateKey. cbv zeta. split; [split|split].
  - intros E. cbn in E. inversion E as [E'].
    now apply toString_hex_injective.
  - now intros ->.
  - apply prefix_correct. cbn. now destruct (toString_hex _).
  - cbn. now rewrite toString_hex_length.
Qed.

Lemma substring_over s n :
  (String.length s <= n)%nat -> substring 0 n s = s.
Proof.
  revert n. induction s as [|c s IH]; intros [|n] L; cbn in *;
    try reflexivity; try lia.
  f_equal. apply IH. lia.
Qed.

Lemma substring_length i n s :
  (String.length (substring i n s) <= n)%nat.
Proof.
  revert i n. induction s as [|c s IH]; intros [|i] [|n]; cbn;
    try lia; try apply IH.
  specialize (IH 0%nat n). lia.
Qed.

Lemma substring_split s i n :
  (String.length s <= i + n)%nat ->
  s = substring 0 i s ++ substring i n s.
Proof.
  revert i n. induction s as [|c s IH]; intros i n L.
  - now destruct i, n.
  - destruct i as [|i].
    + rewrite (substring_over (String c s) n) by (cbn in *; lia).
      reflexivity.
    + cbn [substring append]. f_equal. apply IH. cbn in L. lia.
Qed.

Lemma substring_skip p s n :
  substring (String.length p) n (p ++ s) = substring 0 n s.
Proof. induction p as [|c p IH]; [reflexivity | exact IH]. Qed.

Lemma append_length (a b : string) :
  String.length (a ++ b) = (String.length a + String.length b)%nat.
Proof. induction a as [|c a IH]; cbn; [reflexivity | now rewrite IH]. Qed.

Lemma slice_last_generated (bs : Buffer) :
  List.length bs = 32%nat ->
  slice_last 8 ("cp" ++ "_" ++ toString_hex bs)
  = toString_hex (skipn 28 bs).
Proof.
  intros L. unfold slice_last.
  rewrite <- (firstn_skipn 28 bs) at 1 2.
  rewrite toString_hex_app.
  change ("cp" ++ "_" ++ toString_hex (firstn 28 bs)
          ++ toString_hex (skipn 28 bs))
    with (("cp_" ++ toString_hex (firstn 28 bs))
          ++ toString_hex (skipn 28 bs)).
  assert (Front : String.length ("cp_" ++ toString_hex (firstn 28 bs))
                  = 59%nat).
  { rewrite append_length, toString_hex_length, length_firstn.
    cbn [String.length]. lia. }
  assert (Back : String.length (toString_hex (skipn 28 bs)) = 8%nat).
  { rewrite toString_hex_length, length_skipn. lia. }
  assert (All : String.length (("cp_" ++ toString_hex (firstn 28 bs))
                               ++ toString_hex (skipn 28 bs))
                = 67%nat).
  { rewrite append_length, Front, Back. reflexivity. }
  rewrite All. change (67 - 8)%nat with 59%nat. rewrite <- Front.
  rewrite substring_skip. apply substring_over. lia.
Qed.

(** X22.  The JSON form of an API key does not hold the key: [toJSON]
    removes a key that is not empty and puts [keyPreview] in its place,
    three dots and the last 8 characters of the key (all of it, when it
    has no more).  For a key of [generateKey] these are the digits of
    the last 4 of its 32 random bytes. *)
Theorem toJSON_hides_the_key (this : APIKey) (k : string) :
  key this = Some k ->
  k <> EmptyString ->
  key (toJSON this) = None
  /\ keyPreview (toJSON this) = Some ("..." ++ slice_last 8 k)
  /\ (String.length (slice_last 8 k) <= 8)%nat
  /\ (exists front, k = front ++ slice_last 8 k)
  /\ (forall crypto_randomBytes,
         List.length (crypto_randomBytes 32%nat) = 32%nat ->
         k = generateKey crypto_randomBytes ->
         slice_last 8 k
         = toString_hex (skipn 28 (crypto_randomBytes 32%nat))).
Proof.
  intros K Given. unfold toJSON. cbv zeta. rewrite K.
  assert (T : truthy k = true) by (destruct k; [contradiction | reflexivity]).
  rewrite T. cbn [key keyPreview].
  split; [reflexivity|]. split; [reflexivity|].
  split; [apply substring_length|]. split.
  - exists (substring 0 (String.length k - 8) k). unfold slice_last.
    apply substring_split. lia.
  - intros rb L ->. now apply slice_last_generated.
Qed.

Lemma toJSON_witness_generated_key :
  key (toJSON aliceKey) = None
  /\ keyPreview (toJSON aliceKey) = Some "...a7a7a7a7".
Proof.
  assert (Given : generateKey randomBytesOf <> EmptyString)
    by discriminate.
  destruct (toJSON_hides_the_key aliceKey (generateKey randomBytesOf)
              eq_refl Given) as (Hidden & Preview & _).
  split; [exact Hidden|]. rewrite Preview. vm_compute. reflexivity.
Defined.

(* ================================================================== *)
(** ** The guard of the API routes *)
(* ================================================================== *)

Ltac refused :=
  unfold send, act; cbn [db actions app];
  eexists; split; [reflexivity|]; left; split; [reflexivity|];
  cbn [actions app]; eauto.

(** Every way through [verifyApiKey]: a 401 or a 500 with the collection
    as it was, or the request goes on with a valid key. *)
Lemma verifyApiKey_outcome kw req next keys :
  exists s',
    serve (verifyApiKey kw req next) keys = (Normal tt, s')
    /\ ((db s' = keys
         /\ exists code msg,
              actions s' = [Send code (errorBody msg)]
              /\ (code = 401 \/ code = 500))
        \/ exists keyDoc user,
             validKey kw keys req keyDoc user
             /\ db s' = match save_error kw with
                        | Some _ => keys
                        | None => saved (used (date_used kw) keyDoc) keys
                        end
             /\ actions s'
                = CallNext (admitted kw req keyDoc user)
                  :: match next (admitted kw req keyDoc user) with
                     | Normal _ => []
                     | Throw _ => [Send 500 keyError]
                     end).
Proof.
  unfold serve, verifyApiKey, htry.
  destruct (x_api_key req) as [[|c k]|] eqn:Hd; [refused | | refused].
  unfold hbind at 1, APIKey_findOne. cbn [db].
  destruct (APIKey_findOne_error kw) as [e|]; [refused|].
  destruct (find _ keys) as [keyDoc|] eqn:F; [|refused].
  apply find_some in F. destruct F as [Stored Key]. unfold keyIs in Key.
  destruct (key keyDoc) as [k'|] eqn:K; [|discriminate Key].
  apply String.eqb_eq in Key. subst k'.
  destruct (isActive keyDoc) eqn:A; cbn [negb]; [|refused].
  destruct (APIKey_isExpired (date_checked kw) keyDoc) eqn:X; [refused|].
  unfold hbind at 1, hlift at 1.
  destruct (find _ (users kw)) as [user|] eqn:U; [|refused].
  apply find_some in U. destruct U as [Known Id].
  apply String.eqb_eq in Id.
  destruct (user_isActive user) eqn:UA; cbn [negb]; [|refused].
  unfold hbind at 1, recordUsage. cbn [db actions].
  assert (V : validKey kw keys req keyDoc user).
  { unfold validKey. split.
    - exists (String c k).
      split; [exact Hd|]. split; [discriminate | exact K].
    - repeat split; assumption. }
  unfold callNext, hbind, hlift, act, send, admitted, keyError.
  destruct (save_error kw) as [e|]; cbn [db actions app];
    destruct (next _) as [[]|e'] eqn:N;
    (eexists; split; [reflexivity|]; right; exists keyDoc, user;
     split; [exact V|]; split; [reflexivity|]; cbn [actions app];
     rewrite N; reflexivity).
Qed.

Lemma saved_other this docs d :
  In d (saved this docs) ->
  apiKey_id d <> apiKey_id this ->
  In d docs.
Proof.
  unfold saved. intros Hin N. apply in_map_iff in Hin.
  destruct Hin as (d0 & E & Hin).
  destruct (String.eqb_spec (apiKey_id d0) (apiKey_id this)) as [Same|_].
  - subst d. cbn in N. contradiction.
  - now subst d.
Qed.

Lemma saved_used date this docs :
  In this docs -> In (used date this) (saved (used date this) docs).
Proof.
  unfold saved. intros Hin. apply in_map_iff. exists this.
  split; [|exact Hin]. cbn [apiKey_id used].
  rewrite String.eqb_refl. reflexivity.
Qed.

(** X23.  [verifyApiKey] calls [next()] only for a request whose
    [x-api-key] header is the key of a stored document that is active
    and has not expired, of a user who exists and is active.  The
    request handed on carries that user in [req.user], and in
    [req.apiKey] the document with this use already counted. *)
Theorem verifyApiKey_admits_valid_keys_only
    (kw : KeyWorld) (req : Request) (next : Request -> Completion unit)
    (keys : list APIKey) (req' : Request) :
  In (CallNext req')
     (actions (snd (serve (verifyApiKey kw req next) keys))) ->
  exists keyDoc user,
    validKey kw keys req keyDoc user
    /\ req_user req' = Some user
    /\ req_apiKey req' = Some (used (date_used kw) keyDoc)
    /\ req' = admitted kw req keyDoc user.
Proof.
  destruct (verifyApiKey_outcome kw req next keys)
    as (s' & R & [(_ & code & msg & A & _)|(keyDoc & user & V & _ & A)]);
    rewrite R; cbn [snd]; rewrite A.
  - intros [H|[]]. discriminate H.
  - intros Called. exists keyDoc, user. split; [exact V|].
    assert (E : req' = admitted kw req keyDoc user).
    { destruct Called as [H|H]; [now inversion H|].
      destruct (next _); [destruct H|].
      destruct H as [H|[]]. discriminate H. }
    subst req'. repeat split.
Qed.

(** X24.  A key whose user is gone is not answered as an invalid key:
    [populate] leaves [keyDoc.userId] null, reading its [isActive]
    throws, and the [catch] answers with status 500.  The use is not
    counted. *)
Theorem key_without_user_is_answered_500
    (kw : KeyWorld) (req : Request) (next : Request -> Completion unit)
    (keys : list APIKey) (c : ascii) (k : string) (keyDoc : APIKey) :
  x_api_key req = Some (String c k) ->
  APIKey_findOne_error kw = None ->
  find (keyIs (String c k)) keys = Some keyDoc ->
  isActive keyDoc = true ->
  APIKey_isExpired (date_checked kw) keyDoc = false ->
  find (userIs (apiKey_userId keyDoc)) (users kw) = None ->
  serve (verifyApiKey kw req next) keys
  = (Normal tt, mkHState keys [Send 500 keyError]).
Proof.
  intros Hd Io F A X U. unfold serve, verifyApiKey, htry. rewrite Hd.
  unfold hbind at 1, APIKey_findOne. cbn [db]. rewrite Io, F, A.
  cbn [negb]. rewrite X. unfold hbind at 1, hlift at 1. rewrite U.
  reflexivity.
Qed.

(** X25.  Behind [verifyApiKey, checkPermission(permission)], as the
    routes chain them, the handler is reached only with a valid key
    whose document grants the permission; [checkPermission] hands the
    request on as it got it. *)
Theorem guarded_route_needs_the_permission
    (kw : KeyWorld) (req : Request)
    (next next' : Request -> Completion unit) (keys keys' : list APIKey)
    (permission : Permission) (req' req'' : Request) :
  In (CallNext req')
     (actions (snd (serve (verifyApiKey kw req next) keys))) ->
  In (CallNext req'')
     (actions (snd (serve (checkPermission permission req' next') keys')))
  ->
  req'' = req'
  /\ exists keyDoc user,
       validKey kw keys req keyDoc user
       /\ allows (permissions keyDoc) permission = true.
Proof.
  destruct (verifyApiKey_outcome kw req next keys)
    as (s' & R & [(_ & code & msg & A & _)|(keyDoc & user & V & _ & A)]);
    rewrite R; cbn [snd]; rewrite A.
  - intros [H|[]]. discriminate H.
  - intros Called.
    assert (E : req' = admitted kw req keyDoc user).
    { destruct Called as [H|H]; [now inversion H|].
      destruct (next _); [destruct H|].
      destruct H as [H|[]]. discriminate H. }
    subst req'. unfold serve, checkPermission. cbv zeta.
    cbn [admitted withApiKey req_apiKey used permissions].
    destruct (allows (permissions keyDoc) permission) eqn:P; cbn [negb].
    + unfold callNext, hbind, hlift, act. cbn.
      intros Passed. split; [|now exists keyDoc, user].
      destruct Passed as [H|[]]. now inversion H.
    + unfold send, act. cbn. intros [H|[]]. discriminate H.
Qed.

(** X26.  [verifyApiKey] counts a use only for a request that it lets
    through.  A request that is refused leaves the collection as it
    was.  For one that goes on, the document in [req.apiKey] has its
    [usageCount] raised by one and [lastUsed] set; when the save goes
    through, the stored document with this [_id] has the same, and the
    documents with another [_id] are as they were; when the save fails,
    the request goes on all the same and the collection is as it was. *)
Theorem usage_is_counted_for_admitted_requests
    (kw : KeyWorld) (req : Request) (next : Request -> Completion unit)
    (keys : list APIKey) :
  let s' := snd (serve (verifyApiKey kw req next) keys) in
  ((forall req', ~ In (CallNext req') (actions s')) -> db s' = keys)
  /\ (forall req',
         In (CallNext req') (actions s') ->
         exists keyDoc,
           In keyDoc keys
           /\ req_apiKey req' = Some (used (date_used kw) keyDoc)
           /\ usageCount (used (date_used kw) keyDoc)
              = Number_add (usageCount keyDoc) 1
           /\ lastUsed (used (date_used kw) keyDoc) = Some (date_used kw)
           /\ (save_error kw <> None -> db s' = keys)
           /\ (save_error kw = None ->
               In (used (date_used kw) keyDoc) (db s')
               /\ forall d, In d (db s') ->
                            apiKey_id d <> apiKey_id keyDoc ->
                            In d keys)).
Proof.
  cbv zeta.
  destruct (verifyApiKey_outcome kw req next keys)
    as (s' & R & [(Db & code & msg & A & _)|(keyDoc & user & V & Db & A)]);
    rewrite R; cbn [snd]; rewrite A.
  - split; [intros _; exact Db|]. intros req' [H|[]]. discriminate H.
  - split.
    + intros Never. exfalso. apply (Never (admitted kw req keyDoc user)).
      now left.
    + intros req' Called.
      assert (E : req' = admitted kw req keyDoc user).
      { destruct Called as [H|H]; [now inversion H|].
        destruct (next _); [destruct H|].
        destruct H as [H|[]]. discriminate H. }
      subst req'. exists keyDoc.
      destruct V as (_ & Stored & _).
      split; [exact Stored|]. split; [reflexivity|].
      split; [reflexivity|]. split; [reflexivity|].
      rewrite Db. destruct (save_error kw) as [e|].
      * split; [reflexivity | discriminate].
      * split; [congruence|]. intros _. split.
        -- now apply saved_used.
        -- intros d Hin N. exact (saved_other _ _ _ Hin N).
Qed.

Lemma aliceKey_admitted :
  In (CallNext (admitted (keyWorld [alice])
                  (requestWithKey (generateKey randomBytesOf)) aliceKey
                  alice))
     (actions
        (snd (serve (verifyApiKey (keyWorld [alice])
                       (requestWithKey (generateKey randomBytesOf))
                       nextReturns) [aliceKey]))).
Proof. vm_compute. left. reflexivity. Qed.

Lemma verifyApiKey_witness_alice :
  exists keyDoc user,
    In keyDoc [aliceKey] /\ In user [alice]
    /\ isActive keyDoc = true /\ user_isActive user = true.
Proof.
  destruct (verifyApiKey_admits_valid_keys_only (keyWorld [alice])
              (requestWithKey (generateKey randomBytesOf)) nextReturns
              [aliceKey] _ aliceKey_admitted)
    as (keyDoc & user & (_ & Stored & A & _ & Known & _ & UA) & _).
  exists keyDoc, user. auto.
Defined.

Lemma key_without_user_witness :
  serve (verifyApiKey (keyWorld [])
           (requestWithKey (generateKey randomBytesOf)) nextReturns)
    [aliceKey]
  = (Normal tt, mkHState [aliceKey] [Send 500 keyError]).
Proof.
  assert (F : find (keyIs (generateKey randomBytesOf)) [aliceKey]
              = Some aliceKey)
    by (vm_compute; reflexivity).
  exact (key_without_user_is_answered_500 (keyWorld [])
           (requestWithKey (generateKey randomBytesOf)) nextReturns
           [aliceKey] _ _ aliceKey eq_refl eq_refl F eq_refl eq_refl
           eq_refl).
Defined.

Lemma guarded_route_witness_analyze :
  exists keyDoc user,
    validKey (keyWorld [alice]) [aliceKey]
      (requestWithKey (generateKey randomBytesOf)) keyDoc user
    /\ allows (permissions keyDoc) Analyze = true.
Proof.
  assert (Passed :
            In (CallNext (admitted (keyWorld [alice])
                            (requestWithKey (generateKey randomBytesOf))
                            aliceKey alice))
               (actions
                  (snd (serve
                          (checkPermission Analyze
                             (admitted (keyWorld [alice])
                                (requestWithKey (generateKey randomBytesOf))
                                aliceKey alice) nextReturns)
                          [aliceKey]))))
    by (vm_compute; left; reflexivity).
  destruct (guarded_route_needs_the_permission (keyWorld [alice])
              (requestWithKey (generateKey randomBytesOf)) nextReturns
              nextReturns [aliceKey] [aliceKey] Analyze _ _
              aliceKey_admitted Passed) as (_ & Granted).
  exact Granted.
Defined.

Lemma usage_witness_alice :
  exists keyDoc,
    In keyDoc [aliceKey]
    /\ usageCount (used (date_used (keyWorld [alice])) keyDoc)
       = Number_add (usageCount keyDoc) 1.
Proof.
  destruct (usage_is_counted_for_admitted_requests (keyWorld [alice])
              (requestWithKey (generateKey randomBytesOf)) nextReturns
              [aliceKey]) as (_ & Counted).
  destruct (Counted _ aliceKey_admitted)
    as (keyDoc & Stored & _ & Count & _).
  exists keyDoc. split; assumption.
Defined.

(* ================================================================== *)
(** ** Writing a record twice *)
(* ================================================================== *)

Lemma applyUpdate_newDocument date date' pd :
  applyUpdate date' pd (newDocument date pd)
  = touched date' (newDocument date pd).
Proof.
  unfold applyUpdate, newDocument, touched. cbn.
  destruct (pd_blockTime pd), (pd_slot pd), (pd_verifiedAt pd);
    reflexivity.
Qed.

Lemma applyUpdate_twice date date' pd d :
  applyUpdate date' pd (applyUpdate date pd d)
  = touched date' (applyUpdate date pd d).
Proof.
  unfold applyUpdate, touched. cbn.
  destruct (pd_blockTime pd), (pd_slot pd), (pd_verifiedAt pd);
    reflexivity.
Qed.

Lemma upsert_twice date date' pd docs :
  snd (upsert date' pd (fst (upsert date pd docs)))
  = touched date' (snd (upsert date pd docs))
  /\ List.length (fst (upsert date' pd (fst (upsert date pd docs))))
     = List.length (fst (upsert date pd docs)).
Proof.
  induction docs as [|d rest IH].
  - cbn. rewrite String.eqb_refl. cbn.
    now rewrite applyUpdate_newDocument.
  - cbn [upsert].
    destruct (String.eqb (transactionSignature d)
                (pd_transactionSignature pd)) eqn:E.
    + cbn. rewrite String.eqb_refl. cbn. now rewrite applyUpdate_twice.
    + destruct (upsert date pd rest) as [rest' p] eqn:U. cbn in *.
      rewrite E. destruct (upsert date' pd rest') as [rest'' p'].
      cbn in *. destruct IH as [IH1 IH2]. now rewrite IH1, IH2.
Qed.

Lemma touched_same date p : updatedAt p = date -> touched date p = p.
Proof. intros <-. now destruct p. Qed.

Lemma upsert_updatedAt date pd docs :
  updatedAt (snd (upsert date pd docs)) = date.
Proof.
  induction docs as [|d rest IH]; cbn; [reflexivity|].
  destruct (String.eqb (transactionSignature d)
              (pd_transactionSignature pd)); cbn; [reflexivity|].
  destruct (upsert date pd rest). exact IH.
Qed.

Lemma upsert_twice_same date pd docs :
  upsert date pd (fst (upsert date pd docs)) = upsert date pd docs.
Proof.
  induction docs as [|d rest IH].
  - cbn. rewrite String.eqb_refl.
    rewrite applyUpdate_newDocument, touched_same; reflexivity.
  - cbn [upsert].
    destruct (String.eqb (transactionSignature d)
                (pd_transactionSignature pd)) eqn:E.
    + cbn. rewrite String.eqb_refl.
      rewrite applyUpdate_twice, touched_same; reflexivity.
    + destruct (upsert date pd rest) as [rest' p] eqn:U. cbn in *.
      now rewrite E, IH.
Qed.

Lemma upsert_length date pd docs :
  (List.length docs <= List.length (fst (upsert date pd docs))
   <= S (List.length docs))%nat.
Proof.
  induction docs as [|d rest IH]; cbn; [lia|].
  destruct (String.eqb (transactionSignature d)
              (pd_transactionSignature pd)); cbn; [lia|].
  destruct (upsert date pd rest) as [rest' p]. cbn in *. lia.
Qed.

(** X27.  [createPaymentRecord] is an upsert by signature.  After the
    write, the document is the one found under its signature, what is
    found under any other signature is as before, and the collection
    has grown by one document at most.  Written a second time, the same
    data adds no document: the second write returns the document of the
    first with [updatedAt], which Mongoose keeps, moved to the date of
    the second write, and nothing else changed; at the same date the
    two writes leave what one leaves. *)
Theorem createPaymentRecord_is_idempotent
    (w w' : World) (pd : PaymentData) (st : State) :
  findOneAndUpdate_error w = None ->
  findOneAndUpdate_error w' = None ->
  let first := createPaymentRecord w pd st in
  let second := createPaymentRecord w' pd (snd first) in
  (exists p,
      fst first = Normal p
      /\ lookup (pd_transactionSignature pd) (collection (snd first))
         = Some p
      /\ fst second = Normal (touched (now w') p)
      /\ lookup (pd_transactionSignature pd) (collection (snd second))
         = Some (touched (now w') p))
  /\ (forall k, k <> pd_transactionSignature pd ->
                lookup k (collection (snd first))
                = lookup k (collection st)
                /\ lookup k (collection (snd second))
                   = lookup k (collection st))
  /\ (List.length (collection st)
      <= List.length (collection (snd first))
      <= S (List.length (collection st)))%nat
  /\ List.length (collection (snd second))
     = List.length (collection (snd first))
  /\ (now w' = now w ->
      fst second = fst first
      /\ collection (snd second) = collection (snd first)).
Proof.
  intros W W'. cbv zeta. rewrite !createPaymentRecord_run, W.
  cbn [fst snd collection]. rewrite W'. cbn [fst snd collection].
  destruct (upsert_twice (now w) (now w') pd (collection st)) as [Doc Len].
  split; [|split; [|split; [|split]]].
  - exists (snd (upsert (now w) pd (collection st))).
    split; [reflexivity|]. split; [apply lookup_upsert|].
    split; [now rewrite Doc|].
    rewrite <- Doc. apply lookup_upsert.
  - intros k N. split.
    + apply upsert_lookup_other. congruence.
    + rewrite !upsert_lookup_other by congruence. reflexivity.
  - apply upsert_length.
  - exact Len.
  - intros ->. now rewrite upsert_twice_same.
Qed.

Lemma createPaymentRecord_witness_twice :
  exists p,
    fst (createPaymentRecord (worldUnconfirmed txPay 1000)
           (failedPaymentData controller None (bs58_encode SIG_A) 100000
              (Some senderAccount) "/api/mu-checker/analyze")
           (mkState [] []))
    = Normal p
    /\ status p = failed
    /\ fst (createPaymentRecord (worldUnconfirmed txPay 2000)
              (failedPaymentData controller None (bs58_encode SIG_A) 100000
                 (Some senderAccount) "/api/mu-checker/analyze")
              (snd (createPaymentRecord (worldUnconfirmed txPay 1000)
                      (failedPaymentData controller None
                         (bs58_encode SIG_A) 100000 (Some senderAccount)
                         "/api/mu-checker/analyze")
                      (mkState [] []))))
       = Normal (touched 2000 p).
Proof.
  destruct (createPaymentRecord_is_idempotent
              (worldUnconfirmed txPay 1000) (worldUnconfirmed txPay 2000)
              (failedPaymentData controller None (bs58_encode SIG_A) 100000
                 (Some senderAccount) "/api/mu-checker/analyze")
              (mkState [] []) eq_refl eq_refl)
    as ((p & R & _ & R' & _) & _).
  exists p. split; [exact R|]. split; [|exact R'].
  apply Normal_injective in R. now subst p.
Defined.

(* ================================================================== *)
(** ** What the static validation does not read *)
(* ================================================================== *)

Lemma scanInstructions_same l l' :
  Forall2 sameTransfer l l' ->
  match scanInstructions l, scanInstructions l' with
  | Throw e, Throw e' => e = e'
  | Normal None, Normal None => True
  | Normal (Some f), Normal (Some f') =>
      found_amount f = found_amount f'
      /\ senderTokenAccount f = senderTokenAccount f'
  | _, _ => False
  end.
Proof.
  induction 1 as [|i i' l l' (P & D & S) _ IH]; cbn; [exact I|].
  rewrite <- P, <- D.
  destruct (String.eqb (programId i) TOKEN_PROGRAM_ID); [|exact IH].
  destruct (isTransferData (data i)); [|exact IH].
  destruct (readBigUInt64LE (data i) 1) as [big|e]; [|reflexivity].
  cbn. split; [reflexivity|].
  unfold reportedSender in S.
  destruct (keys i) as [|k [|k2 ks]], (keys i') as [|k' [|k2' ks']];
    cbn in *; congruence.
Qed.

(** X28.  The static validation reads of each instruction the program,
    the data and, of its accounts, the first one where there are two:
    transactions whose instructions agree on these get the same
    verdict.  So the destination of the transfer plays no part before
    the transaction is submitted; it is looked at on chain only. *)
Theorem validation_ignores_the_destination
    (this : PaymentController) (tx tx' : Transaction) :
  Forall2 sameTransfer (instructions tx) (instructions tx') ->
  validateTransactionInstructions this tx
  = validateTransactionInstructions this tx'.
Proof.
  intros Same. pose proof (scanInstructions_same _ _ Same) as Scan.
  unfold validateTransactionInstructions.
  destruct Same as [|i i' l l' Hi Hl]; [reflexivity|].
  destruct (scanInstructions (i :: l)) as [[f|]|e],
           (scanInstructions (i' :: l')) as [[f'|]|e'];
    try contradiction; try reflexivity.
  - destruct Scan as [A S]. now rewrite A, S.
  - now subst e'.
Qed.

Lemma validation_witness_elsewhere :
  validateTransactionInstructions controller txElsewhere
  = Valid 100000 (Some senderAccount).
Proof.
  assert (Same : Forall2 sameTransfer (instructions txPay)
                   (instructions txElsewhere)).
  { repeat constructor. }
  rewrite <- (validation_ignores_the_destination controller txPay
                txElsewhere Same).
  exact txPay_valid.
Defined.

(* ================================================================== *)
(** ** A balance without owner *)
(* ================================================================== *)

Lemma Map_set_head k v k0 a0 (m : AccountMap) :
  k0 <> k -> exists rest, Map_set k v ((k0, a0) :: m) = (k0, a0) :: rest.
Proof.
  intros N. cbn. destruct (Z.eqb_spec k0 k); [contradiction | eauto].
Qed.

Lemma fold_processPre_head pres k0 a0 (m : AccountMap) :
  ~ In k0 (map accountIndex pres) ->
  exists rest, fold_left processPre pres ((k0, a0) :: m) = (k0, a0) :: rest.
Proof.
  revert m. induction pres as [|b pres IH]; intros m N; cbn [fold_left].
  - eauto.
  - unfold processPre at 2.
    destruct (Map_set_head (accountIndex b)
                {| pre := Number_round (uiTokenAmount_amount b);
                   post := 0; owner := tb_owner b; mint := tb_mint b |}
                k0 a0 m) as (rest & ->).
    + intros E. apply N. now left.
    + apply IH. intros H. apply N. now right.
Qed.

Lemma fold_processPost_head posts k0 a0 (m : AccountMap) :
  owner a0 = None ->
  exists a rest,
    fold_left processPost posts ((k0, a0) :: m) = (k0, a) :: rest
    /\ owner a = None.
Proof.
  revert a0 m. induction posts as [|b posts IH]; intros a0 m O;
    cbn [fold_left].
  - eauto.
  - unfold processPost at 2. cbn [Map_get Map_set].
    destruct (Z.eqb_spec k0 (accountIndex b)) as [E|E].
    + rewrite <- E. now apply IH.
    + destruct (Map_get (accountIndex b) m); now apply IH.
Qed.

(** X29.  A balance without owner ends the search for transfers: when
    the first pre-balance has no owner (and its account index is not
    listed again), the loop of [parseTokenTransfers] throws at its
    first entry, the [catch] returns no transfer, and
    [verifyOnChainTransfer] answers [No matching token transfer found],
    whatever the other balances show and whatever the log says. *)
Theorem balance_without_owner_hides_the_transfers
    (this : PaymentController) (w : World) (sig : string)
    (expectedSender : option string) (expectedAmount : Z) (st : State)
    (txd : TransactionResponse) (m : TransactionMeta)
    (b : TokenBalance) (pres posts : list TokenBalance) :
  getTransaction_rpc w sig = Normal (Some txd) ->
  meta txd = Some m ->
  preTokenBalances m = Some (b :: pres) ->
  postTokenBalances m = Some posts ->
  tb_owner b = None ->
  ~ In (accountIndex b) (map accountIndex pres) ->
  parseTokenTransfers this txd = []
  /\ fst (verifyOnChainTransfer this w sig expectedSender expectedAmount st)
     = Normal (TransferFailure "No matching token transfer found").
Proof.
  intros G Hm Hpre Hpost O Once.
  assert (P : parseTokenTransfers this txd = []).
  { unfold parseTokenTransfers. rewrite Hm, Hpost, Hpre.
    unfold buildAccountMap. cbn [fold_left]. unfold processPre at 2.
    cbn [Map_set].
    destruct (fold_processPre_head pres (accountIndex b)
                {| pre := Number_round (uiTokenAmount_amount b);
                   post := 0; owner := tb_owner b; mint := tb_mint b |}
                [] Once) as (rest & ->).
    destruct (fold_processPost_head posts (accountIndex b)
                {| pre := Number_round (uiTokenAmount_amount b);
                   post := 0; owner := tb_owner b; mint := tb_mint b |}
                rest O) as (a & rest' & -> & Oa).
    cbn [increases]. now rewrite Oa. }
  split; [exact P|].
  rewrite verifyOnChainTransfer_run, G. cbn [fst]. f_equal.
  unfold transferCheck. now rewrite P.
Qed.

Lemma balance_without_owner_witness :
  parseTokenTransfers controller finalizedUnowned = []
  /\ balanceAt 2 (balancesAfter 100000) - balanceAt 2 balancesBeforeUnowned
     = 100000.
Proof.
  assert (Once : ~ In 1 (map accountIndex
                           [mkTokenBalance 2 (cfg_tokenMint controller)
                              (Some (paymentWallet controller)) 0])).
  { cbn. intuition discriminate. }
  destruct (balance_without_owner_hides_the_transfers controller
              (world txPay (Normal (bs58_encode SIG_A)) (Normal None)
                 (Some finalizedUnowned) 1000)
              (bs58_encode SIG_A) (Some senderAccount) 100000
              (mkState [] []) finalizedUnowned _ _ _ _
              eq_refl eq_refl eq_refl eq_refl eq_refl Once) as (P & _).
  split; [exact P | reflexivity].
Defined.
